(** * judge_micro: the sandbox execution engine

    A shallow embedding of [judge_micro/services/micro.py]
    ([JudgeMicroservice.run_microservice], [optimized_batch_test] and their
    helpers) and of the response conversion of
    [judge_micro/api/routes/judge.py], with the properties of the
    specification stated and proved over it.

    Conventions of the embedding.
    - A Python [str] is a Rocq [string] holding its UTF-8 encoding; [bytes]
      is [list byte].  [str.encode('utf-8')] is therefore the identity on
      the underlying bytes and [bytes.decode] is [decode_utf8] below.
    - A Python [float] holding a time is a rational ([Q]); only subtraction
      and comparison are used on it.  A product of floats is rounded by the
      interpreter: it is not computed here but taken from the outside world.
    - A Python [dict] with string keys is a [gmap string pyval].
    - The container runtime, the clock and the [json] module are the outside
      world: their answers are the fields of [World].  Every call issued to
      the container is recorded in the [log] of the state.
    - Control flow ([return], [continue], [raise], [try]/[except]/[finally])
      is a small monad with one outcome per way of leaving a block.
    - [print] statements are not modelled. *)

From Stdlib Require Import ZArith QArith String Ascii List Lia.
From stdpp Require Import base gmap strings list pretty.

Set Warnings "-register-all,-clear-no-such-hyp".
Set Default Proof Using "Type".

Local Open Scope string_scope.
Local Open Scope Z_scope.

(** ** Python values *)

Inductive pyval :=
| PNone
| PBool (b : bool)
| PInt (z : Z)
| PFloat (q : Q)
| PStr (s : string)
| PList (l : list pyval)
| PDict (d : gmap string pyval).

Abbreviation dict := (gmap string pyval).
Abbreviation bytes := (list Byte.byte).

(** An exception instance: its class name and [str(e)]. *)
Record exn := Exception { exn_class : string; exn_str : string }.

(** What a call into the outside world does: it returns or it raises. *)
Inductive answer (A : Type) :=
| Returns (a : A)
| Raises (e : exn).
Arguments Returns {A} a.
Arguments Raises {A} e.

(** ** Strings *)

(** [s.startswith(p)] *)
Definition startswith (p s : string) : bool := String.prefix p s.

(** [s.endswith(p)] *)
Definition endswith (p s : string) : bool :=
  let n := String.length s in
  let k := String.length p in
  if (k <=? n)%nat then String.eqb (String.substring (n - k) k s) p else false.

(** [len(s)] counts code points: the bytes that are not continuation bytes. *)
Definition is_continuation_byte (b : N) : bool :=
  ((128 <=? b) && (b <=? 191))%N.

Definition py_len (s : string) : nat :=
  List.length
    (List.filter (fun b => negb (is_continuation_byte (Byte.to_N b)))
       (list_byte_of_string s)).

(** ** [bytes.decode('utf-8', errors=...)]

    The decoder of the interpreter: the head of the input is either a
    well-formed sequence of 1 to 4 bytes or an error range of 1 to 3 bytes
    (an invalid start byte, a sequence cut by an invalid continuation byte,
    or a sequence cut by the end of the data). *)

Inductive errors := Strict | Ignore | Replace.

(** [(true, n)]: a well-formed sequence of [n] bytes; [(false, n)]: an
    error range of [n] bytes. *)
Definition utf8_head (l : list N) : bool * nat :=
  match l with
  | [] => (true, 0%nat)
  | b0 :: r =>
    if (b0 <? 128)%N then (true, 1%nat)
    else if (b0 <? 194)%N then (false, 1%nat)
    else if (b0 <? 224)%N then
      match r with
      | [] => (false, 1%nat)
      | b1 :: _ => if is_continuation_byte b1 then (true, 2%nat) else (false, 1%nat)
      end
    else if (b0 <? 240)%N then
      match r with
      | [] => (false, 1%nat)
      | b1 :: r1 =>
        if negb (is_continuation_byte b1)
           || (if (b1 <? 160)%N then (b0 =? 224)%N else (b0 =? 237)%N)
        then (false, 1%nat)
        else match r1 with
             | [] => (false, 2%nat)
             | b2 :: _ =>
               if is_continuation_byte b2 then (true, 3%nat) else (false, 2%nat)
             end
      end
    else if (b0 <? 245)%N then
      match r with
      | [] => (false, 1%nat)
      | b1 :: r1 =>
        if negb (is_continuation_byte b1)
           || (if (b1 <? 144)%N then (b0 =? 240)%N else (b0 =? 244)%N)
        then (false, 1%nat)
        else match r1 with
             | [] => (false, 2%nat)
             | b2 :: r2 =>
               if negb (is_continuation_byte b2) then (false, 2%nat)
               else match r2 with
                    | [] => (false, 3%nat)
                    | b3 :: _ =>
                      if is_continuation_byte b3 then (true, 4%nat)
                      else (false, 3%nat)
                    end
             end
      end
    else (false, 1%nat)
  end.

(** U+FFFD, the replacement character, in UTF-8. *)
Definition replacement_character : string :=
  String (ascii_of_nat 239) (String (ascii_of_nat 191) (String (ascii_of_nat 189) "")).

Definition UnicodeDecodeError : exn :=
  Exception "UnicodeDecodeError" "'utf-8' codec can't decode bytes".

(** [pending] bytes of the sequence or error range met last are still to
    be consumed; they are copied when [keep] is set and dropped otherwise. *)
Fixpoint decode_from (e : errors) (keep : bool) (pending : nat) (l : bytes)
  : answer string :=
  match l with
  | [] => Returns ""
  | b :: r =>
    match pending with
    | S k =>
      match decode_from e keep k r with
      | Returns s => Returns (if keep then String (ascii_of_byte b) s else s)
      | Raises x => Raises x
      end
    | O =>
      let '(ok, n) := utf8_head (List.map Byte.to_N l) in
      if ok then
        match decode_from e true (Nat.pred n) r with
        | Returns s => Returns (String (ascii_of_byte b) s)
        | Raises x => Raises x
        end
      else
        match e with
        | Strict => Raises UnicodeDecodeError
        | Ignore => decode_from e false (Nat.pred n) r
        | Replace =>
          match decode_from e false (Nat.pred n) r with
          | Returns s => Returns (replacement_character +:+ s)
          | Raises x => Raises x
          end
        end
    end
  end.

Definition decode_utf8 (e : errors) (b : bytes) : answer string :=
  decode_from e true 0 b.

(** With [errors='ignore'] or [errors='replace'] decoding never raises. *)
Definition decode_lenient (e : errors) (b : bytes) : string :=
  match decode_utf8 e b with
  | Returns s => s
  | Raises _ => ""
  end.

(** [s.encode('utf-8')] *)
Definition encode_utf8 (s : string) : bytes := list_byte_of_string s.

(** ** The outside world *)

(** The value of [container.exec_run]. *)
Record ExecResult := { exit_code : Z; output : bytes }.

(** One entry of a tape archive ([tarfile.TarInfo] and the file's bytes);
    [tm_isfile] is [type == REGTYPE]. *)
Record TarMember := {
  tm_name : string;
  tm_isfile : bool;
  tm_mode : Z;
  tm_mtime : Q;
  tm_data : bytes
}.

(** The stream of [container.get_archive]: a tape archive, or bytes that
    [tarfile.open] refuses. *)
Inductive archive :=
| NotATar
| Tar (members : list TarMember).

(** The answers of the outside world during one invocation.  Each field is
    one call site of the engine; a call site inside the loop over the test
    configurations is indexed by the position of the configuration, and
    [put_archive] by the rank of the upload. *)
Record World := {
  clock : nat -> Q;                       (* k-th reading of time.time() *)
  float_mul : Z -> Q -> Q;                (* n * x on a float x, rounded *)
  json_loads : string -> answer pyval;
  json_dumps : pyval -> string;           (* json.dumps(config, indent=2) *)
  containers_create : answer unit;
  container_start : answer unit;
  put_archive : nat -> answer unit;
  exec_compile : answer ExecResult;       (* make clean && make build *)
  exec_test : nat -> answer ExecResult;   (* make test *)
  stop_on_timeout : answer unit;          (* stop issued when the wall time is exceeded *)
  get_archive : nat -> answer archive;
  stop_at_teardown : answer unit;
  remove_at_teardown : answer unit
}.

(** The calls the engine issues to the container runtime. *)
Inductive Call :=
| ContainersCreate (image : string) (cpu_quota : Z) (mem_limit : string)
    (privileged network_disabled : bool) (command : string) (detach : bool)
| ContainerStart
| PutArchive (path : string) (tar : list TarMember)
| ExecRun (cmd : string) (workdir : string)
| GetArchive (path : string)
| ContainerStop (timeout : Z)
| ContainerRemove.

(** ** The state of one invocation and its control flow *)

(** [container] is the local variable of that name ([None] until
    [containers.create] has returned); [results] is the list the batch
    loop appends to. *)
Record State := {
  log : list Call;
  ticks : nat;
  container : bool;
  results : list dict
}.

Definition initial : State :=
  {| log := []; ticks := 0; container := false; results := [] |}.

(** The ways of leaving a block of statements. *)
Inductive outcome (R A : Type) :=
| Normal (a : A)
| Returned (v : R)
| Continued
| Raised (e : exn).
Arguments Normal {R A} a.
Arguments Returned {R A} v.
Arguments Continued {R A}.
Arguments Raised {R A} e.

Definition M (R A : Type) : Type := World -> State -> outcome R A * State.

Definition ret {R A} (a : A) : M R A := fun _ s => (Normal a, s).

Definition bind {R A B} (m : M R A) (k : A -> M R B) : M R B :=
  fun w s =>
    match m w s with
    | (Normal a, s') => k a w s'
    | (Returned v, s') => (Returned v, s')
    | (Continued, s') => (Continued, s')
    | (Raised e, s') => (Raised e, s')
    end.

#[global] Instance M_ret R : MRet (M R) := @ret R.
#[global] Instance M_bind R : MBind (M R) := fun A B k m => bind m k.

Definition return_ {R A} (v : R) : M R A := fun _ s => (Returned v, s).
Definition continue_ {R A} : M R A := fun _ s => (Continued, s).
Definition raise {R A} (e : exn) : M R A := fun _ s => (Raised e, s).

(** [try: body except Exception as e: handler e] *)
Definition try_except {R A} (body : M R A) (handler : exn -> M R A) : M R A :=
  fun w s =>
    match body w s with
    | (Raised e, s') => handler e w s'
    | r => r
    end.

(** [try: body finally: cleanup]: the cleanup runs however the body is
    left, and the way the body was left stands unless the cleanup itself
    is left by [return], [continue] or an exception. *)
Definition try_finally {R A} (body : M R A) (cleanup : M R unit) : M R A :=
  fun w s =>
    let '(r, s') := body w s in
    match cleanup w s' with
    | (Normal _, s'') => (r, s'')
    | (Returned v, s'') => (Returned v, s'')
    | (Continued, s'') => (Continued, s'')
    | (Raised e, s'') => (Raised e, s'')
    end.

(** [for i, x in enumerate(xs, start)]: [continue] ends the iteration. *)
Fixpoint for_enumerate {R A} (start : nat) (xs : list A) (body : nat -> A -> M R unit)
  : M R unit :=
  match xs with
  | [] => ret tt
  | x :: rest =>
    fun w s =>
      match body start x w s with
      | (Normal _, s') | (Continued, s') => for_enumerate (S start) rest body w s'
      | (Returned v, s') => (Returned v, s')
      | (Raised e, s') => (Raised e, s')
      end
  end.

(** [time.time()] *)
Definition time_time {R} : M R Q :=
  fun w s =>
    (Normal (clock w (ticks s)),
     {| log := log s; ticks := S (ticks s); container := container s;
        results := results s |}).

(** A call to the container runtime: recorded, then answered by the world. *)
Definition call {R A} (c : Call) (a : World -> answer A) : M R A :=
  fun w s =>
    let s' := {| log := log s ++ [c]; ticks := ticks s; container := container s;
                 results := results s |} in
    match a w with
    | Returns x => (Normal x, s')
    | Raises e => (Raised e, s')
    end.

(** [container = ...] *)
Definition set_container {R} (b : bool) : M R unit :=
  fun _ s =>
    (Normal tt,
     {| log := log s; ticks := ticks s; container := b; results := results s |}).

Definition get_container {R} : M R bool := fun _ s => (Normal (container s), s).

(** [results.append(r)] *)
Definition results_append {R} (r : dict) : M R unit :=
  fun _ s =>
    (Normal tt,
     {| log := log s; ticks := ticks s; container := container s;
        results := results s ++ [r] |}).

Definition get_results {R} : M R (list dict) := fun _ s => (Normal (results s), s).

(** [results = []] *)
Definition set_results {R} (l : list dict) : M R unit :=
  fun _ s =>
    (Normal tt,
     {| log := log s; ticks := ticks s; container := container s; results := l |}).

(** An answer of a pure helper that may raise. *)
Definition lift {R A} (a : answer A) : M R A :=
  match a with
  | Returns x => ret x
  | Raises e => raise e
  end.

Definition ask {R A} (f : World -> A) : M R A := fun w s => (Normal (f w), s).

(** [json.loads(content)] *)
Definition loads {R} (content : string) : M R pyval :=
  fun w => lift (json_loads w content) w.

(** ** Configuration *)

(** [judge_micro.config.settings.setting] (not part of the sources read
    here): the attributes the engine reads.  [compile_timeout] is read with
    [getattr(setting, 'compile_timeout', 30)], so it may be absent. *)
Record Settings := {
  compile_timeout : option Z;
  container_timeout : Z;
  container_cpu : Q;
  container_mem : string;
  setting_continue_on_timeout : bool
}.

(** The instance attributes of [JudgeMicroservice]. *)
Record JudgeMicroservice := { continue_on_timeout : bool }.

(** [int(x)] on a float truncates towards zero. *)
Definition int_of_float (x : Q) : Z := Z.quot (Qnum x) (Zpos (Qden x)).

(** [a > b] on floats. *)
Definition Qgtb (a b : Q) : bool := negb (Qle_bool a b).

Definition double_quote : string := String (ascii_of_nat 34) "".

(** The command lines handed to [exec_run]. *)
Definition compile_command (compile_timeout_val : Z) : string :=
  "bash -c 'timeout " +:+ pretty compile_timeout_val +:+ " bash -c " +:+ double_quote
  +:+ "make clean >/dev/null 2>&1 && make build >/dev/null 2>&1" +:+ double_quote +:+ "'".

Definition test_command_plain : string := "bash -c 'make test >/dev/null 2>&1'".

Definition test_command_timeout (execution_timeout_val : Z) : string :=
  "bash -c 'timeout " +:+ pretty execution_timeout_val +:+ " make test >/dev/null 2>&1'".

(** [v[key] = x]: in place on a dict, a [TypeError] on anything else that
    [json.loads] can give. *)
Definition setitem (v : pyval) (key : string) (x : pyval) : answer pyval :=
  match v with
  | PDict d => Returns (PDict (<[key := x]> d))
  | PList _ =>
    Raises (Exception "TypeError" "list indices must be integers or slices, not str")
  | _ => Raises (Exception "TypeError" "object does not support item assignment")
  end.

(** A dict literal. *)
Definition dict_of (l : list (string * pyval)) : dict := list_to_map l.

Section Engine.

  (** [judge_micro.docker.images.DOCKER_IMAGES] and the settings object are
      module-level objects defined outside the sources read here. *)
  Variable DOCKER_IMAGES : gmap string string.
  Variable setting : Settings.

  (** [JudgeMicroservice.__init__] (with a client at hand). *)
Definition JudgeMicroservice_init (continue_on_timeout : option bool) : JudgeMicroservice :=
    {| continue_on_timeout :=
         match continue_on_timeout with
         | Some b => b
         | None => setting_continue_on_timeout setting
         end |}.

Definition supported (language : string) : bool :=
    bool_decide (is_Some (DOCKER_IMAGES !! language)).

Definition image_of (language : string) : string :=
    default "" (DOCKER_IMAGES !! language).

Definition user_filename_of (language : string) : string :=
    if startswith "python" language then "user.py"
    else if String.eqb language "c" then "user.c" else "user.cpp".

  (** [self.docker_client.containers.create(...)], bound to [container]. *)
Definition create_container {R} (image_name : string) : M R unit :=
    cpu_quota ← ask (fun w => int_of_float (float_mul w 100000 (container_cpu setting))) ;
    call (ContainersCreate image_name cpu_quota
            (container_mem setting) false true "sleep infinity" true)
         containers_create ;;
    set_container true.

  (** [_create_file_tar] *)
Definition _create_file_tar {R} (user_code : string) (config : pyval)
      (user_filename : string) : M R (list TarMember) :=
    let user_data := encode_utf8 user_code in
    user_mtime ← time_time ;
    dumped ← ask (fun w => json_dumps w config) ;
    let config_data := encode_utf8 dumped in
    config_mtime ← time_time ;
    mret [ {| tm_name := user_filename; tm_isfile := true; tm_mode := 420;
              tm_mtime := user_mtime; tm_data := user_data |};
           {| tm_name := "config.json"; tm_isfile := true; tm_mode := 420;
              tm_mtime := config_mtime; tm_data := config_data |} ].

  (** [_create_user_code_tar] *)
Definition _create_user_code_tar {R} (user_code user_filename : string)
      : M R (list TarMember) :=
    let user_data := encode_utf8 user_code in
    user_mtime ← time_time ;
    mret [ {| tm_name := user_filename; tm_isfile := true; tm_mode := 420;
              tm_mtime := user_mtime; tm_data := user_data |} ].

  (** [_create_config_tar] *)
Definition _create_config_tar {R} (config : pyval) : M R (list TarMember) :=
    dumped ← ask (fun w => json_dumps w config) ;
    let config_data := encode_utf8 dumped in
    config_mtime ← time_time ;
    mret [ {| tm_name := "config.json"; tm_isfile := true; tm_mode := 420;
              tm_mtime := config_mtime; tm_data := config_data |} ].

  (** [_extract_result_from_tar]: the first regular file whose name ends
      with [result.json], decoded strictly. *)
Fixpoint first_result (members : list TarMember) : answer string :=
    match members with
    | [] => Raises (Exception "Exception" "Unable to find result file")
    | member :: rest =>
      if tm_isfile member && endswith "result.json" (tm_name member)
      then decode_utf8 Strict (tm_data member)
      else first_result rest
    end.

Definition _extract_result_from_tar (a : archive) : answer string :=
    match a with
    | NotATar => Raises (Exception "ReadError" "file could not be opened successfully")
    | Tar members => first_result members
    end.

  (** The [finally] block of both entry points. *)
Definition teardown {R} : M R unit :=
    c ← get_container ;
    if c : bool then
      try_except
        (call (ContainerStop 1) stop_at_teardown ;;
         call ContainerRemove remove_at_teardown)
        (fun _ => mret tt)
    else mret tt.

  (** Steps 1 to 3 of [run_microservice]: create and start the container,
      upload the code and the configuration. *)
Definition stage_step (language user_code : string) (config : pyval) : M dict unit :=
    create_container (image_of language) ;;
    call ContainerStart container_start ;;
    let user_filename := user_filename_of language in
    tar_data ← _create_file_tar user_code config user_filename ;
    call (PutArchive "/app" tar_data) (fun w => put_archive w 0).

  (** Step 4 of [run_microservice]: compile, for a language that is not
      Python.  Its value is [compile_start_time]. *)
Definition compile_step (language : string) (compile_timeout_val : Z) (start_time : Q)
      : M dict Q :=
    let is_python := startswith "python" language in
    if negb is_python then
      compile_start_time ← time_time ;
      try_except
        (compile_result ←
           call (ExecRun (compile_command compile_timeout_val) "/app") exec_compile ;
         t ← time_time ;
         let compile_execution_time := (t - compile_start_time)%Q in
         (if Qgtb compile_execution_time (inject_Z compile_timeout_val) then
            call (ContainerStop 1) stop_on_timeout ;;
            t1 ← time_time ;
            return_ (dict_of [
              ("status", PStr "COMPILE_TIMEOUT");
              ("message", PStr ("Compilation exceeded timeout limit of "
                                +:+ pretty compile_timeout_val +:+ " seconds"));
              ("execution_time", PFloat (t1 - start_time));
              ("compile_execution_time", PFloat compile_execution_time) ])
          else mret tt) ;;
         (if negb (exit_code compile_result =? 0) then
            if exit_code compile_result =? 124 then
              t1 ← time_time ;
              return_ (dict_of [
                ("status", PStr "COMPILE_TIMEOUT");
                ("message", PStr ("Compilation exceeded timeout limit of "
                                  +:+ pretty compile_timeout_val +:+ " seconds"));
                ("execution_time", PFloat (t1 - start_time));
                ("compile_execution_time", PFloat compile_execution_time) ])
            else
              t1 ← time_time ;
              return_ (dict_of [
                ("status", PStr "COMPILE_ERROR");
                ("message", PStr "Compilation failed");
                ("compile_output",
                 PStr (decode_lenient Ignore (output compile_result)));
                ("execution_time", PFloat (t1 - start_time));
                ("compile_execution_time", PFloat compile_execution_time) ])
          else mret tt) ;;
         mret compile_start_time)
        (fun compile_error =>
           t1 ← time_time ;
           t2 ← time_time ;
           return_ (dict_of [
             ("status", PStr "COMPILE_ERROR");
             ("message", PStr ("Compilation error: " +:+ exn_str compile_error));
             ("execution_time", PFloat (t1 - start_time));
             ("compile_execution_time", PFloat (t2 - compile_start_time)) ]))
    else
      compile_start_time ← time_time ;
      mret compile_start_time.

  (** Step 5 of [run_microservice]: run the test.  Its value is
      [exec_result]. *)
Definition execute_step (self : JudgeMicroservice) (execution_timeout_val : Z)
      (start_time compile_start_time test_start_time : Q) : M dict ExecResult :=
    if continue_on_timeout self then
      call (ExecRun test_command_plain "/app") (fun w => exec_test w 0)
    else
      try_except
        (exec_result ←
           call (ExecRun (test_command_timeout execution_timeout_val) "/app")
                (fun w => exec_test w 0) ;
         t ← time_time ;
         let test_execution_time := (t - test_start_time)%Q in
         (if Qgtb test_execution_time (inject_Z execution_timeout_val) then
            call (ContainerStop 1) stop_on_timeout ;;
            t1 ← time_time ;
            t2 ← time_time ;
            return_ (dict_of [
              ("status", PStr "TIMEOUT");
              ("message", PStr ("Test execution exceeded timeout limit of "
                                +:+ pretty execution_timeout_val +:+ " seconds"));
              ("execution_time", PFloat (t1 - start_time));
              ("test_execution_time", PFloat test_execution_time);
              ("compile_execution_time", PFloat (t2 - compile_start_time)) ])
          else mret tt) ;;
         (if exit_code exec_result =? 124 then
            t1 ← time_time ;
            t2 ← time_time ;
            return_ (dict_of [
              ("status", PStr "TIMEOUT");
              ("message", PStr ("Test execution exceeded timeout limit of "
                                +:+ pretty execution_timeout_val +:+ " seconds"));
              ("execution_time", PFloat (t1 - start_time));
              ("test_execution_time", PFloat test_execution_time);
              ("compile_execution_time", PFloat (t2 - compile_start_time)) ])
          else mret tt) ;;
         mret exec_result)
        (fun timeout_error =>
           t1 ← time_time ;
           t2 ← time_time ;
           t3 ← time_time ;
           return_ (dict_of [
             ("status", PStr "TIMEOUT_ERROR");
             ("message", PStr ("Timeout handling error: " +:+ exn_str timeout_error));
             ("execution_time", PFloat (t1 - start_time));
             ("test_execution_time", PFloat (t2 - test_start_time));
             ("compile_execution_time", PFloat (t3 - compile_start_time)) ])).

  (** Step 6 of [run_microservice]: read [/app/result.json]. *)
Definition collect_step (start_time compile_start_time test_start_time : Q)
      (exec_result : ExecResult) : M dict unit :=
    try_except
      (a ← call (GetArchive "/app/result.json") (fun w => get_archive w 0) ;
       result_content ← lift (_extract_result_from_tar a) ;
       result_json ← loads result_content ;
       t1 ← time_time ;
       let elapsed := (t1 - start_time)%Q in
       t2 ← time_time ;
       let test_elapsed := (t2 - test_start_time)%Q in
       t3 ← time_time ;
       let compile_elapsed := (t3 - compile_start_time)%Q in
       result_json ← lift (setitem result_json "total_execution_time" (PFloat elapsed)) ;
       result_json ← lift (setitem result_json "test_execution_time" (PFloat test_elapsed)) ;
       result_json ←
         lift (setitem result_json "compile_execution_time" (PFloat compile_elapsed)) ;
       match result_json with
       | PDict d => return_ d
       | _ => raise (Exception "TypeError" "object does not support item assignment")
       end)
      (fun e =>
         t1 ← time_time ;
         return_ (dict_of [
           ("status", PStr "ERROR");
           ("message", PStr ("Unable to read result: " +:+ exn_str e));
           ("exit_code", PInt (exit_code exec_result));
           ("execution_time", PFloat (t1 - start_time)) ])).

  (** Steps 1 to 6 of [run_microservice], inside its outer [try]. *)
Definition run_microservice_steps (self : JudgeMicroservice)
      (language user_code : string) (config : pyval)
      (compile_timeout_val execution_timeout_val : Z) (start_time : Q)
      : M dict unit :=
    stage_step language user_code config ;;
    compile_start_time ← compile_step language compile_timeout_val start_time ;
    test_start_time ← time_time ;
    exec_result ←
      execute_step self execution_timeout_val start_time compile_start_time
        test_start_time ;
    collect_step start_time compile_start_time test_start_time exec_result.

  (** [JudgeMicroservice.run_microservice] *)
Definition run_microservice (self : JudgeMicroservice)
      (language user_code : string) (config : pyval) (show_logs : bool)
      (compile_timeout_arg execution_timeout_arg : option Z) : M dict unit :=
    if negb (supported language) then
      raise (Exception "ValueError" ("Unsupported language: " +:+ language))
    else
      let compile_timeout_val :=
        default (default 30 (compile_timeout setting)) compile_timeout_arg in
      let execution_timeout_val :=
        default (container_timeout setting) execution_timeout_arg in
      set_container false ;;
      start_time ← time_time ;
      try_finally
        (try_except
           (run_microservice_steps self language user_code config
              compile_timeout_val execution_timeout_val start_time)
           (fun e =>
              t1 ← time_time ;
              return_ (dict_of [
                ("status", PStr "ERROR");
                ("message", PStr (exn_str e));
                ("execution_time", PFloat (t1 - start_time)) ])))
        teardown.

  (** [[f(i) for i in range(n)]], the elements evaluated in order. *)
Fixpoint comprehension {R A} (f : nat -> M R A) (start n : nat) : M R (list A) :=
    match n with
    | O => mret []
    | S n' =>
      x ← f start ;
      xs ← comprehension f (S start) n' ;
      mret (x :: xs)
    end.

  (** [dict(error_result, config_index=i)] *)
Definition with_config_index (error_result : dict) (i : nat) : dict :=
    <["config_index" := PInt (Z.of_nat i)]> error_result.

  (** The body of the loop of [optimized_batch_test] over the test
      configurations. *)
Definition batch_iteration (self : JudgeMicroservice) (execution_timeout_val : Z)
      (start_time : Q) (compile_execution_time : pyval) (i : nat) (config : pyval)
      : M (list dict) unit :=
    test_start_time ← time_time ;
    try_except
      (config_tar_data ← _create_config_tar config ;
       call (PutArchive "/app" config_tar_data) (fun w => put_archive w (S i)) ;;
       exec_result ←
         (if continue_on_timeout self then
            call (ExecRun test_command_plain "/app") (fun w => exec_test w i)
          else
            exec_result ←
              call (ExecRun (test_command_timeout execution_timeout_val) "/app")
                   (fun w => exec_test w i) ;
            t ← time_time ;
            let test_execution_time := (t - test_start_time)%Q in
            (if Qgtb test_execution_time (inject_Z execution_timeout_val) then
               t1 ← time_time ;
               results_append (dict_of [
                 ("status", PStr "TIMEOUT");
                 ("message", PStr ("Test execution exceeded timeout limit of "
                                   +:+ pretty execution_timeout_val +:+ " seconds"));
                 ("execution_time", PFloat (t1 - start_time));
                 ("test_execution_time", PFloat test_execution_time);
                 ("compile_execution_time", compile_execution_time);
                 ("config_index", PInt (Z.of_nat i)) ]) ;;
               continue_
             else mret tt) ;;
            (if exit_code exec_result =? 124 then
               t1 ← time_time ;
               results_append (dict_of [
                 ("status", PStr "TIMEOUT");
                 ("message", PStr ("Test execution exceeded timeout limit of "
                                   +:+ pretty execution_timeout_val +:+ " seconds"));
                 ("execution_time", PFloat (t1 - start_time));
                 ("test_execution_time", PFloat test_execution_time);
                 ("compile_execution_time", compile_execution_time);
                 ("config_index", PInt (Z.of_nat i)) ]) ;;
               continue_
             else mret tt) ;;
            mret exec_result) ;
       try_except
         (a ← call (GetArchive "/app/result.json") (fun w => get_archive w i) ;
          result_content ← lift (_extract_result_from_tar a) ;
          result_json ← loads result_content ;
          t1 ← time_time ;
          let test_elapsed := (t1 - test_start_time)%Q in
          t2 ← time_time ;
          let total_elapsed := (t2 - start_time)%Q in
          result_json ←
            lift (setitem result_json "total_execution_time" (PFloat total_elapsed)) ;
          result_json ←
            lift (setitem result_json "test_execution_time" (PFloat test_elapsed)) ;
          result_json ←
            lift (setitem result_json "compile_execution_time" compile_execution_time) ;
          result_json ←
            lift (setitem result_json "config_index" (PInt (Z.of_nat i))) ;
          match result_json with
          | PDict d => results_append d
          | _ => raise (Exception "TypeError" "object does not support item assignment")
          end)
         (fun e =>
            t1 ← time_time ;
            t2 ← time_time ;
            results_append (dict_of [
              ("status", PStr "ERROR");
              ("message", PStr ("Unable to read result: " +:+ exn_str e));
              ("exit_code", PInt (exit_code exec_result));
              ("execution_time", PFloat (t1 - start_time));
              ("test_execution_time", PFloat (t2 - test_start_time));
              ("compile_execution_time", compile_execution_time);
              ("config_index", PInt (Z.of_nat i)) ])))
      (fun test_error =>
         t1 ← time_time ;
         t2 ← time_time ;
         results_append (dict_of [
           ("status", PStr "ERROR");
           ("message", PStr ("Test execution error: " +:+ exn_str test_error));
           ("execution_time", PFloat (t1 - start_time));
           ("test_execution_time", PFloat (t2 - test_start_time));
           ("compile_execution_time", compile_execution_time);
           ("config_index", PInt (Z.of_nat i)) ])).

  (** Step 3 of [optimized_batch_test]: compile once.  Its value is
      [compile_execution_time]. *)
Definition batch_compile (language : string) (configs : list pyval)
      (compile_timeout_val : Z) (start_time : Q) : M (list dict) pyval :=
    let is_python := startswith "python" language in
    if negb is_python then
      compile_start_time ← time_time ;
      try_except
        (compile_result ←
           call (ExecRun (compile_command compile_timeout_val) "/app") exec_compile ;
         t ← time_time ;
         let compile_execution_time := (t - compile_start_time)%Q in
         (if Qgtb compile_execution_time (inject_Z compile_timeout_val) then
            l ← comprehension
                  (fun i =>
                     t1 ← time_time ;
                     mret (dict_of [
                       ("status", PStr "COMPILE_TIMEOUT");
                       ("message", PStr ("Compilation exceeded timeout limit of "
                                         +:+ pretty compile_timeout_val +:+ " seconds"));
                       ("execution_time", PFloat (t1 - start_time));
                       ("compile_execution_time", PFloat compile_execution_time);
                       ("config_index", PInt (Z.of_nat i)) ]))
                  0 (length configs) ;
            return_ l
          else mret tt) ;;
         (if negb (exit_code compile_result =? 0) then
            error_result ←
              (if exit_code compile_result =? 124 then
                 t1 ← time_time ;
                 mret (dict_of [
                   ("status", PStr "COMPILE_TIMEOUT");
                   ("message", PStr ("Compilation exceeded timeout limit of "
                                     +:+ pretty compile_timeout_val +:+ " seconds"));
                   ("execution_time", PFloat (t1 - start_time));
                   ("compile_execution_time", PFloat compile_execution_time) ])
               else
                 t1 ← time_time ;
                 mret (dict_of [
                   ("status", PStr "COMPILE_ERROR");
                   ("message", PStr "Compilation failed");
                   ("compile_output",
                    PStr (decode_lenient Ignore (output compile_result)));
                   ("execution_time", PFloat (t1 - start_time));
                   ("compile_execution_time", PFloat compile_execution_time) ])) ;
            l ← comprehension (fun i => mret (with_config_index error_result i))
                  0 (length configs) ;
            return_ l
          else mret tt) ;;
         mret (PFloat compile_execution_time))
        (fun compile_error =>
           t1 ← time_time ;
           t2 ← time_time ;
           let error_result := dict_of [
             ("status", PStr "COMPILE_ERROR");
             ("message", PStr ("Compilation error: " +:+ exn_str compile_error));
             ("execution_time", PFloat (t1 - start_time));
             ("compile_execution_time", PFloat (t2 - compile_start_time)) ] in
           l ← comprehension (fun i => mret (with_config_index error_result i))
                 0 (length configs) ;
           return_ l)
    else
      compile_start_time ← time_time ;
      mret (PInt 0).

  (** Steps 1 to 4 of [optimized_batch_test], inside its outer [try]. *)
Definition optimized_batch_steps (self : JudgeMicroservice)
      (language user_code : string) (configs : list pyval)
      (compile_timeout_val execution_timeout_val : Z) (start_time : Q)
      : M (list dict) unit :=
    create_container (image_of language) ;;
    call ContainerStart container_start ;;
    let user_filename := user_filename_of language in
    user_tar_data ← _create_user_code_tar user_code user_filename ;
    call (PutArchive "/app" user_tar_data) (fun w => put_archive w 0) ;;
    compile_execution_time ←
      batch_compile language configs compile_timeout_val start_time ;
    for_enumerate 0 configs
      (batch_iteration self execution_timeout_val start_time compile_execution_time) ;;
    results ← get_results ;
    return_ results.

  (** [JudgeMicroservice.optimized_batch_test] *)
Definition optimized_batch_test (self : JudgeMicroservice)
      (language user_code : string) (configs : list pyval) (show_progress : bool)
      (compile_timeout_arg execution_timeout_arg : option Z) : M (list dict) unit :=
    if negb (supported language) then
      raise (Exception "ValueError" ("Unsupported language: " +:+ language))
    else
      match configs with
      | [] => return_ []
      | _ :: _ =>
        let compile_timeout_val :=
          default (default 30 (compile_timeout setting)) compile_timeout_arg in
        let execution_timeout_val :=
          default (container_timeout setting) execution_timeout_arg in
        set_container false ;;
        start_time ← time_time ;
        set_results [] ;;
        try_finally
          (try_except
             (optimized_batch_steps self language user_code configs
                compile_timeout_val execution_timeout_val start_time)
             (fun e =>
                l ← comprehension
                      (fun i =>
                         t1 ← time_time ;
                         mret (dict_of [
                           ("status", PStr "ERROR");
                           ("message", PStr (exn_str e));
                           ("execution_time", PFloat (t1 - start_time));
                           ("config_index", PInt (Z.of_nat i)) ]))
                      0 (length configs) ;
                return_ l))
          teardown
      end.

End Engine.

(** ** The response conversion of [api/routes/judge.py] *)

(** [s.upper()] on ASCII letters. *)
Definition upper_ascii (c : ascii) : ascii :=
  let n := nat_of_ascii c in
  if ((97 <=? n) && (n <=? 122))%nat then ascii_of_nat (n - 32) else c.

Fixpoint upper (s : string) : string :=
  match s with
  | EmptyString => EmptyString
  | String c r => String (upper_ascii c) (upper r)
  end.

(** [d.get(key)] *)
Definition dict_get (d : dict) (key : string) : pyval := default PNone (d !! key).

Record ExecutionMetrics := {
  total_execution_time : pyval;
  compile_execution_time : pyval;
  test_execution_time : pyval;
  time_ms : pyval;
  compile_time_ms : pyval;
  cpu_utime : pyval;
  cpu_stime : pyval;
  maxrss_mb : pyval
}.

(** [JudgeResponse]; [status] holds the name of a member of [JudgeStatus]. *)
Record JudgeResponse := {
  status : string;
  message : pyval;
  match_ : pyval;
  stdout : pyval;
  stderr : pyval;
  response_compile_output : pyval;
  response_expected : pyval;
  actual : pyval;
  metrics : option ExecutionMetrics;
  response_exit_code : pyval;
  error_details : pyval
}.

Record CompilerSettings := { standard : option string; flags : option string }.
Record ResourceLimits := {
  limit_compile_timeout : option Z;
  limit_execution_timeout : option Z
}.

(** [JudgeRequest], its parameters already dumped to plain values. *)
Record JudgeRequest := {
  req_language : string;
  req_user_code : string;
  req_solve_params : list pyval;
  req_expected : pyval;
  req_function_type : string;
  req_compiler_settings : option CompilerSettings;
  req_resource_limits : option ResourceLimits;
  req_show_logs : option bool
}.

(** Calling a function from another one: its [return] value (or [None] when
    it falls off its end) is the value of the call; an uncaught exception
    goes on in the caller. *)
Definition invoke {R R'} (f : M R unit) : M R' (option R) :=
  fun w s =>
    match f w s with
    | (Returned v, s') => (Normal (Some v), s')
    | (Normal _, s') | (Continued, s') => (Normal None, s')
    | (Raised e, s') => (Raised e, s')
    end.

Section Api.

  Variable DOCKER_IMAGES : gmap string string.
  Variable setting : Settings.

  (** The names of the members of the enumeration [JudgeStatus], in upper
      case.  The enumeration is declared in [judge_micro/api/models], which
      is not among the sources read here; the code names its members
      [SUCCESS] and [ERROR]. *)
  Variable JudgeStatus_members : list string.

  (** Modelled from the spec: the coercion [JudgeStatus(value)] of a status
      string to its variant, missing from the sources.  The spec (4.C):
      "Coerces status string (case-insensitive) to the verdict variant";
      a value naming no variant makes the enumeration raise [ValueError]. *)
Definition JudgeStatus (value : pyval) : answer string :=
    match value with
    | PStr s =>
      if bool_decide (upper s ∈ JudgeStatus_members) then Returns (upper s)
      else Raises (Exception "ValueError" (s +:+ " is not a valid JudgeStatus"))
    | _ => Raises (Exception "ValueError" "value is not a valid JudgeStatus")
    end.

  (** [_convert_legacy_result_to_response] *)
Definition _convert_legacy_result_to_response (result : dict) : answer JudgeResponse :=
    let the_metrics := {|
      total_execution_time := dict_get result "total_execution_time";
      compile_execution_time := dict_get result "compile_execution_time";
      test_execution_time := dict_get result "test_execution_time";
      time_ms := dict_get result "time_ms";
      compile_time_ms := dict_get result "compile_time_ms";
      cpu_utime := dict_get result "cpu_utime";
      cpu_stime := dict_get result "cpu_stime";
      maxrss_mb := dict_get result "maxrss_mb" |} in
    match JudgeStatus (default (PStr "ERROR") (result !! "status")) with
    | Raises e => Raises e
    | Returns the_status =>
      Returns {|
        status := the_status;
        message := dict_get result "message";
        match_ := dict_get result "match";
        stdout := dict_get result "stdout";
        stderr := dict_get result "stderr";
        response_compile_output := dict_get result "compile_output";
        response_expected := dict_get result "expected";
        actual := dict_get result "actual";
        metrics := Some the_metrics;
        response_exit_code := dict_get result "exit_code";
        error_details := dict_get result "error_details" |}
    end.

  (** The configuration built by [_execute_judge_sync]. *)
Definition request_config (request : JudgeRequest) : dict :=
    let config := dict_of [
      ("solve_params", PList (req_solve_params request));
      ("expected", req_expected request);
      ("function_type", PStr (req_function_type request)) ] in
    match req_compiler_settings request with
    | None => config
    | Some cs =>
      let config :=
        match standard cs with
        | None => config
        | Some std =>
          if String.eqb (req_language request) "c" then <["c_standard" := PStr std]> config
          else if String.eqb (req_language request) "cpp"
               then <["cpp_standard" := PStr std]> config
               else config
        end in
      match flags cs with
      | Some f => if String.eqb f "" then config else <["compiler_flags" := PStr f]> config
      | None => config
      end
    end.

  (** [_execute_judge_sync], on the module's engine instance [judge_micro]. *)
Definition _execute_judge_sync (judge_micro : JudgeMicroservice) (request : JudgeRequest)
      : M JudgeResponse unit :=
    try_except
      (let config := request_config request in
       let compile_timeout := req_resource_limits request ≫= limit_compile_timeout in
       let execution_timeout := req_resource_limits request ≫= limit_execution_timeout in
       result ←
         invoke (run_microservice DOCKER_IMAGES setting judge_micro
                   (req_language request) (req_user_code request) (PDict config)
                   (default false (req_show_logs request))
                   compile_timeout execution_timeout) ;
       match result with
       | Some result =>
         response ← lift (_convert_legacy_result_to_response result) ;
         return_ response
       | None =>
         raise (Exception "AttributeError" "'NoneType' object has no attribute 'get'")
       end)
      (fun e =>
         return_ {|
           status := "ERROR";
           message := PStr ("Error occurred during judge evaluation: " +:+ exn_str e);
           match_ := PNone; stdout := PNone; stderr := PNone;
           response_compile_output := PNone; response_expected := PNone;
           actual := PNone; metrics := None; response_exit_code := PNone;
           error_details := PStr (exn_str e) |}).

End Api.

(** ** The submission validator *)

(** [needle in haystack] *)
Fixpoint contains (needle haystack : string) : bool :=
  String.prefix needle haystack
  || match haystack with
     | EmptyString => false
     | String _ rest => contains needle rest
     end.

Inductive InvalidRequest :=
| EmptyCode
| CodeTooLong
| BatchTooLarge
| DenylistedToken (token : string)
| UnknownLanguage.

Section Validator.

  Variable DOCKER_IMAGES : gmap string string.
  Variable setting : Settings.

  (** The configured denylist of tokens. *)
  Variable denylist : list string.

  (** Modelled from the spec: the Submission Validator (component F), which
      in the repository is the validation of the request models of
      [judge_micro/api/models], missing from the sources.  The spec (4.F):
      reject empty [user_code]; reject [len(user_code) > 50_000]; reject
      code matching a configured denylist; reject unknown language.  [None]
      accepts the submission. *)
Definition validate_submission (language user_code : string) : option InvalidRequest :=
    if String.eqb user_code "" then Some EmptyCode
    else if 50000 <? Z.of_nat (py_len user_code) then Some CodeTooLong
    else match List.find (fun token => contains token user_code) denylist with
         | Some token => Some (DenylistedToken token)
         | None =>
           if supported DOCKER_IMAGES language then None else Some UnknownLanguage
         end.

  (** Modelled from the spec: [Submit] (4.D, step 1 before the steps of
      [run_microservice]): "Validate via F. On failure, caller-visible
      InvalidRequest (not a Verdict variant; this is a pre-engine reject)". *)
Definition Submit (self : JudgeMicroservice) (language user_code : string)
      (config : pyval) (show_logs : bool) (compile_timeout execution_timeout : option Z)
      (w : World) (s : State) : (InvalidRequest + outcome dict unit) * State :=
    match validate_submission language user_code with
    | Some reject => (inl reject, s)
    | None =>
      let '(r, s') :=
        run_microservice DOCKER_IMAGES setting self language user_code config show_logs
          compile_timeout execution_timeout w s in
      (inr r, s')
    end.

End Validator.

(** ** The callers of [run_microservice] *)

(** A test of [batch_test]: a dict whose keys are the parameters of
    [test_with_version], passed as keyword arguments. *)
Record Test := {
  test_language : string;
  test_user_code : string;
  test_solve_params : pyval;
  test_expected : pyval;
  test_standard : option string;
  test_show_logs : bool;
  test_compile_timeout : option Z;
  test_execution_timeout : option Z
}.

(** [OJMicroservice.create_config] of [services/basic.py]. *)
Definition create_config (language : string) (solve_params expected : pyval)
    (function_type : string) (standard : option string) (compiler_flags : string) : dict :=
  let config := dict_of [
    ("solve_params", solve_params);
    ("expected", expected);
    ("function_type", PStr function_type) ] in
  match standard with
  | Some std =>
    if negb (String.eqb std "") then
      let config :=
        if String.eqb language "c" then <["c_standard" := PStr std]> config
        else if String.eqb language "cpp" then <["cpp_standard" := PStr std]> config
        else config in
      <["compiler_flags" := PStr compiler_flags]> config
    else config
  | None => config
  end.

(** The configuration built by [JudgeMicroservice.test_with_version]. *)
Definition test_with_version_config (language : string) (solve_params expected : pyval)
    (standard : option string) : dict :=
  let config := dict_of [
    ("solve_params", solve_params);
    ("expected", expected);
    ("function_type", PStr "int") ] in
  match standard with
  | Some std =>
    if negb (String.eqb std "") && negb (startswith "python" language) then
      let config :=
        if String.eqb language "c" then <["c_standard" := PStr std]> config
        else if String.eqb language "cpp" then <["cpp_standard" := PStr std]> config
        else config in
      <["compiler_flags" := PStr "-Wall -Wextra -O2"]> config
    else config
  | None => config
  end.

Section Callers.

  Variable DOCKER_IMAGES : gmap string string.
  Variable setting : Settings.

(** [JudgeMicroservice.test_with_version] *)
Definition test_with_version (self : JudgeMicroservice) (language user_code : string)
    (solve_params expected : pyval) (standard : option string) (show_logs : bool)
    (compile_timeout execution_timeout : option Z) : M dict unit :=
  let config := test_with_version_config language solve_params expected standard in
  run_microservice DOCKER_IMAGES setting self language user_code (PDict config) show_logs
    compile_timeout execution_timeout.

(** The loop of [JudgeMicroservice.batch_test] from the test of rank [i]
    on, [results] holding what the tests before it returned.  Each test is
    an invocation of its own: [worlds i] holds the answers of the outside
    world during the test of rank [i].  A test that returned nothing would
    append [None], on which [result.get] raises when the progress is
    shown. *)
Fixpoint batch_test_from (self : JudgeMicroservice) (show_progress : bool)
    (worlds : nat -> World) (i : nat) (tests : list Test)
    (results : list (option dict)) (s : State)
    : outcome (list (option dict)) unit * State :=
  match tests with
  | [] => (Returned results, s)
  | test :: rest =>
    match
      invoke (R' := list (option dict))
        (test_with_version self (test_language test) (test_user_code test)
           (test_solve_params test) (test_expected test) (test_standard test)
           (test_show_logs test) (test_compile_timeout test)
           (test_execution_timeout test))
        (worlds i) s
    with
    | (Normal result, s') =>
      if show_progress && negb (bool_decide (is_Some result)) then
        (Raised (Exception "AttributeError" "'NoneType' object has no attribute 'get'"),
         s')
      else
        batch_test_from self show_progress worlds (S i) rest (results ++ [result])%list s'
    | (Returned v, s') => (Returned v, s')
    | (Continued, s') => (Continued, s')
    | (Raised e, s') => (Raised e, s')
    end
  end.

(** [JudgeMicroservice.batch_test] *)
Definition batch_test (self : JudgeMicroservice) (tests : list Test)
    (show_progress : bool) (worlds : nat -> World) (s : State)
    : outcome (list (option dict)) unit * State :=
  batch_test_from self show_progress worlds 0 tests [] s.

End Callers.

(** ** The summary of [batch_submit] *)

(** The [summary] of a [BatchJudgeResponse]: the counts are integers; the
    rate and the average are the integer 0 when there is no response, and
    floats otherwise. *)
Record BatchSummary := {
  total_tests : Z;
  success_count : Z;
  error_count : Z;
  success_rate : pyval;
  summary_total_execution_time : Q;
  average_time_per_test : pyval
}.

(** [r.status == JudgeStatus.SUCCESS] *)
Definition is_success (r : JudgeResponse) : bool := String.eqb (status r) "SUCCESS".

Section Summary.

  (** The true division of the interpreter, of an integer and of a float by
      an integer: its result is rounded to a float, so it is not computed
      here. *)
  Variable int_truediv : Z -> Z -> Q.
  Variable float_truediv : Q -> Z -> Q.

  (** The statistics computed by [batch_submit] over the responses gathered,
      [total_time] being the time the batch took. *)
Definition batch_summary (results : list JudgeResponse) (total_time : Q) : BatchSummary :=
  let success_count := Z.of_nat (length (List.filter is_success results)) in
  let error_count := Z.of_nat (length results) - success_count in
  {| total_tests := Z.of_nat (length results);
     success_count := success_count;
     error_count := error_count;
     success_rate :=
       match results with
       | [] => PInt 0
       | _ :: _ => PFloat (int_truediv success_count (Z.of_nat (length results)))
       end;
     summary_total_execution_time := total_time;
     average_time_per_test :=
       match results with
       | [] => PInt 0
       | _ :: _ => PFloat (float_truediv total_time (Z.of_nat (length results)))
       end |}.

End Summary.

(** ** Vocabulary of the statements *)

(** What the collect step reads for the configuration of rank [i]: the
    archive, the file in it, the parsed value. *)
Definition read_result (w : World) (i : nat) : answer pyval :=
  match get_archive w i with
  | Raises e => Raises e
  | Returns a =>
    match _extract_result_from_tar a with
    | Raises e => Raises e
    | Returns content => json_loads w content
    end
  end.

(** The same world with other answers to the two calls of the teardown. *)
Definition with_teardown (w : World) (stop remove : answer unit) : World :=
  {| clock := clock w; float_mul := float_mul w; json_loads := json_loads w;
     json_dumps := json_dumps w;
     containers_create := containers_create w; container_start := container_start w;
     put_archive := put_archive w; exec_compile := exec_compile w;
     exec_test := exec_test w; stop_on_timeout := stop_on_timeout w;
     get_archive := get_archive w;
     stop_at_teardown := stop; remove_at_teardown := remove |}.

(** The value returned by an invocation, if it returned one. *)
Definition returned {R} (r : outcome R unit * State) : option R :=
  match r.1 with
  | Returned v => Some v
  | _ => None
  end.

(** The calls issued by an invocation. *)
Definition calls {R} (r : outcome R unit * State) : list Call := log r.2.

(** The status string of a verdict. *)
Definition status_of (d : dict) : option pyval := d !! "status".

(** The value under [key] of the verdict returned by an invocation. *)
Definition returned_field (r : outcome dict unit * State) (key : string) : option pyval :=
  match returned r with
  | Some d => d !! key
  | None => None
  end.

Definition is_put_archive (c : Call) : bool :=
  match c with PutArchive _ _ => true | _ => false end.

Definition is_exec_run (c : Call) : bool :=
  match c with ExecRun _ _ => true | _ => false end.

Definition is_get_archive (c : Call) : bool :=
  match c with GetArchive _ => true | _ => false end.

(** The calls of the teardown, given the answer to its [stop]. *)
Definition teardown_calls (stop : answer unit) : list Call :=
  match stop with
  | Returns _ => [ContainerStop 1; ContainerRemove]
  | Raises _ => [ContainerStop 1]
  end.

(** Steps 1 to 3 went through: the container exists, runs and holds the
    uploaded files. *)
Definition staged (w : World) : Prop :=
  containers_create w = Returns tt /\ container_start w = Returns tt
  /\ put_archive w 0 = Returns tt.

(** Ranks of the clock readings of [run_microservice]: [start_time] is
    reading 0, the two archive entries take readings 1 and 2,
    [compile_start_time] is reading 3, the end of the compilation (of a
    language that is not Python) reading 4, and [test_start_time] the
    reading after. *)
Definition test_start_tick (language : string) : nat :=
  if startswith "python" language then 4%nat else 5%nat.

(** The wall time the engine observes around the compilation. *)
Definition compile_wall (w : World) : Q := (clock w 4 - clock w 3)%Q.

(** The wall time the engine observes around the test (when it reads the
    clock after it). *)
Definition test_wall (w : World) (language : string) : Q :=
  (clock w (S (test_start_tick language)) - clock w (test_start_tick language))%Q.

(** Step 4 went through (or was skipped, for Python). *)
Definition compiled (w : World) (language : string) (compile_timeout_val : Z) : Prop :=
  startswith "python" language = true
  \/ exists cr, exec_compile w = Returns cr /\ exit_code cr = 0
               /\ Qgtb (compile_wall w) (inject_Z compile_timeout_val) = false.

(** The rank of the first clock reading of the collect step. *)
Definition collect_tick (self : JudgeMicroservice) (language : string) : nat :=
  if continue_on_timeout self then S (test_start_tick language)
  else S (S (test_start_tick language)).


(** ** Sample worlds

    Concrete answers of the outside world, on which the statements below
    are evaluated. *)

Module Sample.

Definition images : gmap string string :=
  list_to_map [("c", "judge-c"); ("cpp", "judge-cpp"); ("python", "judge-python")].

Definition settings : Settings :=
  {| compile_timeout := Some 30; container_timeout := 10; container_cpu := 1;
     container_mem := "128m"; setting_continue_on_timeout := false |}.

(** The engine as configured, and one that lets the test run on. *)
Definition service : JudgeMicroservice := JudgeMicroservice_init settings None.
Definition patient_service : JudgeMicroservice :=
  JudgeMicroservice_init settings (Some true).

(** A [json.loads] that knows two documents. *)
Definition loads_sample (content : string) : answer pyval :=
  if String.eqb content "success" then
    Returns (PDict (dict_of [("status", PStr "SUCCESS"); ("match", PBool true);
                             ("compile_execution_time", PFloat 0)]))
  else if String.eqb content "list" then Returns (PList [])
  else Raises (Exception "JSONDecodeError" "Expecting value").

Definition result_archive (content : string) : archive :=
  Tar [ {| tm_name := "result.json"; tm_isfile := true; tm_mode := 420;
           tm_mtime := 0; tm_data := encode_utf8 content |} ].

(** Every call returns, every step takes one second, the runner reports a
    success. *)
Definition fine : World :=
  {| clock := fun k => inject_Z (Z.of_nat k);
     float_mul := fun n x => (inject_Z n * x)%Q;
     json_loads := loads_sample;
     json_dumps := fun _ => "{}";
     containers_create := Returns tt;
     container_start := Returns tt;
     put_archive := fun _ => Returns tt;
     exec_compile := Returns {| exit_code := 0; output := [] |};
     exec_test := fun _ => Returns {| exit_code := 0; output := [] |};
     stop_on_timeout := Returns tt;
     get_archive := fun _ => Returns (result_archive "success");
     stop_at_teardown := Returns tt;
     remove_at_teardown := Returns tt |}.

(** [w] with another clock. *)
Definition with_clock (w : World) (c : nat -> Q) : World :=
  {| clock := c; float_mul := float_mul w; json_loads := json_loads w;
     json_dumps := json_dumps w;
     containers_create := containers_create w; container_start := container_start w;
     put_archive := put_archive w; exec_compile := exec_compile w;
     exec_test := exec_test w; stop_on_timeout := stop_on_timeout w;
     get_archive := get_archive w; stop_at_teardown := stop_at_teardown w;
     remove_at_teardown := remove_at_teardown w |}.

(** [w] with another answer to the compile command. *)
Definition with_compile (w : World) (a : answer ExecResult) : World :=
  {| clock := clock w; float_mul := float_mul w; json_loads := json_loads w;
     json_dumps := json_dumps w;
     containers_create := containers_create w; container_start := container_start w;
     put_archive := put_archive w; exec_compile := a;
     exec_test := exec_test w; stop_on_timeout := stop_on_timeout w;
     get_archive := get_archive w; stop_at_teardown := stop_at_teardown w;
     remove_at_teardown := remove_at_teardown w |}.

(** [w] with another answer to the test command. *)
Definition with_test (w : World) (a : answer ExecResult) : World :=
  {| clock := clock w; float_mul := float_mul w; json_loads := json_loads w;
     json_dumps := json_dumps w;
     containers_create := containers_create w; container_start := container_start w;
     put_archive := put_archive w; exec_compile := exec_compile w;
     exec_test := fun _ => a; stop_on_timeout := stop_on_timeout w;
     get_archive := get_archive w; stop_at_teardown := stop_at_teardown w;
     remove_at_teardown := remove_at_teardown w |}.

(** [w] with a [stop] that raises when a time limit is exceeded. *)
Definition with_failing_stop (w : World) : World :=
  {| clock := clock w; float_mul := float_mul w; json_loads := json_loads w;
     json_dumps := json_dumps w;
     containers_create := containers_create w; container_start := container_start w;
     put_archive := put_archive w; exec_compile := exec_compile w;
     exec_test := exec_test w;
     stop_on_timeout := Raises (Exception "APIError" "500 Server Error");
     get_archive := get_archive w; stop_at_teardown := stop_at_teardown w;
     remove_at_teardown := remove_at_teardown w |}.

(** The test command of a C submission starts at reading 5 of the clock
    and takes 100 seconds. *)
Definition slow_test : World :=
  with_clock fine (fun k => if (k <=? 5)%nat then inject_Z (Z.of_nat k)
                            else inject_Z (Z.of_nat k + 100)).


(** The compiler exits with code 1 after printing one byte that is not
    UTF-8. *)
Definition broken_build : World :=
  with_compile fine (Returns {| exit_code := 1; output := [Byte.xff] |}).

(** The test exits with the code of [timeout]. *)
Definition test_exits_124 : World :=
  with_test fine (Returns {| exit_code := 124; output := [] |}).

(** The [stop] of the teardown raises. *)
Definition stuck_container : World :=
  with_teardown fine (Raises (Exception "APIError" "500 Server Error")) (Returns tt).

Definition c_code : string := "int solve(int *a) { *a = 42; return 0; }".

Definition request : JudgeRequest :=
  {| req_language := "c"; req_user_code := c_code; req_solve_params := [];
     req_expected := PDict ∅; req_function_type := "int";
     req_compiler_settings := None; req_resource_limits := None;
     req_show_logs := None |}.

Definition members : list string :=
  ["SUCCESS"; "COMPILE_ERROR"; "COMPILE_TIMEOUT"; "TIMEOUT"; "ERROR"].

End Sample.

(** * Properties *)

Arguments dict_of : simpl never.
Arguments String.append : simpl never.
Arguments pretty : simpl never.
Arguments Qgtb : simpl never.
Arguments Qminus : simpl never.
Arguments decode_lenient : simpl never.
Arguments supported : simpl never.
Arguments image_of : simpl never.
Arguments user_filename_of : simpl never.
Arguments int_of_float : simpl never.
Arguments encode_utf8 : simpl never.
Arguments compile_command : simpl never.
Arguments test_command_timeout : simpl never.
Arguments test_command_plain : simpl never.
Arguments startswith : simpl never.

(** ** Symbolic execution *)

(** Unfold the control-flow combinators, then follow the answers known from
    the hypotheses. *)
Ltac unfold_monad :=
  unfold try_finally, try_except, invoke, mbind, mret, M_bind, M_ret, bind, ret, call,
    lift, ask, loads, time_time, set_container, get_container, set_results, get_results,
    results_append, return_, continue_, raise in *.

Ltac unfold_engine :=
  unfold run_microservice, run_microservice_steps, stage_step, compile_step,
    execute_step, collect_step, create_container, _create_file_tar, teardown in *;
  unfold_monad.

Ltac follow :=
  match goal with
  | H : ?x = _ |- context [match ?x with _ => _ end] => rewrite H
  | H : ?x = _ |- context [if ?x then _ else _] => rewrite H
  | H : ?x = _ |- context [if negb ?x then _ else _] => rewrite H
  | H : ?x = _ |- context [?x =? _] => rewrite H
  end.

Ltac run := repeat (cbn; try follow).


(** ** The state after a step *)

Definition add_calls (s : State) (l : list Call) : State :=
  {| log := log s ++ l; ticks := ticks s; container := container s;
     results := results s |}.

Lemma add_calls_nil s : add_calls s [] = s.
Proof. destruct s; unfold add_calls; cbn. by rewrite app_nil_r. Qed.

(** The teardown never fails and never returns a value: it stops the
    container, and removes it when the stop returned. *)
Lemma teardown_spec R w s :
  @teardown R w s =
  (Normal tt,
   if container s then add_calls s (teardown_calls (stop_at_teardown w)) else s).
Proof.
  unfold teardown, add_calls, teardown_calls. unfold_monad.
  destruct s as [l t c r]; cbn. destruct c; [|done].
  destruct (stop_at_teardown w); cbn; [|done].
  destruct (remove_at_teardown w) as [[]|]; cbn; by rewrite <- app_assoc.
Qed.

Lemma try_finally_teardown R (body : M R unit) w s :
  try_finally body teardown w s =
  ((body w s).1,
   if container (body w s).2
   then add_calls (body w s).2 (teardown_calls (stop_at_teardown w))
   else (body w s).2).
Proof.
  unfold try_finally. destruct (body w s) as [r s']. by rewrite teardown_spec.
Qed.

(** ** Blocks that leave the variable [container] alone *)

Definition keeps_container {R A} (m : M R A) : Prop :=
  forall w s, container (m w s).2 = container s.

Section KeepsContainer.
  Context {R : Type}.

Lemma kc_ret A (a : A) : keeps_container (mret a : M R A).
  Proof. done. Qed.

Lemma kc_return A v : keeps_container (return_ v : M R A).
  Proof. done. Qed.

Lemma kc_raise A e : keeps_container (raise e : M R A).
  Proof. done. Qed.

Lemma kc_continue A : keeps_container (continue_ : M R A).
  Proof. done. Qed.

Lemma kc_time : keeps_container (time_time : M R Q).
  Proof. done. Qed.

Lemma kc_call A c (a : World -> answer A) : keeps_container (call c a : M R A).
  Proof. intros w s. unfold call. by destruct (a w). Qed.

Lemma kc_append d : keeps_container (results_append d : M R unit).
  Proof. done. Qed.

Lemma kc_get_results : keeps_container (get_results : M R (list dict)).
  Proof. done. Qed.

Lemma kc_lift A (a : answer A) : keeps_container (lift a : M R A).
  Proof. by destruct a. Qed.

Lemma kc_ask A (f : World -> A) : keeps_container (ask f : M R A).
  Proof. done. Qed.

Lemma kc_loads c : keeps_container (loads c : M R pyval).
  Proof. intros w s. unfold loads. by destruct (json_loads w c). Qed.

Lemma kc_bind A B (m : M R A) (k : A -> M R B) :
    keeps_container m -> (forall a, keeps_container (k a)) -> keeps_container (m ≫= k).
  Proof.
    intros Hm Hk w s. unfold mbind, M_bind, bind.
    specialize (Hm w s). destruct (m w s) as [[a|v| |e] s']; cbn in *; try done.
    by rewrite Hk.
  Qed.

Lemma kc_try_except A (m : M R A) h :
    keeps_container m -> (forall e, keeps_container (h e)) ->
    keeps_container (try_except m h).
  Proof.
    intros Hm Hh w s. unfold try_except.
    specialize (Hm w s). destruct (m w s) as [[a|v| |e] s']; cbn in *; try done.
    by rewrite Hh.
  Qed.

Lemma kc_for_enumerate A (xs : list A) body :
    (forall i x, keeps_container (body i x)) ->
    forall start, keeps_container (for_enumerate start xs body : M R unit).
  Proof.
    intros Hb. induction xs as [|x xs IH]; intros start w s; [done|].
    cbn. specialize (Hb start x w s).
    destruct (body start x w s) as [[a|v| |e] s']; cbn in *; try done;
      by rewrite IH.
  Qed.

Lemma kc_comprehension A (f : nat -> M R A) n :
    (forall i, keeps_container (f i)) ->
    forall start, keeps_container (comprehension f start n).
  Proof.
    intros Hf. induction n as [|n IH]; intros start; [apply kc_ret|].
    cbn. apply kc_bind; [done|]. intros x.
    apply kc_bind; [apply IH|]. intros xs. apply kc_ret.
  Qed.
End KeepsContainer.

Ltac keeps_container_step :=
  first
    [ apply kc_bind; [|intros ?]
    | apply kc_try_except; [|intros ?]
    | apply kc_for_enumerate; intros ? ?
    | apply kc_comprehension; intros ?
    | apply kc_ret | apply kc_return | apply kc_raise | apply kc_continue
    | apply kc_time | apply kc_call | apply kc_append | apply kc_get_results
    | apply kc_lift | apply kc_ask
    | apply kc_loads
    | match goal with
      | |- keeps_container (if ?b then _ else _) => destruct b
      | |- keeps_container (match ?x with _ => _ end) => destruct x
      end ].

Ltac keeps_container_tac := repeat keeps_container_step.

(** ** Blocks that do not read the answers of the teardown *)

Definition ignores_teardown {R A} (m : M R A) : Prop :=
  forall w a b s, m (with_teardown w a b) s = m w s.

Section IgnoresTeardown.
  Context {R : Type}.

Lemma it_ret A (a : A) : ignores_teardown (mret a : M R A).
  Proof. done. Qed.

Lemma it_return A v : ignores_teardown (return_ v : M R A).
  Proof. done. Qed.

Lemma it_raise A e : ignores_teardown (raise e : M R A).
  Proof. done. Qed.

Lemma it_continue A : ignores_teardown (continue_ : M R A).
  Proof. done. Qed.

Lemma it_time : ignores_teardown (time_time : M R Q).
  Proof. done. Qed.

Lemma it_call A c (f : World -> answer A) :
    (forall w a b, f (with_teardown w a b) = f w) -> ignores_teardown (call c f : M R A).
  Proof. intros H w a b s. unfold call. by rewrite H. Qed.

Lemma it_append d : ignores_teardown (results_append d : M R unit).
  Proof. done. Qed.

Lemma it_get_results : ignores_teardown (get_results : M R (list dict)).
  Proof. done. Qed.

Lemma it_set_results l : ignores_teardown (set_results l : M R unit).
  Proof. done. Qed.

Lemma it_set_container b : ignores_teardown (set_container b : M R unit).
  Proof. done. Qed.

Lemma it_lift A (a : answer A) : ignores_teardown (lift a : M R A).
  Proof. by destruct a. Qed.

Lemma it_ask A (f : World -> A) :
    (forall w a b, f (with_teardown w a b) = f w) -> ignores_teardown (ask f : M R A).
  Proof. intros H w a b s. unfold ask. by rewrite H. Qed.

Lemma it_loads c : ignores_teardown (loads c : M R pyval).
  Proof. intros w a b s. unfold loads. cbn. by destruct (json_loads w c). Qed.

Lemma it_bind A B (m : M R A) (k : A -> M R B) :
    ignores_teardown m -> (forall a, ignores_teardown (k a)) -> ignores_teardown (m ≫= k).
  Proof.
    intros Hm Hk w a b s. unfold mbind, M_bind, bind. rewrite Hm.
    destruct (m w s) as [[x|v| |e] s']; try done. apply Hk.
  Qed.

Lemma it_try_except A (m : M R A) h :
    ignores_teardown m -> (forall e, ignores_teardown (h e)) ->
    ignores_teardown (try_except m h).
  Proof.
    intros Hm Hh w a b s. unfold try_except. rewrite Hm.
    destruct (m w s) as [[x|v| |e] s']; try done. apply Hh.
  Qed.

Lemma it_for_enumerate A (xs : list A) body :
    (forall i x, ignores_teardown (body i x)) ->
    forall start, ignores_teardown (for_enumerate start xs body : M R unit).
  Proof.
    intros Hb. induction xs as [|x xs IH]; intros start w a b s; [done|].
    cbn. rewrite Hb.
    destruct (body start x w s) as [[y|v| |e] s']; try done; apply IH.
  Qed.

Lemma it_comprehension A (f : nat -> M R A) n :
    (forall i, ignores_teardown (f i)) ->
    forall start, ignores_teardown (comprehension f start n).
  Proof.
    intros Hf. induction n as [|n IH]; intros start; [apply it_ret|].
    cbn. apply it_bind; [done|]. intros x.
    apply it_bind; [apply IH|]. intros xs. apply it_ret.
  Qed.
End IgnoresTeardown.

Ltac ignores_teardown_step :=
  first
    [ apply it_bind; [|intros ?]
    | apply it_try_except; [|intros ?]
    | apply it_for_enumerate; intros ? ?
    | apply it_comprehension; intros ?
    | apply it_ret | apply it_return | apply it_raise | apply it_continue
    | apply it_time | apply it_call; done | apply it_append | apply it_get_results
    | apply it_set_results | apply it_set_container
    | apply it_lift | apply it_ask; done | apply it_loads
    | match goal with
      | |- ignores_teardown (if ?b then _ else _) => destruct b
      | |- ignores_teardown (match ?x with _ => _ end) => destruct x
      end ].

Ltac ignores_teardown_tac := repeat ignores_teardown_step.

(** ** Blocks that leave [container] bound once the container exists *)

Definition creates_container {R A} (m : M R A) : Prop :=
  forall w s, containers_create w = Returns tt -> container (m w s).2 = true.

Lemma creates_bind {R A B} (m : M R A) (k : A -> M R B) :
  creates_container m -> (forall a, keeps_container (k a)) -> creates_container (m ≫= k).
Proof.
  intros Hm Hk w s Hc. unfold mbind, M_bind, bind.
  specialize (Hm w s Hc). destruct (m w s) as [[a|v| |e] s']; cbn in *; try done.
  by rewrite Hk.
Qed.

Lemma creates_try_except {R A} (m : M R A) h :
  creates_container m -> (forall e, keeps_container (h e)) ->
  creates_container (try_except m h).
Proof.
  intros Hm Hh w s Hc. unfold try_except.
  specialize (Hm w s Hc). destruct (m w s) as [[a|v| |e] s']; cbn in *; try done.
  by rewrite Hh.
Qed.

Section Properties.

  Variable DOCKER_IMAGES : gmap string string.
  Variable setting : Settings.

Lemma creates_create_container R image :
    creates_container (create_container setting image : M R unit).
  Proof.
    intros w s Hc. unfold create_container. unfold_monad. by rewrite Hc.
  Qed.

  (** The handler of the outer [try] of [run_microservice]. *)
Definition error_verdict (start_time : Q) (e : exn) : M dict unit :=
    t1 ← time_time ;
    return_ (dict_of [
      ("status", PStr "ERROR");
      ("message", PStr (exn_str e));
      ("execution_time", PFloat (t1 - start_time)) ]).

  (** The [try]/[except] of [run_microservice], inside its [finally]. *)
Definition run_microservice_body (self : JudgeMicroservice) (language user_code : string)
      (config : pyval) (compile_timeout_val execution_timeout_val : Z) (start_time : Q)
      : M dict unit :=
    try_except
      (run_microservice_steps DOCKER_IMAGES setting self language user_code config
         compile_timeout_val execution_timeout_val start_time)
      (error_verdict start_time).

Lemma run_microservice_unfold self language user_code config show_logs ct et w s :
    supported DOCKER_IMAGES language = true ->
    run_microservice DOCKER_IMAGES setting self language user_code config show_logs ct et
      w s =
    try_finally
      (run_microservice_body self language user_code config
         (default (default 30 (compile_timeout setting)) ct)
         (default (container_timeout setting) et) (clock w (ticks s)))
      teardown w
      {| log := log s; ticks := S (ticks s); container := false; results := results s |}.
  Proof. intros Hs. unfold run_microservice. by rewrite Hs. Qed.

Lemma run_microservice_body_creates self language user_code config ct et start_time :
    creates_container
      (run_microservice_body self language user_code config ct et start_time).
  Proof.
    unfold run_microservice_body, run_microservice_steps, stage_step.
    apply creates_try_except; [|intros; unfold error_verdict; keeps_container_tac].
    apply creates_bind.
    - apply creates_bind; [apply creates_create_container|].
      intros; unfold _create_file_tar; keeps_container_tac.
    - intros; unfold compile_step, execute_step, collect_step; keeps_container_tac.
  Qed.

Lemma run_microservice_body_ignores self language user_code config ct et start_time :
    ignores_teardown
      (run_microservice_body self language user_code config ct et start_time).
  Proof.
    unfold run_microservice_body, error_verdict, run_microservice_steps, stage_step,
      create_container, _create_file_tar, compile_step, execute_step, collect_step.
    ignores_teardown_tac.
  Qed.

  (** The handler of the outer [try] of [optimized_batch_test]: one [ERROR]
    per configuration. *)
Definition batch_error_verdicts (configs : list pyval) (start_time : Q) (e : exn)
    : M (list dict) unit :=
  l ← comprehension
        (fun i =>
           t1 ← time_time ;
           mret (dict_of [
             ("status", PStr "ERROR");
             ("message", PStr (exn_str e));
             ("execution_time", PFloat (t1 - start_time));
             ("config_index", PInt (Z.of_nat i)) ]))
        0 (length configs) ;
  return_ l.

(** The [try]/[except] of [optimized_batch_test], inside its [finally]. *)
Definition optimized_batch_body (self : JudgeMicroservice) (language user_code : string)
    (configs : list pyval) (compile_timeout_val execution_timeout_val : Z)
    (start_time : Q) : M (list dict) unit :=
  try_except
    (optimized_batch_steps DOCKER_IMAGES setting self language user_code configs
       compile_timeout_val execution_timeout_val start_time)
    (batch_error_verdicts configs start_time).

Lemma optimized_batch_unfold self language user_code configs show ct et w s :
    supported DOCKER_IMAGES language = true ->
    configs <> [] ->
    optimized_batch_test DOCKER_IMAGES setting self language user_code configs show ct et
      w s =
    try_finally
      (optimized_batch_body self language user_code configs
         (default (default 30 (compile_timeout setting)) ct)
         (default (container_timeout setting) et) (clock w (ticks s)))
      teardown w
      {| log := log s; ticks := S (ticks s); container := false; results := [] |}.
  Proof.
    intros Hs Hn. unfold optimized_batch_test. rewrite Hs.
    destruct configs; [done|]. reflexivity.
  Qed.

Lemma optimized_batch_body_creates self language user_code configs ct et start_time :
    creates_container
      (optimized_batch_body self language user_code configs ct et start_time).
  Proof.
    unfold optimized_batch_body, optimized_batch_steps.
    apply creates_try_except; [|intros; unfold batch_error_verdicts; keeps_container_tac].
    apply creates_bind; [apply creates_create_container|].
    intros; unfold _create_user_code_tar, batch_compile, batch_iteration,
      _create_config_tar; keeps_container_tac.
  Qed.

Lemma optimized_batch_body_ignores self language user_code configs ct et start_time :
    ignores_teardown
      (optimized_batch_body self language user_code configs ct et start_time).
  Proof.
    unfold optimized_batch_body, batch_error_verdicts, optimized_batch_steps,
      create_container, _create_user_code_tar, batch_compile, batch_iteration,
      _create_config_tar.
    ignores_teardown_tac.
  Qed.

  (** C3 (as amended).  When the container was created, both entry points
      end every invocation with the teardown: [stop] is issued, and [remove]
      after it when [stop] returned; nothing the teardown calls answer, an
      exception included, changes the value returned. *)
Theorem teardown_always_attempted_and_harmless
      self language user_code config configs show_logs ct et w :
    supported DOCKER_IMAGES language = true ->
    containers_create w = Returns tt ->
    let single := run_microservice DOCKER_IMAGES setting self language user_code config
                    show_logs ct et in
    let batch := optimized_batch_test DOCKER_IMAGES setting self language user_code
                   configs show_logs ct et in
    ((exists l, calls (single w initial) = (l ++ teardown_calls (stop_at_teardown w))%list)
     /\ forall a b,
          returned (single (with_teardown w a b) initial) = returned (single w initial))
    /\ (configs <> [] ->
        (exists l, calls (batch w initial) = (l ++ teardown_calls (stop_at_teardown w))%list)
        /\ forall a b,
             returned (batch (with_teardown w a b) initial) = returned (batch w initial)).
  Proof.
    intros Hs Hc single batch. split; [split|intros Hn; split].
    - subst single. rewrite run_microservice_unfold by done.
      rewrite try_finally_teardown. unfold calls; cbn.
      rewrite run_microservice_body_creates by done. cbn. eauto.
    - intros a b. subst single. rewrite !run_microservice_unfold by done.
      rewrite !try_finally_teardown. unfold returned; cbn.
      by rewrite run_microservice_body_ignores.
    - subst batch. rewrite optimized_batch_unfold by done.
      rewrite try_finally_teardown. unfold calls; cbn.
      rewrite optimized_batch_body_creates by done. cbn. eauto.
    - intros a b. subst batch. rewrite !optimized_batch_unfold by done.
      rewrite !try_finally_teardown. unfold returned; cbn.
      by rewrite optimized_batch_body_ignores.
  Qed.

  (** C10.  For a supported language and an empty list of configurations,
      [optimized_batch_test] returns the empty list and leaves the state as
      it found it: no call is issued to the container runtime (none to
      create, start, stop or remove a container) and the clock is not read. *)
Theorem optimized_batch_test_empty self language user_code show_progress ct et w s :
    supported DOCKER_IMAGES language = true ->
    optimized_batch_test DOCKER_IMAGES setting self language user_code [] show_progress
      ct et w s = (Returned [], s).
  Proof. intros Hs. unfold optimized_batch_test. by rewrite Hs. Qed.


  (** Reduce an invocation of [run_microservice] to the run of its steps. *)
Ltac enter_run_microservice :=
    rewrite run_microservice_unfold by done;
    rewrite try_finally_teardown;
    unfold returned, calls, status_of, run_microservice_body, error_verdict; cbn [fst snd];
    unfold_engine.

Ltac verdict := eexists; split; [reflexivity | repeat split; reflexivity].


(** ** Equations of the control flow *)

Lemma bind_normal {R A B} (m : M R A) (k : A -> M R B) w s a s' :
  m w s = (Normal a, s') -> (m ≫= k) w s = k a w s'.
Proof. intros H. unfold mbind, M_bind, bind. by rewrite H. Qed.

Lemma bind_returned {R A B} (m : M R A) (k : A -> M R B) w s v s' :
  m w s = (Returned v, s') -> (m ≫= k) w s = (Returned v, s').
Proof. intros H. unfold mbind, M_bind, bind. by rewrite H. Qed.

Lemma bind_raised {R A B} (m : M R A) (k : A -> M R B) w s e s' :
  m w s = (Raised e, s') -> (m ≫= k) w s = (Raised e, s').
Proof. intros H. unfold mbind, M_bind, bind. by rewrite H. Qed.

Lemma try_except_returned {R A} (m : M R A) h w s v s' :
  m w s = (Returned v, s') -> try_except m h w s = (Returned v, s').
Proof. intros H. unfold try_except. by rewrite H. Qed.

Lemma try_except_raised {R A} (m : M R A) h w s e s' :
  m w s = (Raised e, s') -> try_except m h w s = h e w s'.
Proof. intros H. unfold try_except. by rewrite H. Qed.

(** ** The steps of [run_microservice] *)

Arguments execute_step : simpl never.
Arguments collect_step : simpl never.

(** The files uploaded by [run_microservice], the clock read at [k]. *)
Definition staged_files (w : World) (language user_code : string) (config : pyval)
    (k : nat) : list TarMember :=
  [ {| tm_name := user_filename_of language; tm_isfile := true; tm_mode := 420;
       tm_mtime := clock w k; tm_data := encode_utf8 user_code |};
    {| tm_name := "config.json"; tm_isfile := true; tm_mode := 420;
       tm_mtime := clock w (S k); tm_data := encode_utf8 (json_dumps w config) |} ].

Definition create_call (w : World) (language : string) : Call :=
  ContainersCreate (image_of DOCKER_IMAGES language)
    (int_of_float (float_mul w 100000 (container_cpu setting)))
    (container_mem setting) false true "sleep infinity" true.

(** The calls of [run_microservice] up to the start of the test. *)
Definition calls_before_test (w : World) (language user_code : string) (config : pyval)
    (compile_timeout_val : Z) : list Call :=
  [create_call w language; ContainerStart;
   PutArchive "/app" (staged_files w language user_code config 1)]
  ++ (if startswith "python" language then []
      else [ExecRun (compile_command compile_timeout_val) "/app"]).

(** The state of [run_microservice] when the test starts. *)
Definition state_at_test (w : World) (language user_code : string) (config : pyval)
    (compile_timeout_val : Z) : State :=
  {| log := calls_before_test w language user_code config compile_timeout_val;
     ticks := S (test_start_tick language); container := true; results := [] |}.

Lemma run_microservice_body_prefix self language user_code config T E w :
  staged w ->
  compiled w language T ->
  run_microservice_body self language user_code config T E (clock w 0) w
    {| log := []; ticks := 1; container := false; results := [] |} =
  try_except
    (exec_result ←
       execute_step self E (clock w 0) (clock w 3) (clock w (test_start_tick language)) ;
     collect_step (clock w 0) (clock w 3) (clock w (test_start_tick language)) exec_result)
    (error_verdict (clock w 0)) w
    (state_at_test w language user_code config T).
Proof.
  intros (H1 & H2 & H3) Hc.
  unfold run_microservice_body, run_microservice_steps, stage_step, compile_step,
    create_container, _create_file_tar, state_at_test, calls_before_test,
    test_start_tick.
  destruct Hc as [Hp | (cr & Hcr & H0 & Hw)].
  - rewrite Hp. unfold_monad. run. reflexivity.
  - unfold compile_wall in Hw. destruct (startswith "python" language) eqn:Hp.
    + unfold_monad. run. reflexivity.
    + unfold_monad. run. reflexivity.
Qed.

(** A state, the clock read [n] more times. *)
Definition later (s : State) (n : nat) : State :=
  {| log := log s; ticks := (n + ticks s)%nat; container := container s;
     results := results s |}.

(** *** The execute step *)

(** With [continue_on_timeout], the plain command is issued and its result
    is the value of the step, whatever the time it took. *)
Lemma execute_step_continue self E st cst tst w s er :
  continue_on_timeout self = true ->
  exec_test w 0 = Returns er ->
  execute_step self E st cst tst w s =
  (Normal er, add_calls s [ExecRun test_command_plain "/app"]).
Proof.
  intros Hc He. unfold execute_step. rewrite Hc. unfold_monad. by rewrite He.
Qed.

Lemma execute_step_passes self E st cst tst w s er :
  continue_on_timeout self = false ->
  exec_test w 0 = Returns er ->
  Qgtb (clock w (ticks s) - tst) (inject_Z E) = false ->
  exit_code er <> 124 ->
  execute_step self E st cst tst w s =
  (Normal er, later (add_calls s [ExecRun (test_command_timeout E) "/app"]) 1).
Proof.
  intros Hc He Hw H124. apply Z.eqb_neq in H124.
  unfold execute_step. rewrite Hc. unfold_monad. run. reflexivity.
Qed.

Lemma execute_step_wall_exceeded self E st cst tst w s er :
  continue_on_timeout self = false ->
  exec_test w 0 = Returns er ->
  Qgtb (clock w (ticks s) - tst) (inject_Z E) = true ->
  (stop_on_timeout w = Returns tt ->
   exists d s', execute_step self E st cst tst w s = (Returned d, s')
                /\ status_of d = Some (PStr "TIMEOUT"))
  /\ (forall e, stop_on_timeout w = Raises e ->
      exists d s', execute_step self E st cst tst w s = (Returned d, s')
                   /\ status_of d = Some (PStr "TIMEOUT_ERROR")).
Proof.
  intros Hc He Hw. split; [intros Hs | intros e Hs];
    unfold execute_step; rewrite Hc; unfold_monad; run; eauto.
Qed.

Lemma execute_step_exit_124 self E st cst tst w s er :
  continue_on_timeout self = false ->
  exec_test w 0 = Returns er ->
  Qgtb (clock w (ticks s) - tst) (inject_Z E) = false ->
  exit_code er = 124 ->
  exists d s', execute_step self E st cst tst w s = (Returned d, s')
               /\ status_of d = Some (PStr "TIMEOUT").
Proof.
  intros Hc He Hw H124. unfold execute_step. rewrite Hc. unfold_monad. run. eauto.
Qed.

(** The command of the test: wrapped in [timeout] unless the engine runs
    with [continue_on_timeout]. *)
Definition test_command (self : JudgeMicroservice) (E : Z) : string :=
  if continue_on_timeout self then test_command_plain else test_command_timeout E.

(** However it ends, the execute step issues the command of the test
    first, and at most one more call ([stop]). *)
Lemma execute_step_calls self E st cst tst w s :
  exists l, log (execute_step self E st cst tst w s).2 =
            (log s ++ ExecRun (test_command self E) "/app" :: l)%list
            /\ (l = [] \/ l = [ContainerStop 1]).
Proof.
  unfold execute_step, test_command. destruct (continue_on_timeout self); unfold_monad.
  - destruct (exec_test w 0); cbn; eauto.
  - destruct (exec_test w 0) as [er|e]; cbn; [|eauto].
    destruct (Qgtb _ _); cbn.
    + destruct (stop_on_timeout w); cbn; rewrite <- app_assoc; cbn; eauto.
    + destruct (exit_code er =? 124); cbn; eauto.
Qed.

(** *** The collect step *)

(** The step always returns a verdict, after one call to read the archive:
    the runner's own dict with the three timing keys set by the engine, or
    an [ERROR] carrying the exit code of the test when no dict can be
    read. *)
Lemma collect_step_returns st cst tst er w s :
  exists d n,
    collect_step st cst tst er w s
    = (Returned d, later (add_calls s [GetArchive "/app/result.json"]) n)
    /\ (forall d0, read_result w 0 = Returns (PDict d0) ->
        d = <["compile_execution_time" := PFloat (clock w (S (S (ticks s))) - cst)]>
              (<["test_execution_time" := PFloat (clock w (S (ticks s)) - tst)]>
                 (<["total_execution_time" := PFloat (clock w (ticks s) - st)]> d0)))
    /\ ((forall d0, read_result w 0 <> Returns (PDict d0)) ->
        status_of d = Some (PStr "ERROR")
        /\ d !! "exit_code" = Some (PInt (exit_code er))).
Proof.
  unfold collect_step, read_result, later, add_calls. unfold_monad.
  destruct (get_archive w 0) as [a|e]; cbn.
  2: { eexists _, 1%nat. split; [reflexivity|]. split; [done|]. by intros _. }
  destruct (_extract_result_from_tar a) as [content|e]; cbn.
  2: { eexists _, 1%nat. split; [reflexivity|]. split; [done|]. by intros _. }
  destruct (json_loads w content) as [v|e]; cbn.
  2: { eexists _, 1%nat. split; [reflexivity|]. split; [done|]. by intros _. }
  destruct v; cbn;
    try (eexists _, 4%nat; split; [reflexivity|]; split; [done|]; by intros _).
  eexists _, 3%nat. split; [reflexivity|]. split.
  - intros d0 [= <-]. reflexivity.
  - intros H. by destruct (H d).
Qed.

(** *** From the start of the test to the verdict *)

(** Steps 5 and 6 inside the outer [try] of [run_microservice]. *)
Definition test_and_collect (self : JudgeMicroservice) (E : Z) (st cst tst : Q)
    : M dict unit :=
  try_except
    (exec_result ← execute_step self E st cst tst ;
     collect_step st cst tst exec_result)
    (error_verdict st).

Lemma test_and_collect_keeps_container self E st cst tst :
  keeps_container (test_and_collect self E st cst tst).
Proof.
  unfold test_and_collect, error_verdict, execute_step, collect_step.
  keeps_container_tac.
Qed.

(** An invocation whose first steps went through is the run of steps 5 and
    6 from the state reached, followed by the teardown. *)
Lemma run_microservice_reaches_test self language user_code config show_logs ct et w :
  supported DOCKER_IMAGES language = true ->
  staged w ->
  compiled w language (default (default 30 (compile_timeout setting)) ct) ->
  let T := default (default 30 (compile_timeout setting)) ct in
  let E := default (container_timeout setting) et in
  let r := test_and_collect self E (clock w 0) (clock w 3)
             (clock w (test_start_tick language)) w
             (state_at_test w language user_code config T) in
  run_microservice DOCKER_IMAGES setting self language user_code config show_logs ct et
    w initial
  = (r.1, add_calls r.2 (teardown_calls (stop_at_teardown w))).
Proof.
  intros Hs Hst Hc T E r. rewrite run_microservice_unfold by done.
  rewrite try_finally_teardown.
  change {| log := log initial; ticks := S (ticks initial); container := false;
            results := results initial |}
    with {| log := []; ticks := 1; container := false; results := [] |}.
  rewrite run_microservice_body_prefix by done.
  pose proof (test_and_collect_keeps_container self E (clock w 0) (clock w 3)
                (clock w (test_start_tick language)) w
                (state_at_test w language user_code config T)) as Hk.
  subst r. unfold test_and_collect in *. subst T E. by rewrite Hk.
Qed.

(** C1 (as amended).  In a single-submission execution without
    [continue_on_timeout] whose test command returned: a wall time above
    [execution_timeout] makes the engine stop the container and answer
    [TIMEOUT] ([TIMEOUT_ERROR] if that stop raises); within the time limit,
    exit code 124 gives [TIMEOUT]; any other exit code goes on to read
    [/app/result.json], and the verdict is the runner's own (its status
    kept) when a dict is read, else [ERROR] carrying the exit code.  A
    timeout of the compile step never has the status of a timeout of the
    test, nor the converse. *)
Theorem execute_outcome_classified self language user_code config show_logs ct et w :
  continue_on_timeout self = false ->
  supported DOCKER_IMAGES language = true ->
  staged w ->
  let T := default (default 30 (compile_timeout setting)) ct in
  let E := default (container_timeout setting) et in
  let r := run_microservice DOCKER_IMAGES setting self language user_code config
             show_logs ct et w initial in
  (forall er,
     compiled w language T ->
     exec_test w 0 = Returns er ->
     (Qgtb (test_wall w language) (inject_Z E) = true ->
      (stop_on_timeout w = Returns tt ->
       exists d, returned r = Some d /\ status_of d = Some (PStr "TIMEOUT"))
      /\ (forall e, stop_on_timeout w = Raises e ->
          exists d, returned r = Some d /\ status_of d = Some (PStr "TIMEOUT_ERROR")))
     /\ (Qgtb (test_wall w language) (inject_Z E) = false -> exit_code er = 124 ->
         exists d, returned r = Some d /\ status_of d = Some (PStr "TIMEOUT"))
     /\ (Qgtb (test_wall w language) (inject_Z E) = false -> exit_code er <> 124 ->
         GetArchive "/app/result.json" ∈ calls r
         /\ (forall d0, read_result w 0 = Returns (PDict d0) ->
             exists d, returned r = Some d /\ status_of d = status_of d0)
         /\ ((forall d0, read_result w 0 <> Returns (PDict d0)) ->
             exists d, returned r = Some d /\ status_of d = Some (PStr "ERROR")
                       /\ d !! "exit_code" = Some (PInt (exit_code er)))))
  /\ (forall cr,
        startswith "python" language = false ->
        exec_compile w = Returns cr ->
        Qgtb (compile_wall w) (inject_Z T) = true \/ exit_code cr = 124 ->
        forall d, returned r = Some d ->
                  status_of d <> Some (PStr "TIMEOUT")
                  /\ status_of d <> Some (PStr "TIMEOUT_ERROR")).
Proof.
  intros Hc Hs Hst T E r. split.
  - intros er Hcomp He. subst r.
    rewrite run_microservice_reaches_test by done. fold T E.
    unfold returned, calls, test_wall; cbn [fst snd].
    set (s := state_at_test w language user_code config T).
    set (tst := clock w (test_start_tick language)).
    change (S (test_start_tick language)) with (ticks s).
    unfold test_and_collect. split; [|split].
    + intros Hw.
      destruct (execute_step_wall_exceeded self E (clock w 0) (clock w 3) tst w s er)
        as [Hret Hraise]; [done..|].
      split.
      * intros Hstop. destruct (Hret Hstop) as (d & s' & Hx & Hd).
        erewrite try_except_returned by (by eapply bind_returned). eauto.
      * intros e Hstop. destruct (Hraise e Hstop) as (d & s' & Hx & Hd).
        erewrite try_except_returned by (by eapply bind_returned). eauto.
    + intros Hw H124.
      destruct (execute_step_exit_124 self E (clock w 0) (clock w 3) tst w s er)
        as (d & s' & Hx & Hd); [done..|].
      erewrite try_except_returned by (by eapply bind_returned). eauto.
    + intros Hw H124.
      pose proof (execute_step_passes self E (clock w 0) (clock w 3) tst w s er
                    Hc He Hw H124) as Hx.
      destruct (collect_step_returns (clock w 0) (clock w 3) tst er w
                  (later (add_calls s [ExecRun (test_command_timeout E) "/app"]) 1))
        as (d & n & Hy & Hd & Herr).
      erewrite try_except_returned
        by (erewrite bind_normal by exact Hx; exact Hy).
      split; [|split].
      * clear Hd Herr. cbn. set_solver.
      * intros d0 Hr. eexists. split; [reflexivity|]. rewrite (Hd d0 Hr).
        unfold status_of. by rewrite !lookup_insert_ne.
      * intros Hr. eexists. split; [reflexivity|]. by apply Herr.
  - intros cr Hp Hcr Hfail d. subst r. destruct Hst as (H1 & H2 & H3).
    unfold compile_wall in Hfail. subst T.
    enter_run_microservice. run.
    destruct (Qgtb (clock w 4 - clock w 3) _) eqn:Hw; run.
    + destruct (stop_on_timeout w) eqn:Hstop; run; intros [= <-]; by split.
    + destruct Hfail as [|H124]; [done|]. run. intros [= <-]; by split.
Qed.


Lemma test_and_collect_calls self E st cst tst w s :
  exists l, log (test_and_collect self E st cst tst w s).2 =
            (log s ++ ExecRun (test_command self E) "/app" :: l)%list.
Proof.
  destruct (execute_step_calls self E st cst tst w s) as (l & Hl & _).
  unfold test_and_collect, try_except, mbind, M_bind, bind.
  destruct (execute_step self E st cst tst w s) as [[er|v| |e] s']; cbn in *; eauto.
  - destruct (collect_step_returns st cst tst er w s') as (d & n & Hy & _).
    rewrite Hy. cbn. rewrite Hl, <- app_assoc. cbn. eauto.
Qed.

(** C2 (as amended).  In a single-submission execution of a compiled
    language whose compile command returned: exit code 0 within the time
    limit goes on to the execute step (the test command is issued); a wall
    time above [compile_timeout] makes the engine stop the container and
    answer [COMPILE_TIMEOUT] ([COMPILE_ERROR] if that stop raises); within
    the time limit, exit code 124 gives [COMPILE_TIMEOUT] and any other
    nonzero exit code [COMPILE_ERROR], whose [compile_output] is the output
    decoded as UTF-8 with the undecodable bytes ignored. *)
Theorem compile_outcome_classified self language user_code config show_logs ct et w cr :
  supported DOCKER_IMAGES language = true ->
  staged w ->
  startswith "python" language = false ->
  exec_compile w = Returns cr ->
  let T := default (default 30 (compile_timeout setting)) ct in
  let E := default (container_timeout setting) et in
  let r := run_microservice DOCKER_IMAGES setting self language user_code config
             show_logs ct et w initial in
  (Qgtb (compile_wall w) (inject_Z T) = false -> exit_code cr = 0 ->
     ExecRun (test_command self E) "/app" ∈ calls r)
  /\ (Qgtb (compile_wall w) (inject_Z T) = true ->
      (stop_on_timeout w = Returns tt ->
         exists d, returned r = Some d /\ status_of d = Some (PStr "COMPILE_TIMEOUT"))
      /\ (forall e, stop_on_timeout w = Raises e ->
            exists d, returned r = Some d /\ status_of d = Some (PStr "COMPILE_ERROR")))
  /\ (Qgtb (compile_wall w) (inject_Z T) = false -> exit_code cr = 124 ->
      exists d, returned r = Some d /\ status_of d = Some (PStr "COMPILE_TIMEOUT"))
  /\ (Qgtb (compile_wall w) (inject_Z T) = false ->
      exit_code cr <> 0 -> exit_code cr <> 124 ->
      exists d, returned r = Some d /\ status_of d = Some (PStr "COMPILE_ERROR")
                /\ d !! "compile_output"
                   = Some (PStr (decode_lenient Ignore (output cr)))).
Proof.
  intros Hs Hst Hp Hc T E r. subst r. split; [|split; [|split]].
  - intros Hw H0.
    rewrite run_microservice_reaches_test; [|done..|right; eauto].
    unfold calls; cbn [snd].
    destruct (test_and_collect_calls self E (clock w 0) (clock w 3)
                (clock w (test_start_tick language)) w
                (state_at_test w language user_code config T)) as (l & Hl).
    subst T E. cbn. rewrite Hl. set_solver.
  - destruct Hst as (H1 & H2 & H3). subst T E. unfold compile_wall.
    intros Hw. split; [intros Hstop | intros e Hstop];
      enter_run_microservice; run; verdict.
  - destruct Hst as (H1 & H2 & H3). subst T E. unfold compile_wall.
    intros Hw H124. enter_run_microservice. run. verdict.
  - destruct Hst as (H1 & H2 & H3). subst T E. unfold compile_wall.
    intros Hw H0 H124. apply Z.eqb_neq in H0, H124.
    enter_run_microservice. run. verdict.
Qed.

(** C9 (as amended).  After a successful collect, [total_execution_time]
    and [test_execution_time] of the verdict are the differences between
    readings of the engine's clock taken once [result.json] is parsed and
    the readings taken at the start of the invocation and at the start of
    the test; [compile_execution_time] is set by the engine as well, to a
    difference of two readings of its clock.  The three keys replace
    whatever the runner wrote under them, and every other key is the
    runner's. *)
Theorem collected_timings_set_by_engine
    self language user_code config show_logs ct et w er d0 :
  supported DOCKER_IMAGES language = true ->
  staged w ->
  compiled w language (default (default 30 (compile_timeout setting)) ct) ->
  exec_test w 0 = Returns er ->
  (continue_on_timeout self = false ->
   Qgtb (test_wall w language) (inject_Z (default (container_timeout setting) et)) = false
   /\ exit_code er <> 124) ->
  read_result w 0 = Returns (PDict d0) ->
  let c := collect_tick self language in
  let r := run_microservice DOCKER_IMAGES setting self language user_code config
             show_logs ct et w initial in
  exists d,
    returned r = Some d
    /\ d !! "total_execution_time" = Some (PFloat (clock w c - clock w 0))
    /\ d !! "test_execution_time"
       = Some (PFloat (clock w (S c) - clock w (test_start_tick language)))
    /\ (exists k1 k2,
          d !! "compile_execution_time" = Some (PFloat (clock w k1 - clock w k2)))
    /\ forall key,
         key <> "total_execution_time" -> key <> "test_execution_time" ->
         key <> "compile_execution_time" -> d !! key = d0 !! key.
Proof.
  intros Hs Hst Hcomp He Hpass Hr c r. subst r c.
  rewrite run_microservice_reaches_test by done.
  unfold returned, collect_tick, test_wall in *; cbn [fst].
  set (T := default (default 30 (compile_timeout setting)) ct) in *.
  set (E := default (container_timeout setting) et) in *.
  set (s := state_at_test w language user_code config T).
  set (tst := clock w (test_start_tick language)) in *.
  unfold test_and_collect.
  destruct (continue_on_timeout self) eqn:Hc.
  - pose proof (execute_step_continue self E (clock w 0) (clock w 3) tst w s er Hc He)
      as Hx.
    destruct (collect_step_returns (clock w 0) (clock w 3) tst er w
                (add_calls s [ExecRun test_command_plain "/app"]))
      as (d & n & Hy & Hd & _).
    erewrite try_except_returned by (erewrite bind_normal by exact Hx; exact Hy).
    exists d. rewrite (Hd d0 Hr). cbn. split; [done|].
    split; [by rewrite lookup_insert_ne, lookup_insert_ne, lookup_insert_eq|].
    split; [by rewrite lookup_insert_ne, lookup_insert_eq|].
    split; [eexists _, _; by rewrite lookup_insert_eq|].
    intros key K1 K2 K3. by rewrite !lookup_insert_ne.
  - destruct (Hpass eq_refl) as [Hw H124].
    pose proof (execute_step_passes self E (clock w 0) (clock w 3) tst w s er
                  Hc He Hw H124) as Hx.
    destruct (collect_step_returns (clock w 0) (clock w 3) tst er w
                (later (add_calls s [ExecRun (test_command_timeout E) "/app"]) 1))
      as (d & n & Hy & Hd & _).
    erewrite try_except_returned by (erewrite bind_normal by exact Hx; exact Hy).
    exists d. rewrite (Hd d0 Hr). cbn. split; [done|].
    split; [by rewrite lookup_insert_ne, lookup_insert_ne, lookup_insert_eq|].
    split; [by rewrite lookup_insert_ne, lookup_insert_eq|].
    split; [eexists _, _; by rewrite lookup_insert_eq|].
    intros key K1 K2 K3. by rewrite !lookup_insert_ne.
Qed.


(** ** The loop of [optimized_batch_test] *)

(** A call of the test loop: an [exec_run] in it runs the test command. *)
Definition test_loop_call (self : JudgeMicroservice) (E : Z) (c : Call) : Prop :=
  match c with
  | ExecRun cmd _ => cmd = test_command self E
  | _ => True
  end.

(** What one iteration records for the configuration of rank [i], and the
    calls [l] it issues; [k] is the rank of the clock reading that starts
    the iteration ([test_start_time]), the clock being read again for the
    archive entry and after the test. *)
Definition iteration_ok (self : JudgeMicroservice) (E : Z) (w : World) (i : nat)
    (d : dict) (l : list Call) (k : nat) : Prop :=
  d !! "config_index" = Some (PInt (Z.of_nat i))
  /\ length (List.filter is_put_archive l) = 1%nat
  /\ Forall (test_loop_call self E) l
  /\ (continue_on_timeout self = false -> put_archive w (S i) = Returns tt ->
      forall er, exec_test w i = Returns er -> exit_code er = 124 ->
                 status_of d = Some (PStr "TIMEOUT"))
  /\ ((forall d0, read_result w i <> Returns (PDict d0)) ->
      status_of d = Some (PStr "TIMEOUT") \/ status_of d = Some (PStr "ERROR"))
  /\ (continue_on_timeout self = true -> put_archive w (S i) = Returns tt ->
      forall er, exec_test w i = Returns er ->
      forall d0, read_result w i = Returns (PDict d0) -> status_of d = status_of d0)
  /\ (continue_on_timeout self = false -> put_archive w (S i) = Returns tt ->
      forall er, exec_test w i = Returns er ->
      Qgtb (clock w (S (S k)) - clock w k) (inject_Z E) = true ->
      status_of d = Some (PStr "TIMEOUT")).

Ltac test_loop_calls :=
  cbn [app];
  repeat (apply Forall_cons; split;
          [cbn; unfold test_command;
           repeat match goal with
                  | H : continue_on_timeout _ = _ |- _ => rewrite H
                  end; done|]);
  apply Forall_nil.

Ltac iteration_leaf :=
  eexists _, _, _; split; [first [left; reflexivity | right; reflexivity]|];
  split; [rewrite <- ?app_assoc; reflexivity|];
  unfold iteration_ok, read_result, status_of;
  split; [first [reflexivity | apply lookup_insert_eq]|];
  split; [reflexivity|];
  split; [test_loop_calls|];
  repeat match goal with H : _ = _ |- _ => rewrite H end;
  split; [try done; intros; simplify_eq; try done|];
  split; [try (intros _; first [left; reflexivity | right; reflexivity])|];
  try (split; [|try done; intros; simplify_eq; done]);
  try done; intros; simplify_eq; try done;
  try (exfalso; match goal with H : forall _, _ <> _ |- _ => by eapply H end);
  try by rewrite !lookup_insert_ne.

Lemma batch_iteration_post self E st cet i config w s :
  exists d l n,
    ((batch_iteration self E st cet i config w s).1 = Normal tt
     \/ (batch_iteration self E st cet i config w s).1 = Continued)
    /\ (batch_iteration self E st cet i config w s).2
       = {| log := log s ++ l; ticks := n; container := container s;
            results := results s ++ [d] |}
    /\ iteration_ok self E w i d l (ticks s).
Proof.
  unfold batch_iteration, _create_config_tar. unfold_monad. cbn.
  destruct (put_archive w (S i)) as [[]|e0] eqn:Hput; cbn.
  2: { iteration_leaf. }
  destruct (continue_on_timeout self) eqn:Hc; cbn.
  - destruct (exec_test w i) as [er|e1] eqn:He; cbn.
    2: { iteration_leaf. }
    destruct (get_archive w i) as [a|e2] eqn:Hg; cbn.
    2: { iteration_leaf. }
    destruct (_extract_result_from_tar a) as [content|e3] eqn:Hx; cbn.
    2: { iteration_leaf. }
    unfold loads, lift. unfold_monad.
    destruct (json_loads w content) as [v|e4] eqn:Hj; cbn.
    2: { iteration_leaf. }
    destruct v; cbn; iteration_leaf.
  - destruct (exec_test w i) as [er|e1] eqn:He; cbn.
    2: { iteration_leaf. }
    destruct (Qgtb _ _) eqn:Hw; cbn.
    { iteration_leaf. }
    destruct (exit_code er =? 124) eqn:H124; cbn.
    { iteration_leaf. }
    apply Z.eqb_neq in H124.
    destruct (get_archive w i) as [a|e2] eqn:Hg; cbn.
    2: { iteration_leaf. }
    destruct (_extract_result_from_tar a) as [content|e3] eqn:Hx; cbn.
    2: { iteration_leaf. }
    unfold loads, lift. unfold_monad.
    destruct (json_loads w content) as [v|e4] eqn:Hj; cbn.
    2: { iteration_leaf. }
    destruct v; cbn; iteration_leaf.
Qed.

(** A verdict of the batch: tagged with its rank, with status [v]. *)
Definition tagged (v : string) (i : nat) (d : dict) : Prop :=
  d !! "config_index" = Some (PInt (Z.of_nat i)) /\ status_of d = Some (PStr v).

(** A comprehension whose elements only read the clock: one element per
    rank, the calls and the variables left as they were. *)
Lemma comprehension_post {R} (f : nat -> M R dict) (P : nat -> dict -> Prop) w :
  (forall i s, exists d s',
      f i w s = (Normal d, s') /\ P i d /\ log s' = log s
      /\ container s' = container s /\ results s' = results s) ->
  forall k start s, exists ds s',
    comprehension f start k w s = (Normal ds, s')
    /\ length ds = k
    /\ (forall j d, ds !! j = Some d -> P (start + j)%nat d)
    /\ log s' = log s /\ container s' = container s /\ results s' = results s.
Proof.
  intros Hf. induction k as [|k IH]; intros start s.
  - exists [], s. cbn. repeat split; try done.
  - destruct (Hf start s) as (d & s1 & Hd & HP & Hl1 & Hc1 & Hr1).
    destruct (IH (S start) s1) as (ds & s2 & Hds & Hlen & HPs & Hl2 & Hc2 & Hr2).
    exists (d :: ds), s2. cbn. unfold mbind, M_bind, bind. rewrite Hd, Hds.
    split; [done|]. split; [by rewrite Hlen|].
    split; [|by rewrite Hl2, Hc2, Hr2].
    intros [|j] d' Hj; cbn in Hj.
    + injection Hj as <-. by rewrite Nat.add_0_r.
    + rewrite <- Nat.add_succ_comm. by apply HPs.
Qed.

(** The loop appends one verdict per configuration, in order, and goes
    through every configuration whatever happened to the ones before. *)
Lemma batch_loop_post self E st cet w configs :
  forall start s, exists ds l n,
    for_enumerate start configs (batch_iteration self E st cet) w s
    = (Normal tt, {| log := log s ++ l; ticks := n; container := container s;
                     results := results s ++ ds |})
    /\ length ds = length configs
    /\ (forall j d, ds !! j = Some d ->
        exists lj k, iteration_ok self E w (start + j)%nat d lj k)
    /\ length (List.filter is_put_archive l) = length configs
    /\ Forall (test_loop_call self E) l
    /\ (forall d, ds !! 0%nat = Some d ->
        exists lj, iteration_ok self E w start d lj (ticks s)).
Proof.
  induction configs as [|config configs IH]; intros start s.
  - exists [], [], (ticks s). cbn. rewrite !app_nil_r. by destruct s.
  - destruct (batch_iteration_post self E st cet start config w s)
      as (d & l & n & Ho & Hs & Hok).
    destruct (batch_iteration self E st cet start config w s) as [o s1] eqn:Hit.
    cbn in Ho, Hs. subst s1.
    destruct (IH (S start) {| log := log s ++ l; ticks := n; container := container s;
                              results := results s ++ [d] |})
      as (ds & l' & n' & Hloop & Hlen & Hds & Hcount & Hall & _).
    exists (d :: ds), (l ++ l')%list, n'. cbn [for_enumerate]. rewrite Hit.
    assert (Heq : for_enumerate (S start) configs (batch_iteration self E st cet) w
                    {| log := log s ++ l; ticks := n; container := container s;
                       results := results s ++ [d] |}
                  = (Normal tt, {| log := log s ++ l ++ l'; ticks := n';
                                   container := container s;
                                   results := results s ++ d :: ds |})).
    { rewrite Hloop. cbn. by rewrite <- !app_assoc. }
    split; [by destruct Ho as [-> | ->]|].
    split; [cbn; by rewrite Hlen|].
    split; [|split; [|split]].
    + intros [|j] d' Hj; cbn in Hj.
      * injection Hj as <-. rewrite Nat.add_0_r. eauto.
      * rewrite <- Nat.add_succ_comm. by apply Hds.
    + destruct Hok as (_ & Hc & _). rewrite List.filter_app, length_app, Hc, Hcount.
      done.
    + destruct Hok as (_ & _ & Hf & _). by apply Forall_app.
    + intros d' [= <-]. eauto.
Qed.


(** *** The compilation of the batch *)

Arguments batch_iteration : simpl never.
Arguments comprehension : simpl never.


(** Replace a comprehension whose elements are verdicts with status [v] by
    its value. *)
Ltac fan_out v :=
  match goal with
  | |- context [comprehension ?g 0 ?k ?w ?s] =>
    let ds := fresh "ds" in let s' := fresh "s'" in
    let Hds := fresh "Hds" in let Hlen := fresh "Hlen" in
    let HP := fresh "HP" in let Hl := fresh "Hl" in let Hc := fresh "Hc" in
    let Hf := fresh "Hf" in
    assert (Hf : forall i s0, exists d s1,
                 g i w s0 = (Normal d, s1) /\ tagged v i d /\ log s1 = log s0
                 /\ container s1 = container s0 /\ results s1 = results s0)
      by (intros; eexists _, _; split; [reflexivity|]; repeat split; reflexivity);
    destruct (comprehension_post g (tagged v) w Hf k 0%nat s)
      as (ds & s' & Hds & Hlen & HP & Hl & Hc & _);
    rewrite Hds; cbn;
    exists ds, s', v;
    split; [reflexivity|]; split; [done|]; split; [eauto|]; split; [done|];
    split; [by rewrite Hl|by rewrite Hc]
  end.

(** A compilation that fails fans its verdict out: one verdict per
    configuration, all with the same status, each tagged with its rank, after
    the single call of the compile command. *)
Lemma batch_compile_fails language configs T st w s :
  startswith "python" language = false ->
  ((exists e, exec_compile w = Raises e)
   \/ exists cr, exec_compile w = Returns cr
                 /\ (Qgtb (clock w (S (ticks s)) - clock w (ticks s)) (inject_Z T) = true
                     \/ exit_code cr <> 0)) ->
  exists rs s' v,
    batch_compile language configs T st w s = (Returned rs, s')
    /\ length rs = length configs
    /\ (v = "COMPILE_ERROR" \/ v = "COMPILE_TIMEOUT")
    /\ (forall j d, rs !! j = Some d -> tagged v j d)
    /\ log s' = (log s ++ [ExecRun (compile_command T) "/app"])%list
    /\ container s' = container s.
Proof.
  intros Hp Hfail. unfold batch_compile. rewrite Hp. cbn [negb].
  destruct Hfail as [(e & He) | (cr & He & Hbad)]; unfold_monad; run.
  - fan_out "COMPILE_ERROR".
  - destruct (Qgtb _ _) eqn:Hw; run.
    + fan_out "COMPILE_TIMEOUT".
    + destruct Hbad as [|H0]; [done|]. apply Z.eqb_neq in H0. run.
      destruct (exit_code cr =? 124) eqn:H124; run.
      * fan_out "COMPILE_TIMEOUT".
      * fan_out "COMPILE_ERROR".
Qed.


Arguments batch_compile : simpl never.
Arguments batch_error_verdicts : simpl never.

(** The wall time the engine observes around the compilation of a batch:
    [start_time] is reading 0 of the clock, the archive entry takes reading
    1, [compile_start_time] is reading 2 and the end of the compilation
    reading 3. *)
Definition batch_compile_wall (w : World) : Q := (clock w 3 - clock w 2)%Q.

(** The compilation of the batch went through (or was skipped, for Python). *)
Definition batch_compiled (w : World) (language : string) (T : Z) : Prop :=
  startswith "python" language = true
  \/ exists cr, exec_compile w = Returns cr /\ exit_code cr = 0
               /\ Qgtb (batch_compile_wall w) (inject_Z T) = false.

(** The value of [compile_execution_time] after a compilation that went
    through. *)
Definition batch_compile_time (w : World) (language : string) : pyval :=
  if startswith "python" language then PInt 0 else PFloat (batch_compile_wall w).





(** The file uploaded first by [optimized_batch_test]. *)
Definition batch_user_file (w : World) (language user_code : string) : list TarMember :=
  [ {| tm_name := user_filename_of language; tm_isfile := true; tm_mode := 420;
       tm_mtime := clock w 1; tm_data := encode_utf8 user_code |} ].

(** The calls of [optimized_batch_test] up to the loop. *)
Definition batch_calls_before_tests (w : World) (language user_code : string) (T : Z)
    : list Call :=
  [create_call w language; ContainerStart;
   PutArchive "/app" (batch_user_file w language user_code)]
  ++ (if startswith "python" language then []
      else [ExecRun (compile_command T) "/app"]).

(** The rank of the clock reading that starts the first test of a batch. *)
Definition batch_loop_tick (language : string) : nat :=
  if startswith "python" language then 3%nat else 4%nat.

(** The state in which the loop over the configurations starts, once the
    first steps and the compilation went through. *)
Definition batch_state_at_tests (w : World) (language user_code : string) (T : Z)
    : State :=
  {| log := batch_calls_before_tests w language user_code T;
     ticks := batch_loop_tick language; container := true; results := [] |}.



(** The loop, with the clock reading at which each iteration starts. *)
Lemma batch_loop_ticks self E st cet w configs :
  forall start s, exists ds l n,
    for_enumerate start configs (batch_iteration self E st cet) w s
    = (Normal tt, {| log := log s ++ l; ticks := n; container := container s;
                     results := results s ++ ds |})
    /\ length ds = length configs
    /\ (forall j d, ds !! j = Some d ->
        exists lj,
          iteration_ok self E w (start + j)%nat d lj
            (ticks (for_enumerate start (take j configs)
                      (batch_iteration self E st cet) w s).2))
    /\ length (List.filter is_put_archive l) = length configs
    /\ Forall (test_loop_call self E) l.
Proof.
  induction configs as [|config configs IH]; intros start s.
  - exists [], [], (ticks s). cbn. rewrite !app_nil_r. by destruct s.
  - destruct (batch_iteration_post self E st cet start config w s)
      as (d & l & n & Ho & Hs & Hok).
    destruct (batch_iteration self E st cet start config w s) as [o s1] eqn:Hit.
    cbn in Ho, Hs. subst s1.
    destruct (IH (S start) {| log := log s ++ l; ticks := n; container := container s;
                              results := results s ++ [d] |})
      as (ds & l' & n' & Hloop & Hlen & Hds & Hcount & Hall).
    exists (d :: ds), (l ++ l')%list, n'. cbn [for_enumerate]. rewrite Hit.
    assert (Heq : for_enumerate (S start) configs (batch_iteration self E st cet) w
                    {| log := log s ++ l; ticks := n; container := container s;
                       results := results s ++ [d] |}
                  = (Normal tt, {| log := log s ++ l ++ l'; ticks := n';
                                   container := container s;
                                   results := results s ++ d :: ds |})).
    { rewrite Hloop. cbn. by rewrite <- !app_assoc. }
    split; [by destruct Ho as [-> | ->]|].
    split; [cbn; by rewrite Hlen|].
    split; [|split].
    + intros [|j] d' Hj; cbn in Hj.
      * injection Hj as <-. rewrite Nat.add_0_r. cbn. eauto.
      * rewrite <- Nat.add_succ_comm. cbn [take firstn for_enumerate]. rewrite Hit.
        destruct (Hds j d' Hj) as (lj & Hj'). exists lj.
        by destruct Ho as [-> | ->].
    + destruct Hok as (_ & Hc & _). rewrite List.filter_app, length_app, Hc, Hcount.
      done.
    + destruct Hok as (_ & _ & Hf & _). by apply Forall_app.
Qed.

(** A batch whose first steps went through returns what the loop, run from
    the state reached, has recorded. *)
Lemma optimized_batch_body_at_tests self language user_code configs T E w s' :
  staged w ->
  batch_compiled w language T ->
  for_enumerate 0 configs
    (batch_iteration self E (clock w 0) (batch_compile_time w language)) w
    (batch_state_at_tests w language user_code T) = (Normal tt, s') ->
  optimized_batch_body self language user_code configs T E (clock w 0) w
    {| log := []; ticks := 1; container := false; results := [] |}
  = (Returned (results s'), s').
Proof.
  intros (H1 & H2 & H3) Hc Hloop.
  unfold batch_state_at_tests, batch_calls_before_tests, batch_user_file, create_call,
    batch_loop_tick, batch_compile_time in Hloop.
  unfold optimized_batch_body, optimized_batch_steps, create_container,
    _create_user_code_tar.
  destruct Hc as [Hp | (cr & Hcr & H0 & Hw)].
  - rewrite Hp in Hloop. unfold batch_compile. rewrite Hp. unfold_monad. run.
    cbn in Hloop. by rewrite Hloop.
  - unfold batch_compile_wall in *. unfold batch_compile.
    destruct (startswith "python" language) eqn:Hp; unfold_monad; run;
      cbn in Hloop; by rewrite Hloop.
Qed.


(** C5.  In [optimized_batch_test] for a compiled language, when the
    single compilation raises, exceeds its time limit or exits with a
    nonzero code, one verdict per configuration is returned, all with the
    same status ([COMPILE_ERROR] or [COMPILE_TIMEOUT]), each tagged with its
    [config_index]; the compile command is the only command executed, one
    archive (the code) was uploaded and no result was read: no test
    configuration was run. *)
Theorem compile_failure_fans_out self language user_code configs show_progress ct et w :
  supported DOCKER_IMAGES language = true ->
  configs <> [] ->
  startswith "python" language = false ->
  staged w ->
  let T := default (default 30 (compile_timeout setting)) ct in
  let r := optimized_batch_test DOCKER_IMAGES setting self language user_code configs
             show_progress ct et w initial in
  ((exists e, exec_compile w = Raises e)
   \/ exists cr, exec_compile w = Returns cr
                 /\ (Qgtb (batch_compile_wall w) (inject_Z T) = true
                     \/ exit_code cr <> 0)) ->
  exists rs v,
    returned r = Some rs
    /\ length rs = length configs
    /\ (v = "COMPILE_ERROR" \/ v = "COMPILE_TIMEOUT")
    /\ (forall i d, rs !! i = Some d -> tagged v i d)
    /\ List.filter is_exec_run (calls r) = [ExecRun (compile_command T) "/app"]
    /\ List.filter is_get_archive (calls r) = []
    /\ length (List.filter is_put_archive (calls r)) = 1%nat.
Proof.
  intros Hs Hn Hp (H1 & H2 & H3) T r Hfail. subst r.
  rewrite optimized_batch_unfold by done.
  rewrite try_finally_teardown. unfold returned, calls. cbn [fst snd]. fold T.
  change (ticks initial) with 0%nat. change (log initial) with (@nil Call).
  unfold optimized_batch_body, optimized_batch_steps, create_container,
    _create_user_code_tar.
  unfold_monad. run.
  match goal with
  | |- context [batch_compile ?l ?c ?t ?st ?w ?s] =>
    destruct (batch_compile_fails l c t st w s Hp Hfail)
      as (rs & s' & v & Hbc & Hlen & Hv & Ht & Hlog & Hcont)
  end.
  rewrite Hbc. cbn in Hlog, Hcont |- *. rewrite Hcont. cbn. rewrite Hlog.
  exists rs, v. split; [done|]. split; [done|]. split; [done|]. split; [done|].
  destruct (stop_at_teardown w); cbn; done.
Qed.


(** With [continue_on_timeout], what an iteration records for the
    configuration of rank [i]: the verdict read from [result.json], its
    status kept, when every step went through, and [ERROR] in every other
    case. *)
Definition continue_ok (w : World) (i : nat) (d : dict) : Prop :=
  (put_archive w (S i) = Returns tt ->
   forall er, exec_test w i = Returns er ->
   forall d0, read_result w i = Returns (PDict d0) -> status_of d = status_of d0)
  /\ ((forall d0, read_result w i <> Returns (PDict d0)) ->
      status_of d = Some (PStr "ERROR"))
  /\ (forall e, put_archive w (S i) = Raises e -> status_of d = Some (PStr "ERROR"))
  /\ (forall e, exec_test w i = Raises e -> status_of d = Some (PStr "ERROR")).

Ltac continue_leaf :=
  eexists _, _; split; [reflexivity|]; split; [reflexivity|];
  unfold continue_ok, read_result, status_of;
  repeat match goal with H : _ = _ |- _ => rewrite H end;
  repeat split; intros; simplify_eq; try done;
  try (exfalso; match goal with H : forall _, _ <> _ |- _ => by eapply H end);
  try by rewrite !lookup_insert_ne.

Lemma batch_iteration_continue self E st cet i config w s :
  continue_on_timeout self = true ->
  exists d s',
    batch_iteration self E st cet i config w s = (Normal tt, s')
    /\ results s' = (results s ++ [d])%list
    /\ continue_ok w i d.
Proof.
  intros Hc. unfold batch_iteration, _create_config_tar. rewrite Hc.
  unfold_monad. cbn.
  destruct (put_archive w (S i)) as [[]|e0] eqn:Hput; cbn.
  2: { continue_leaf. }
  destruct (exec_test w i) as [er|e1] eqn:He; cbn.
  2: { continue_leaf. }
  destruct (get_archive w i) as [a|e2] eqn:Hg; cbn.
  2: { continue_leaf. }
  destruct (_extract_result_from_tar a) as [content|e3] eqn:Hx; cbn.
  2: { continue_leaf. }
  unfold loads, lift. unfold_monad.
  destruct (json_loads w content) as [v|e4] eqn:Hj; cbn.
  2: { continue_leaf. }
  destruct v; cbn; continue_leaf.
Qed.

Lemma batch_loop_continue self E st cet w configs :
  continue_on_timeout self = true ->
  forall start s, exists ds s',
    for_enumerate start configs (batch_iteration self E st cet) w s = (Normal tt, s')
    /\ results s' = (results s ++ ds)%list
    /\ forall j d, ds !! j = Some d -> continue_ok w (start + j)%nat d.
Proof.
  intros Hc. induction configs as [|config configs IH]; intros start s.
  - exists [], s. cbn. by rewrite app_nil_r.
  - destruct (batch_iteration_continue self E st cet start config w s Hc)
      as (d & s1 & Hit & Hr & Hd).
    destruct (IH (S start) s1) as (ds & s2 & Hloop & Hr2 & Hds).
    exists (d :: ds), s2. cbn [for_enumerate]. rewrite Hit.
    split; [done|]. split; [by rewrite Hr2, Hr, <- app_assoc|].
    intros [|j] d' Hj; cbn in Hj.
    + injection Hj as <-. by rewrite Nat.add_0_r.
    + rewrite <- Nat.add_succ_comm. by apply Hds.
Qed.

(** C6 (as amended).  With [continue_on_timeout], the command of the test
    is issued without the [timeout] wrapper, in the single execution and for
    every configuration of a batch, and no timeout is classified at all:
    whatever the wall time and the exit code of the test (124 included), the
    verdict is the one read from [result.json] (its status kept), or [ERROR]
    when none can be read, in the single execution and at every rank of a
    batch. *)
Theorem continue_on_timeout_skips_timeout_handling
    self language user_code config configs show_logs ct et w :
  continue_on_timeout self = true ->
  supported DOCKER_IMAGES language = true ->
  staged w ->
  let T := default (default 30 (compile_timeout setting)) ct in
  let single := run_microservice DOCKER_IMAGES setting self language user_code config
                  show_logs ct et w initial in
  let batch := optimized_batch_test DOCKER_IMAGES setting self language user_code
                 configs show_logs ct et w initial in
  contains "timeout" test_command_plain = false
  /\ (forall er,
        compiled w language T ->
        exec_test w 0 = Returns er ->
        calls single
        = (calls_before_test w language user_code config T
           ++ [ExecRun test_command_plain "/app"; GetArchive "/app/result.json"]
           ++ teardown_calls (stop_at_teardown w))%list
        /\ (forall d0, read_result w 0 = Returns (PDict d0) ->
            exists d, returned single = Some d /\ status_of d = status_of d0)
        /\ ((forall d0, read_result w 0 <> Returns (PDict d0)) ->
            exists d, returned single = Some d /\ status_of d = Some (PStr "ERROR")))
  /\ (configs <> [] ->
      batch_compiled w language T ->
      (forall cmd workdir,
         ExecRun cmd workdir ∈ calls batch ->
         cmd = compile_command T \/ cmd = test_command_plain)
      /\ exists rs,
           returned batch = Some rs
           /\ length rs = length configs
           /\ forall i d, rs !! i = Some d ->
                (put_archive w (S i) = Returns tt ->
                 forall er, exec_test w i = Returns er ->
                 forall d0, read_result w i = Returns (PDict d0) ->
                            status_of d = status_of d0)
                /\ ((forall d0, read_result w i <> Returns (PDict d0)) ->
                    status_of d = Some (PStr "ERROR"))
                /\ (forall e, put_archive w (S i) = Raises e ->
                    status_of d = Some (PStr "ERROR"))
                /\ (forall e, exec_test w i = Raises e ->
                    status_of d = Some (PStr "ERROR"))).
Proof.
  intros Hc Hs Hst T single batch. split; [reflexivity|]. split.
  - intros er Hcomp He. subst single.
    rewrite run_microservice_reaches_test by done. fold T.
    set (E := default (container_timeout setting) et).
    unfold returned, calls, test_and_collect; cbn [fst snd].
    set (s := state_at_test w language user_code config T).
    set (tst := clock w (test_start_tick language)).
    pose proof (execute_step_continue self E (clock w 0) (clock w 3) tst w s er Hc He)
      as Hx.
    destruct (collect_step_returns (clock w 0) (clock w 3) tst er w
                (add_calls s [ExecRun test_command_plain "/app"]))
      as (d & n & Hy & Hd & Herr).
    erewrite try_except_returned by (erewrite bind_normal by exact Hx; exact Hy).
    split; [|split].
    + cbn. by rewrite <- !app_assoc.
    + intros d0 Hr. eexists. split; [reflexivity|]. rewrite (Hd d0 Hr).
      unfold status_of. by rewrite !lookup_insert_ne.
    + intros Hr. eexists. split; [reflexivity|]. by apply Herr.
  - intros Hn Hcomp. subst batch. rewrite optimized_batch_unfold by done.
    rewrite try_finally_teardown. unfold returned, calls. cbn [fst snd]. fold T.
    change (ticks initial) with 0%nat. change (log initial) with (@nil Call).
    set (E := default (container_timeout setting) et).
    destruct (batch_loop_ticks self E (clock w 0) (batch_compile_time w language) w
                configs 0%nat (batch_state_at_tests w language user_code T))
      as (ds & l & n & Hloop & Hlen & _ & _ & Hall).
    destruct (batch_loop_continue self E (clock w 0) (batch_compile_time w language) w
                configs Hc 0%nat (batch_state_at_tests w language user_code T))
      as (ds' & s' & Hloop' & Hr & Hds).
    rewrite Hloop in Hloop'. injection Hloop' as <-. cbn in Hr. subst ds'.
    rewrite (optimized_batch_body_at_tests self language user_code configs T E w _
               Hst Hcomp Hloop).
    cbn [fst snd container log results add_calls batch_state_at_tests]. split.
    + intros cmd workdir Hin. rewrite !elem_of_app in Hin.
      destruct Hin as [[Hin | Hin] | Hin].
      * unfold batch_calls_before_tests in Hin.
        destruct (startswith "python" language); set_solver.
      * rewrite Forall_forall in Hall. specialize (Hall _ Hin). cbn in Hall.
        unfold test_command in Hall. rewrite Hc in Hall. by right.
      * destruct (stop_at_teardown w); set_solver.
    + exists ds. split; [done|]. split; [done|]. intros i d Hi.
      exact (Hds i d Hi).
Qed.

End Properties.

(** ** The validator and the response conversion *)

(** C7.  A submission whose [user_code] is empty or longer than 50,000
    characters is rejected by the validator that [Submit] runs first: the
    outcome is an [InvalidRequest], not a verdict, and the state is the one
    found, so no call was issued to the container runtime and no sandbox
    exists. *)
Theorem invalid_code_rejected_before_sandbox
    DOCKER_IMAGES setting denylist self language user_code config show_logs ct et w s :
  user_code = "" \/ 50000 < Z.of_nat (py_len user_code) ->
  exists reject,
    Submit DOCKER_IMAGES setting denylist self language user_code config show_logs
      ct et w s = (inl reject, s)
    /\ (reject = EmptyCode \/ reject = CodeTooLong).
Proof.
  intros H. unfold Submit, validate_submission.
  destruct (String.eqb user_code "") eqn:He; [eauto|].
  destruct H as [-> | H]; [done|].
  apply Z.ltb_lt in H. rewrite H. eauto.
Qed.

(** C8.  [_execute_judge_sync] always returns a response.  When the engine
    returned a verdict whose status (or ["ERROR"] when the key is missing)
    is a string naming a member of [JudgeStatus] whatever its case, the
    response carries that member; when it names none, or is no string, or
    the engine raised, the response has status [ERROR]. *)
Theorem response_status_coerced
    DOCKER_IMAGES setting JudgeStatus_members judge_micro request w s :
  let engine :=
    run_microservice DOCKER_IMAGES setting judge_micro (req_language request)
      (req_user_code request)
      (PDict (request_config request))
      (default false (req_show_logs request))
      (req_resource_limits request ≫= limit_compile_timeout)
      (req_resource_limits request ≫= limit_execution_timeout) w s in
  exists response,
    returned (_execute_judge_sync DOCKER_IMAGES setting JudgeStatus_members judge_micro
                request w s) = Some response
    /\ (forall d name,
          returned engine = Some d ->
          default (PStr "ERROR") (d !! "status") = PStr name ->
          upper name ∈ JudgeStatus_members ->
          status response = upper name)
    /\ (forall d,
          returned engine = Some d ->
          (forall name, default (PStr "ERROR") (d !! "status") = PStr name ->
                        upper name ∉ JudgeStatus_members) ->
          status response = "ERROR")
    /\ (returned engine = None -> status response = "ERROR").
Proof.
  intros engine. unfold _execute_judge_sync, returned, invoke. unfold_monad.
  fold engine. destruct engine as [[a|d| |e] s']; cbn.
  1,3,4: eexists; split; [reflexivity|]; repeat split; intros; done.
  unfold _convert_legacy_result_to_response, JudgeStatus.
  destruct (default (PStr "ERROR") (d !! "status")) as [| | | |name| |] eqn:Hv; cbn;
    try (eexists; split; [reflexivity|]; split; [intros ? ? [= <-]; by rewrite Hv|];
         split; [done|done]).
  destruct (bool_decide (upper name ∈ JudgeStatus_members)) eqn:Hm; cbn.
  - apply bool_decide_eq_true in Hm. eexists. split; [reflexivity|].
    split; [|split]; [| |done].
    + intros ? ? [= <-]. rewrite Hv. by intros [= <-].
    + intros ? [= <-] Hno. by destruct (Hno name Hv).
  - eexists. split; [reflexivity|]. split; [|split]; [| |done].
    + apply bool_decide_eq_false in Hm. intros ? ? [= <-]. rewrite Hv.
      by intros [= <-].
    + done.
Qed.

(** ** The statements on the sample worlds *)

Import Sample.

Lemma sample_staged : staged fine.
Proof. by repeat split. Qed.

Lemma sample_compiled T : Qgtb 1 (inject_Z T) = false -> compiled fine "c" T.
Proof.
  intros H. right. eexists. split; [reflexivity|]. split; [reflexivity|]. exact H.
Qed.

(** The engine, without [continue_on_timeout], answers [TIMEOUT] when the
    test exits with code 124 within the time limit. *)
Lemma execute_outcome_classified_witness :
  continue_on_timeout service = false
  /\ supported images "c" = true
  /\ staged test_exits_124
  /\ exists d,
       returned (run_microservice images settings service "c" c_code (PDict ∅) false
                   None None test_exits_124 initial) = Some d
       /\ status_of d = Some (PStr "TIMEOUT").
Proof.
  assert (Hc : continue_on_timeout service = false) by reflexivity.
  assert (Hs : supported images "c" = true) by (vm_compute; reflexivity).
  assert (Hst : staged test_exits_124) by (by repeat split).
  split; [exact Hc|]. split; [exact Hs|]. split; [exact Hst|].
  destruct (execute_outcome_classified images settings service "c" c_code (PDict ∅)
              false None None test_exits_124 Hc Hs Hst) as [H _].
  destruct (H {| exit_code := 124; output := [] |}) as (_ & H124 & _).
  - right. eexists. split; [reflexivity|]. split; reflexivity.
  - reflexivity.
  - apply H124; reflexivity.
Defined.

(** C1 as stated fails: the wall time of the test exceeds the limit, the
    [stop] issued on that account raises, and the status is
    [TIMEOUT_ERROR], not [TIMEOUT]. *)
Lemma execute_timeout_counterexample :
  continue_on_timeout service = false
  /\ exec_test (with_failing_stop slow_test) 0
     = Returns {| exit_code := 0; output := [] |}
  /\ Qgtb (test_wall (with_failing_stop slow_test) "c") (inject_Z 10) = true
  /\ returned_field
       (run_microservice images settings service "c" c_code (PDict ∅) false None None
          (with_failing_stop slow_test) initial) "status"
     = Some (PStr "TIMEOUT_ERROR")
  /\ returned_field
       (run_microservice images settings service "c" c_code (PDict ∅) false None None
          (with_failing_stop slow_test) initial) "status"
     <> Some (PStr "TIMEOUT").
Proof.
  split; [reflexivity|]. split; [reflexivity|]. split; [vm_compute; reflexivity|].
  split; [vm_compute; reflexivity|]. vm_compute. discriminate.
Qed.

(** A failed compilation answers [COMPILE_ERROR] with the decoded output. *)
Lemma compile_outcome_classified_witness :
  supported images "c" = true
  /\ staged broken_build
  /\ startswith "python" "c" = false
  /\ exec_compile broken_build = Returns {| exit_code := 1; output := [Byte.xff] |}
  /\ exists d,
       returned (run_microservice images settings service "c" c_code (PDict ∅) false
                   None None broken_build initial) = Some d
       /\ status_of d = Some (PStr "COMPILE_ERROR")
       /\ d !! "compile_output" = Some (PStr (decode_lenient Ignore [Byte.xff])).
Proof.
  assert (Hs : supported images "c" = true) by (vm_compute; reflexivity).
  assert (Hst : staged broken_build) by (by repeat split).
  assert (Hp : startswith "python" "c" = false) by reflexivity.
  assert (He : exec_compile broken_build
               = Returns {| exit_code := 1; output := [Byte.xff] |}) by reflexivity.
  split; [exact Hs|]. split; [exact Hst|]. split; [exact Hp|]. split; [exact He|].
  destruct (compile_outcome_classified images settings service "c" c_code (PDict ∅)
              false None None broken_build _ Hs Hst Hp He) as (_ & _ & _ & H).
  apply H; [reflexivity| |]; cbn; lia.
Defined.

(** C2 as stated fails: the compiler printed one byte that is not UTF-8;
    decoding with [replace] would give U+FFFD, and the [compile_output] of
    the verdict is the empty string. *)
Lemma compile_output_counterexample :
  exec_compile broken_build = Returns {| exit_code := 1; output := [Byte.xff] |}
  /\ returned_field
       (run_microservice images settings service "c" c_code (PDict ∅) false None None
          broken_build initial) "status"
     = Some (PStr "COMPILE_ERROR")
  /\ returned_field
       (run_microservice images settings service "c" c_code (PDict ∅) false None None
          broken_build initial) "compile_output"
     = Some (PStr "")
  /\ decode_utf8 Replace [Byte.xff] = Returns replacement_character
  /\ returned_field
       (run_microservice images settings service "c" c_code (PDict ∅) false None None
          broken_build initial) "compile_output"
     <> Some (PStr (decode_lenient Replace [Byte.xff])).
Proof.
  split; [reflexivity|]. split; [vm_compute; reflexivity|].
  split; [vm_compute; reflexivity|]. split; [reflexivity|]. vm_compute. discriminate.
Qed.

(** The teardown of an execution that went well: [stop], then [remove]. *)
Lemma teardown_always_attempted_and_harmless_witness :
  supported images "c" = true
  /\ containers_create fine = Returns tt
  /\ exists l,
       calls (run_microservice images settings service "c" c_code (PDict ∅) false
                None None fine initial)
       = (l ++ [ContainerStop 1; ContainerRemove])%list.
Proof.
  assert (Hs : supported images "c" = true) by (vm_compute; reflexivity).
  assert (Hc : containers_create fine = Returns tt) by reflexivity.
  split; [exact Hs|]. split; [exact Hc|].
  destruct (teardown_always_attempted_and_harmless images settings service "c" c_code
              (PDict ∅) [] false None None fine Hs Hc) as [[H _] _].
  exact H.
Defined.

(** C3 as stated fails: the container was created, the [stop] of the
    teardown raises, and [remove] is never issued. *)
Lemma teardown_counterexample :
  containers_create stuck_container = Returns tt
  /\ stop_at_teardown stuck_container = Raises (Exception "APIError" "500 Server Error")
  /\ last (calls (run_microservice images settings service "c" c_code (PDict ∅) false
                    None None stuck_container initial))
     = Some (ContainerStop 1)
  /\ ContainerRemove
     ∉ calls (run_microservice images settings service "c" c_code (PDict ∅) false
                None None stuck_container initial).
Proof.
  split; [reflexivity|]. split; [reflexivity|]. split; [vm_compute; reflexivity|].
  vm_compute. intros H.
  repeat (apply elem_of_cons in H as [H|H]; [discriminate|]).
  by apply elem_of_nil in H.
Qed.


(** A compilation that fails, two configurations: two verdicts, and the
    compile command is the only one executed. *)
Lemma compile_failure_fans_out_witness :
  supported images "c" = true
  /\ [PDict ∅; PDict ∅] <> []
  /\ startswith "python" "c" = false
  /\ staged broken_build
  /\ exists rs,
       returned (optimized_batch_test images settings service "c" c_code
                   [PDict ∅; PDict ∅] false None None broken_build initial) = Some rs
       /\ length rs = 2%nat
       /\ List.filter is_exec_run
            (calls (optimized_batch_test images settings service "c" c_code
                      [PDict ∅; PDict ∅] false None None broken_build initial))
          = [ExecRun (compile_command 30) "/app"].
Proof.
  assert (Hs : supported images "c" = true) by (vm_compute; reflexivity).
  assert (Hn : [PDict ∅; PDict ∅] <> []) by discriminate.
  assert (Hp : startswith "python" "c" = false) by reflexivity.
  assert (Hst : staged broken_build) by (by repeat split).
  split; [exact Hs|]. split; [exact Hn|]. split; [exact Hp|]. split; [exact Hst|].
  destruct (compile_failure_fans_out images settings service "c" c_code
              [PDict ∅; PDict ∅] false None None broken_build Hs Hn Hp Hst)
    as (rs & v & Hr & Hlen & _ & _ & Hex & _).
  - right. eexists. split; [reflexivity|]. right. cbn. lia.
  - exists rs. by repeat split.
Defined.

(** With [continue_on_timeout] an exit code 124 of the test classifies
    nothing: the runner's [SUCCESS] is the verdict of the single execution
    and of the one configuration of a batch. *)
Lemma continue_on_timeout_skips_timeout_handling_witness :
  continue_on_timeout patient_service = true
  /\ supported images "c" = true
  /\ staged test_exits_124
  /\ compiled test_exits_124 "c" 30
  /\ batch_compiled test_exits_124 "c" 30
  /\ exec_test test_exits_124 0 = Returns {| exit_code := 124; output := [] |}
  /\ (exists d,
        returned (run_microservice images settings patient_service "c" c_code (PDict ∅)
                    false None None test_exits_124 initial) = Some d
        /\ status_of d = Some (PStr "SUCCESS"))
  /\ exists rs,
       returned (optimized_batch_test images settings patient_service "c" c_code
                   [PDict ∅] false None None test_exits_124 initial) = Some rs
       /\ length rs = 1%nat
       /\ forall d, rs !! 0%nat = Some d -> status_of d = Some (PStr "SUCCESS").
Proof.
  assert (Hc : continue_on_timeout patient_service = true) by reflexivity.
  assert (Hs : supported images "c" = true) by (vm_compute; reflexivity).
  assert (Hst : staged test_exits_124) by (by repeat split).
  assert (Hcomp : compiled test_exits_124 "c" 30).
  { right. eexists. split; [reflexivity|]. split; reflexivity. }
  assert (Hbc : batch_compiled test_exits_124 "c" 30).
  { right. eexists. split; [reflexivity|]. split; reflexivity. }
  assert (He : exec_test test_exits_124 0 = Returns {| exit_code := 124; output := [] |})
    by reflexivity.
  split; [exact Hc|]. split; [exact Hs|]. split; [exact Hst|]. split; [exact Hcomp|].
  split; [exact Hbc|]. split; [exact He|].
  destruct (continue_on_timeout_skips_timeout_handling images settings patient_service
              "c" c_code (PDict ∅) [PDict ∅] false None None test_exits_124 Hc Hs Hst)
    as (_ & Hsingle & Hbatch).
  split.
  - destruct (Hsingle _ Hcomp He) as (_ & Hread & _).
    exact (Hread _ eq_refl).
  - destruct Hbatch as (_ & rs & Hr & Hlen & Hall); [discriminate|exact Hbc|].
    exists rs. split; [exact Hr|]. split; [exact Hlen|].
    intros d Hd. destruct (Hall 0%nat d Hd) as (Hread & _).
    exact (Hread eq_refl _ He _ eq_refl).
Defined.

(** C6 as stated fails: with [continue_on_timeout], the engine observes a
    test time of 102 seconds, above the limit of 10, and the verdict is the
    runner's [SUCCESS], not [TIMEOUT]: the wall time classifies nothing. *)
Lemma continue_on_timeout_counterexample :
  continue_on_timeout patient_service = true
  /\ returned_field
       (run_microservice images settings patient_service "c" c_code (PDict ∅) false
          None None slow_test initial) "test_execution_time"
     = Some (PFloat 102)
  /\ Qgtb 102 (inject_Z (container_timeout settings)) = true
  /\ returned_field
       (run_microservice images settings patient_service "c" c_code (PDict ∅) false
          None None slow_test initial) "status"
     = Some (PStr "SUCCESS")
  /\ returned_field
       (run_microservice images settings patient_service "c" c_code (PDict ∅) false
          None None slow_test initial) "status"
     <> Some (PStr "TIMEOUT").
Proof.
  split; [reflexivity|]. split; [vm_compute; reflexivity|].
  split; [vm_compute; reflexivity|]. split; [vm_compute; reflexivity|].
  vm_compute. discriminate.
Qed.

(** An empty code is rejected. *)
Lemma invalid_code_rejected_before_sandbox_witness :
  (EmptyString = "" \/ 50000 < Z.of_nat (py_len ""))
  /\ exists reject,
       Submit images settings [] service "c" "" (PDict ∅) false None None fine initial
       = (inl reject, initial)
       /\ (reject = EmptyCode \/ reject = CodeTooLong).
Proof.
  assert (H : EmptyString = "" \/ 50000 < Z.of_nat (py_len "")) by (by left).
  split; [exact H|].
  exact (invalid_code_rejected_before_sandbox images settings [] service "c" ""
           (PDict ∅) false None None fine initial H).
Defined.

(** The timings of a collected verdict. *)
Lemma collected_timings_set_by_engine_witness :
  supported images "c" = true
  /\ staged fine
  /\ exists d,
       returned (run_microservice images settings service "c" c_code (PDict ∅) false
                   None None fine initial) = Some d
       /\ d !! "total_execution_time" = Some (PFloat (clock fine 7 - clock fine 0))
       /\ d !! "test_execution_time" = Some (PFloat (clock fine 8 - clock fine 5)).
Proof.
  assert (Hs : supported images "c" = true) by (vm_compute; reflexivity).
  split; [exact Hs|]. split; [exact sample_staged|].
  destruct (collected_timings_set_by_engine images settings service "c" c_code
              (PDict ∅) false None None fine {| exit_code := 0; output := [] |}
              (dict_of [("status", PStr "SUCCESS"); ("match", PBool true);
                        ("compile_execution_time", PFloat 0)])
              Hs sample_staged)
    as (d & Hr & Htotal & Htest & _).
  - by apply sample_compiled.
  - reflexivity.
  - intros _. split; [reflexivity|]. cbn. lia.
  - reflexivity.
  - exists d. by repeat split.
Defined.

(** C9 as stated fails: the engine observed a test of 1 second (the clock
    read before and after the test command), and the [test_execution_time]
    of the verdict is 3 seconds: it runs from the start of the test to the
    end of the collect. *)
Lemma test_time_counterexample :
  continue_on_timeout service = false
  /\ (test_wall fine "c" == 1)%Q
  /\ read_result fine 0
     = Returns (PDict (dict_of [("status", PStr "SUCCESS"); ("match", PBool true);
                                ("compile_execution_time", PFloat 0)]))
  /\ returned_field
       (run_microservice images settings service "c" c_code (PDict ∅) false None None
          fine initial) "test_execution_time"
     = Some (PFloat 3)
  /\ ~ (3 == test_wall fine "c")%Q.
Proof.
  split; [reflexivity|]. split; [reflexivity|]. split; [reflexivity|].
  split; [vm_compute; reflexivity|].
  vm_compute. discriminate.
Qed.

(** No configuration, no verdict and no container. *)
Lemma optimized_batch_test_empty_witness :
  supported images "c" = true
  /\ optimized_batch_test images settings service "c" c_code [] true None None fine
       initial = (Returned [], initial).
Proof.
  assert (Hs : supported images "c" = true) by (vm_compute; reflexivity).
  split; [exact Hs|].
  exact (optimized_batch_test_empty images settings service "c" c_code true None None
           fine initial Hs).
Defined.

(** * Further properties of the engine *)

(** ** Reading the result out of the archive *)

(** The test that the loop of [_extract_result_from_tar] makes on an entry. *)
Definition is_result_file (member : TarMember) : bool :=
  tm_isfile member && endswith "result.json" (tm_name member).

(** A text of ASCII characters only. *)
Definition is_ascii (s : string) : Prop :=
  Forall (fun b => (Byte.to_N b < 128)%N) (list_byte_of_string s).

Lemma list_byte_of_string_cons a s :
  list_byte_of_string (String a s) = byte_of_ascii a :: list_byte_of_string s.
Proof. reflexivity. Qed.

Lemma first_result_skips pre members :
  Forall (fun m => is_result_file m = false) pre ->
  first_result (pre ++ members) = first_result members.
Proof.
  induction 1 as [|m pre Hm _ IH]; [done|].
  cbn. unfold is_result_file in Hm. by rewrite Hm.
Qed.

(** Strict decoding raises nothing but [UnicodeDecodeError]. *)
Lemma decode_from_strict_raises keep pending l e :
  decode_from Strict keep pending l = Raises e -> e = UnicodeDecodeError.
Proof.
  revert keep pending. induction l as [|b r IH]; intros keep pending; [done|].
  cbn [decode_from]. destruct pending as [|k].
  - destruct (utf8_head _) as [[] n]; [|by intros [= <-]].
    destruct (decode_from Strict true (Nat.pred n) r) eqn:Hd; [done|].
    intros [= <-]. by eapply IH.
  - destruct (decode_from Strict keep k r) eqn:Hd; [done|].
    intros [= <-]. by eapply IH.
Qed.

(** Decoding that ignores or replaces what is malformed always returns. *)
Lemma decode_from_lenient e keep pending l :
  e <> Strict -> exists s, decode_from e keep pending l = Returns s.
Proof.
  intros He. revert keep pending.
  induction l as [|b r IH]; intros keep pending; [by eexists|].
  cbn [decode_from]. destruct pending as [|k].
  - destruct (utf8_head _) as [[] n].
    + destruct (IH true (Nat.pred n)) as (s & ->). by eexists.
    + destruct e; [done| |].
      * apply IH.
      * destruct (IH false (Nat.pred n)) as (s & ->). by eexists.
  - destruct (IH keep k) as (s & ->). by eexists.
Qed.

(** Where strict decoding returns, the text holds the very bytes read and
    every error handler gives the same text. *)
Lemma decode_from_strict pending l s :
  decode_from Strict true pending l = Returns s ->
  list_byte_of_string s = l /\ forall e, decode_from e true pending l = Returns s.
Proof.
  revert pending s. induction l as [|b r IH]; intros pending s.
  - cbn. by intros [= <-].
  - cbn [decode_from]. destruct pending as [|k].
    + destruct (utf8_head _) as [[] n]; [|done].
      destruct (decode_from Strict true (Nat.pred n) r) as [s'|] eqn:Hd; [|done].
      intros [= <-]. destruct (IH _ _ Hd) as [Hb He]. split.
      * by rewrite list_byte_of_string_cons, byte_of_ascii_of_byte, Hb.
      * intros e. by rewrite He.
    + destruct (decode_from Strict true k r) as [s'|] eqn:Hd; [|done].
      intros [= <-]. destruct (IH _ _ Hd) as [Hb He]. split.
      * by rewrite list_byte_of_string_cons, byte_of_ascii_of_byte, Hb.
      * intros e. by rewrite He.
Qed.

Lemma decode_ascii s :
  is_ascii s -> decode_utf8 Strict (encode_utf8 s) = Returns s.
Proof.
  unfold is_ascii, decode_utf8, encode_utf8.
  induction s as [|a s IH]; [done|].
  rewrite list_byte_of_string_cons. intros H. apply Forall_cons in H as [Ha Hs].
  cbn [decode_from List.map utf8_head].
  apply N.ltb_lt in Ha. rewrite Ha. cbn [Nat.pred].
  rewrite (IH Hs). by rewrite ascii_of_byte_of_ascii.
Qed.

(** X1.  [_extract_result_from_tar] gives the content of the first entry
    of the archive that is a regular file whose name ends with
    [result.json]: the entries before it that are no such file (a
    directory, a file of another name) are passed over, and the entries
    after it are not looked at. *)
Theorem extract_result_takes_first_match pre member rest :
  Forall (fun m => is_result_file m = false) pre ->
  is_result_file member = true ->
  _extract_result_from_tar (Tar (pre ++ member :: rest))
  = decode_utf8 Strict (tm_data member).
Proof.
  intros Hpre Hm. cbn [_extract_result_from_tar].
  rewrite first_result_skips by done. cbn. unfold is_result_file in Hm.
  by rewrite Hm.
Qed.

(** X2.  [_extract_result_from_tar] raises [Exception("Unable to find
    result file")] exactly on the archives that hold no regular file whose
    name ends with [result.json] (the empty archive among them). *)
Theorem extract_result_missing members :
  _extract_result_from_tar (Tar members)
  = Raises (Exception "Exception" "Unable to find result file")
  <-> Forall (fun m => is_result_file m = false) members.
Proof.
  cbn [_extract_result_from_tar]. induction members as [|m members IH].
  - split; [constructor | done].
  - cbn [first_result]. fold (is_result_file m).
    destruct (is_result_file m) eqn:Hm.
    + split.
      * intros H. apply decode_from_strict_raises in H. done.
      * intros H. apply Forall_cons in H as [H _]. congruence.
    + rewrite IH. split; [by constructor | by intros [_ H]%Forall_cons].
Qed.

(** X3.  Where the strict decoding used for [result.json] returns a text,
    that text holds the very bytes that were read, and the decodings with
    [errors='ignore'] (used for [compile_output]) and [errors='replace']
    return the same text: the error handlers differ on malformed input
    only. *)
Theorem strict_decoding_is_the_identity b s :
  decode_utf8 Strict b = Returns s ->
  encode_utf8 s = b
  /\ decode_lenient Ignore b = s
  /\ decode_lenient Replace b = s.
Proof.
  intros H. apply decode_from_strict in H as [Hb He].
  unfold decode_lenient, decode_utf8. by rewrite !He.
Qed.

(** X4.  Whatever bytes the compiler printed, decoding them with
    [errors='ignore'] returns a text and raises nothing, and so does
    [errors='replace']. *)
Theorem lenient_decoding_never_raises b :
  (exists s, decode_utf8 Ignore b = Returns s)
  /\ (exists s, decode_utf8 Replace b = Returns s).
Proof. split; by apply decode_from_lenient. Qed.

(** X5.  An ASCII text written as a regular file whose name ends with
    [result.json] is read back from the archive unchanged. *)
Theorem ascii_result_round_trip name mode mtime content :
  endswith "result.json" name = true ->
  is_ascii content ->
  _extract_result_from_tar
    (Tar [ {| tm_name := name; tm_isfile := true; tm_mode := mode; tm_mtime := mtime;
              tm_data := encode_utf8 content |} ])
  = Returns content.
Proof. intros Hn Ha. cbn. rewrite Hn. by apply decode_ascii. Qed.

(** ** Failures before the test *)

(** Reduce an invocation of [run_microservice] to the run of its steps. *)
Ltac enter_engine :=
  rewrite run_microservice_unfold by done;
  rewrite try_finally_teardown;
  unfold returned, calls, status_of, run_microservice_body, error_verdict; cbn [fst snd];
  unfold_engine.

Ltac enter_batch :=
  rewrite optimized_batch_unfold by done;
  rewrite try_finally_teardown;
  unfold returned, calls; cbn [fst snd];
  change (ticks initial) with 0%nat; change (log initial) with (@nil Call);
  unfold optimized_batch_body, optimized_batch_steps, create_container,
    _create_user_code_tar;
  unfold_monad.

(** The exception raised for a language that has no image. *)
Definition unsupported_language (language : string) : exn :=
  Exception "ValueError" ("Unsupported language: " +:+ language).

(** One of the steps before the compilation raises [e]: the creation of the
    container, its start, or the upload. *)
Definition staging_fails (w : World) (e : exn) : Prop :=
  containers_create w = Raises e
  \/ (containers_create w = Returns tt /\ container_start w = Raises e)
  \/ (containers_create w = Returns tt /\ container_start w = Returns tt
      /\ put_archive w 0 = Raises e).

Section MoreProperties.

  Variable DOCKER_IMAGES : gmap string string.
  Variable setting : Settings.

(** X6.  For a language that has no image, both entry points raise
    [ValueError("Unsupported language: ...")] and leave the state as they
    found it: no call is issued and the clock is not read.  In
    [optimized_batch_test] the language is checked before the list of
    configurations, so the empty list raises as well. *)
Theorem unsupported_language_raises
    self language user_code config configs show_logs ct et w s :
  supported DOCKER_IMAGES language = false ->
  run_microservice DOCKER_IMAGES setting self language user_code config show_logs ct et
    w s = (Raised (unsupported_language language), s)
  /\ optimized_batch_test DOCKER_IMAGES setting self language user_code configs
       show_logs ct et w s = (Raised (unsupported_language language), s)
  /\ optimized_batch_test DOCKER_IMAGES setting self language user_code []
       show_logs ct et w s = (Raised (unsupported_language language), s).
Proof.
  intros Hs. unfold run_microservice, optimized_batch_test. by rewrite Hs.
Qed.

(** X7.  [_execute_judge_sync] turns the [ValueError] of a language that
    has no image into a response: status [ERROR], the text of the exception
    in [message] and [error_details], no metrics; no call was issued to the
    container runtime. *)
Theorem execute_judge_sync_unsupported_language
    JudgeStatus_members judge_micro request w s :
  supported DOCKER_IMAGES (req_language request) = false ->
  let r := _execute_judge_sync DOCKER_IMAGES setting JudgeStatus_members judge_micro
             request w s in
  exists response,
    r = (Returned response, s)
    /\ status response = "ERROR"
    /\ message response
       = PStr ("Error occurred during judge evaluation: Unsupported language: "
               +:+ req_language request)
    /\ error_details response = PStr ("Unsupported language: " +:+ req_language request)
    /\ metrics response = None.
Proof.
  intros Hs r. subst r. unfold _execute_judge_sync, run_microservice.
  rewrite Hs. unfold_monad. cbn. eexists. split; [reflexivity|]. cbn.
  repeat split.
Qed.

(** X8.  When the creation of the container, its start or the upload
    raises, [run_microservice] returns an [ERROR] verdict whose message is
    the text of the exception, without executing any command in the
    container.  A container that could not be created is neither stopped
    nor removed: the creation is then the only call issued; a container
    that was created is stopped. *)
Theorem staging_failure_verdict self language user_code config show_logs ct et w e :
  supported DOCKER_IMAGES language = true ->
  staging_fails w e ->
  let r := run_microservice DOCKER_IMAGES setting self language user_code config
             show_logs ct et w initial in
  (exists d, returned r = Some d
             /\ status_of d = Some (PStr "ERROR")
             /\ d !! "message" = Some (PStr (exn_str e)))
  /\ List.filter is_exec_run (calls r) = []
  /\ (containers_create w = Raises e ->
      calls r = [create_call DOCKER_IMAGES setting w language])
  /\ (containers_create w = Returns tt -> ContainerStop 1 ∈ calls r).
Proof.
  intros Hs Hf r. subst r.
  destruct Hf as [H1 | [(H1 & H2) | (H1 & H2 & H3)]]; enter_engine; run.
  - split; [eexists; split; [reflexivity|]; split; reflexivity|].
    split; [done|]. split; [done|]. done.
  - split; [eexists; split; [reflexivity|]; split; reflexivity|].
    destruct (stop_at_teardown w); cbn; (split; [done|]); (split; [done|]);
      intros _; set_solver.
  - split; [eexists; split; [reflexivity|]; split; reflexivity|].
    destruct (stop_at_teardown w); cbn; (split; [done|]); (split; [done|]);
      intros _; set_solver.
Qed.

End MoreProperties.

(** ** Every invocation ends with a verdict *)

(** The statuses the engine itself gives to a verdict. *)
Definition engine_statuses : list string :=
  ["ERROR"; "COMPILE_ERROR"; "COMPILE_TIMEOUT"; "TIMEOUT"; "TIMEOUT_ERROR"].

(** A verdict made by the engine. *)
Definition engine_verdict (d : dict) : Prop :=
  exists v, status_of d = Some (PStr v) /\ In v engine_statuses.

(** A verdict of [run_microservice]: made by the engine, or read from
    [result.json], whose status it keeps. *)
Definition verdict_of_run (w : World) (d : dict) : Prop :=
  engine_verdict d
  \/ exists d0, read_result w 0 = Returns (PDict d0) /\ status_of d = status_of d0.

(** A block that is left by [return] only with a value that satisfies [P],
    and never by [continue]. *)
Definition passes {R A} (P : World -> R -> Prop) (m : M R A) : Prop :=
  forall w s,
    match (m w s).1 with
    | Returned v => P w v
    | Continued => False
    | _ => True
    end.

(** A block that, moreover, does not reach its end. *)
Definition concludes {R A} (P : World -> R -> Prop) (m : M R A) : Prop :=
  forall w s,
    match (m w s).1 with
    | Returned v => P w v
    | Raised _ => True
    | _ => False
    end.

Section Passes.
  Context {R : Type} (P : World -> R -> Prop).

Lemma passes_ret A (a : A) : passes P (mret a : M R A).
Proof. done. Qed.

Lemma passes_raise A e : passes P (raise e : M R A).
Proof. done. Qed.

Lemma passes_return A v : (forall w, P w v) -> passes P (return_ v : M R A).
Proof. intros H w s. apply H. Qed.

Lemma passes_time : passes P (time_time : M R Q).
Proof. done. Qed.

Lemma passes_call A c (a : World -> answer A) : passes P (call c a : M R A).
Proof. intros w s. unfold call. by destruct (a w). Qed.

Lemma passes_set_container b : passes P (set_container b : M R unit).
Proof. done. Qed.

Lemma passes_lift A (a : answer A) : passes P (lift a : M R A).
Proof. by destruct a. Qed.

Lemma passes_ask A (f : World -> A) : passes P (ask f : M R A).
Proof. done. Qed.

Lemma passes_loads c : passes P (loads c : M R pyval).
Proof. intros w s. unfold loads. by destruct (json_loads w c). Qed.

Lemma passes_bind A B (m : M R A) (k : A -> M R B) :
  passes P m -> (forall a, passes P (k a)) -> passes P (m ≫= k).
Proof.
  intros Hm Hk w s. unfold mbind, M_bind, bind. specialize (Hm w s).
  destruct (m w s) as [[a|v| |e] s']; cbn in *; try done. apply Hk.
Qed.

Lemma passes_try_except A (m : M R A) h :
  passes P m -> (forall e, passes P (h e)) -> passes P (try_except m h).
Proof.
  intros Hm Hh w s. unfold try_except. specialize (Hm w s).
  destruct (m w s) as [[a|v| |e] s']; cbn in *; try done. apply Hh.
Qed.

Lemma concludes_bind A B (m : M R A) (k : A -> M R B) :
  passes P m -> (forall a, concludes P (k a)) -> concludes P (m ≫= k).
Proof.
  intros Hm Hk w s. unfold mbind, M_bind, bind. specialize (Hm w s).
  destruct (m w s) as [[a|v| |e] s']; cbn in *; try done. apply Hk.
Qed.

(** A [try] whose body does not reach its end and whose handler returns
    is left by [return]. *)
Lemma try_except_concludes (m : M R unit) h w s :
  concludes P m ->
  (forall e s', exists v s'', h e w s' = (Returned v, s'') /\ P w v) ->
  exists v, (try_except m h w s).1 = Returned v /\ P w v.
Proof.
  intros Hm Hh. unfold try_except. specialize (Hm w s).
  destruct (m w s) as [[a|v| |e] s']; cbn in *; try done; [eauto|].
  destruct (Hh e s') as (v & s'' & -> & Hv). eauto.
Qed.
End Passes.

Ltac engine_verdict_tac :=
  intros; left; eexists; split; [reflexivity | cbn; tauto].

Ltac passes_step :=
  first
    [ apply passes_bind; [|intros ?]
    | apply passes_try_except; [|intros ?]
    | apply passes_ret | apply passes_raise | apply passes_time | apply passes_call
    | apply passes_set_container | apply passes_lift | apply passes_ask
    | apply passes_loads
    | apply passes_return; engine_verdict_tac
    | match goal with
      | |- passes _ (if ?b then _ else _) => destruct b
      | |- passes _ (match ?x with _ => _ end) => destruct x
      end ].

Ltac passes_tac := repeat passes_step.

Lemma collect_step_concludes st cst tst er :
  concludes verdict_of_run (collect_step st cst tst er).
Proof.
  intros w s.
  destruct (collect_step_returns st cst tst er w s) as (d & n & -> & Hd & Herr).
  cbn. destruct (read_result w 0) as [v|e] eqn:Hr.
  - destruct v as [| | | | | |d0];
      try (left; exists "ERROR"; split; [by apply Herr | cbn; tauto]).
    right. exists d0. split; [done|]. rewrite (Hd d0 eq_refl).
    unfold status_of. by rewrite !lookup_insert_ne.
  - left. exists "ERROR". split; [by apply Herr | cbn; tauto].
Qed.

Section AlwaysReturns.

  Variable DOCKER_IMAGES : gmap string string.
  Variable setting : Settings.

Lemma run_microservice_steps_conclude self language user_code config T E st :
  concludes verdict_of_run
    (run_microservice_steps DOCKER_IMAGES setting self language user_code config T E st).
Proof.
  unfold run_microservice_steps.
  apply concludes_bind.
  { unfold stage_step, create_container, _create_file_tar. passes_tac. }
  intros _. apply concludes_bind.
  { unfold compile_step. passes_tac. }
  intros cst. apply concludes_bind; [apply passes_time|].
  intros tst. apply concludes_bind.
  { unfold execute_step. passes_tac. }
  intros er. apply collect_step_concludes.
Qed.

(** Whatever the outside world answers, an invocation for a language that
    has an image is left by [return]. *)
Lemma run_microservice_verdict self language user_code config show_logs ct et w s :
  supported DOCKER_IMAGES language = true ->
  exists d s',
    run_microservice DOCKER_IMAGES setting self language user_code config show_logs
      ct et w s = (Returned d, s')
    /\ verdict_of_run w d.
Proof.
  intros Hs. rewrite run_microservice_unfold by done.
  rewrite try_finally_teardown. unfold run_microservice_body.
  match goal with
  | |- context [try_except ?m ?h ?w ?s] =>
    destruct (try_except_concludes verdict_of_run m h w s) as (d & Hd & Hv)
  end.
  - apply run_microservice_steps_conclude.
  - intros e s'. eexists _, _. split; [reflexivity|]. engine_verdict_tac.
  - rewrite Hd. eauto.
Qed.

(** X9.  For a language that has an image, [run_microservice] returns a
    verdict whatever the outside world answers, in whatever state it is
    called: it never raises and never ends without a value.  The verdict is
    one the engine made, with one of its five statuses, or the one read from
    [result.json], whose status is kept. *)
Theorem run_microservice_always_returns
    self language user_code config show_logs ct et w s :
  supported DOCKER_IMAGES language = true ->
  exists d,
    returned (run_microservice DOCKER_IMAGES setting self language user_code config
                show_logs ct et w s) = Some d
    /\ verdict_of_run w d.
Proof.
  intros Hs.
  destruct (run_microservice_verdict self language user_code config show_logs ct et w s
              Hs) as (d & s' & -> & Hd).
  by exists d.
Qed.

End AlwaysReturns.

(** ** Commands executed in the container *)

(** From the start of the test on, one command is executed: the test. *)
Lemma test_and_collect_commands self E st cst tst w s :
  List.filter is_exec_run (log (test_and_collect self E st cst tst w s).2)
  = (List.filter is_exec_run (log s) ++ [ExecRun (test_command self E) "/app"])%list.
Proof.
  destruct (execute_step_calls self E st cst tst w s) as (l & Hl & Hstop).
  assert (Hf : List.filter is_exec_run (log (execute_step self E st cst tst w s).2)
               = (List.filter is_exec_run (log s)
                  ++ [ExecRun (test_command self E) "/app"])%list).
  { rewrite Hl, List.filter_app. by destruct Hstop as [-> | ->]. }
  clear Hl Hstop.
  unfold test_and_collect, try_except, mbind, M_bind, bind.
  destruct (execute_step self E st cst tst w s) as [[er|v| |e] s']; cbn in *; try done.
  destruct (collect_step_returns st cst tst er w s') as (d & n & -> & _).
  cbn. rewrite List.filter_app, Hf. cbn. by rewrite app_nil_r.
Qed.

Section Commands.

  Variable DOCKER_IMAGES : gmap string string.
  Variable setting : Settings.

(** X10.  For a Python language nothing is compiled: whatever the outside
    world answers, the only command [run_microservice] may execute in the
    container is the test, and it executes it once the container is
    created, started and loaded. *)
Theorem python_runs_no_compile self language user_code config show_logs ct et w :
  supported DOCKER_IMAGES language = true ->
  startswith "python" language = true ->
  let E := default (container_timeout setting) et in
  let r := run_microservice DOCKER_IMAGES setting self language user_code config
             show_logs ct et w initial in
  (List.filter is_exec_run (calls r) = []
   \/ List.filter is_exec_run (calls r) = [ExecRun (test_command self E) "/app"])
  /\ (staged w ->
      List.filter is_exec_run (calls r) = [ExecRun (test_command self E) "/app"]).
Proof.
  intros Hs Hp E r.
  assert (Hst : staged w ->
                List.filter is_exec_run (calls r) = [ExecRun (test_command self E) "/app"]).
  { intros Hst. subst r.
    rewrite (run_microservice_reaches_test DOCKER_IMAGES setting) by (done || by left).
    unfold calls. cbn [snd add_calls log]. rewrite List.filter_app.
    rewrite test_and_collect_commands. fold E.
    unfold state_at_test, calls_before_test. cbn [log]. rewrite Hp.
    destruct (stop_at_teardown w); cbn; done. }
  split; [|done].
  destruct (containers_create w) as [[]|e1] eqn:H1.
  2: { left. subst r. enter_engine. run. done. }
  destruct (container_start w) as [[]|e2] eqn:H2.
  2: { left. subst r. enter_engine. run. by destruct (stop_at_teardown w). }
  destruct (put_archive w 0) as [[]|e3] eqn:H3.
  2: { left. subst r. enter_engine. run. by destruct (stop_at_teardown w). }
  right. by apply Hst.
Qed.

End Commands.

(** ** More on the batch *)

Arguments batch_error_verdicts : simpl never.
Arguments batch_iteration : simpl never.
Arguments batch_compile : simpl never.
Arguments comprehension : simpl never.

(** An [ERROR] verdict of the batch for the configuration of rank [i],
    carrying the text of the exception [e]. *)
Definition error_at (e : exn) (i : nat) (d : dict) : Prop :=
  tagged "ERROR" i d /\ d !! "message" = Some (PStr (exn_str e)).

Lemma batch_error_verdicts_message configs st e w s :
  exists rs s',
    batch_error_verdicts configs st e w s = (Returned rs, s')
    /\ length rs = length configs
    /\ (forall j d, rs !! j = Some d -> error_at e j d)
    /\ log s' = log s /\ container s' = container s.
Proof.
  unfold batch_error_verdicts.
  edestruct (comprehension_post (R := list dict)
               (fun i : nat =>
                  t1 ← time_time ;
                  mret (dict_of [
                    ("status", PStr "ERROR");
                    ("message", PStr (exn_str e));
                    ("execution_time", PFloat (t1 - st));
                    ("config_index", PInt (Z.of_nat i)) ]))
               (error_at e) w) as (ds & s' & Hds & Hlen & HP & Hl & Hc & _).
  { intros i s0. eexists _, _. split; [reflexivity|]. repeat split; reflexivity. }
  exists ds, s'. erewrite bind_normal by exact Hds.
  split; [reflexivity|]. split; [done|]. split; [done|]. by split.
Qed.

(** The verdict recorded by an iteration carries the compile time of the
    batch. *)
Ltac compile_time_leaf :=
  eexists _, _; split; [first [left; reflexivity | right; reflexivity]|];
  split; [reflexivity|];
  first [reflexivity | by rewrite lookup_insert_ne, lookup_insert_eq].

Lemma batch_iteration_compile_time self E st cet i config w s :
  exists d s',
    ((batch_iteration self E st cet i config w s).1 = Normal tt
     \/ (batch_iteration self E st cet i config w s).1 = Continued)
    /\ (batch_iteration self E st cet i config w s).2 = s'
    /\ (results s' = (results s ++ [d])%list /\ d !! "compile_execution_time" = Some cet).
Proof.
  unfold batch_iteration, _create_config_tar. unfold_monad. cbn.
  destruct (put_archive w (S i)) as [[]|e0]; cbn.
  2: { do 2 eexists. split; [by left|]. split; [reflexivity|]. by split. }
  destruct (continue_on_timeout self); cbn.
  - destruct (exec_test w i) as [er|e1]; cbn.
    2: { do 2 eexists. split; [by left|]. split; [reflexivity|]. by split. }
    destruct (get_archive w i) as [a|e2]; cbn.
    2: { do 2 eexists. split; [by left|]. split; [reflexivity|]. by split. }
    destruct (_extract_result_from_tar a) as [content|e3]; cbn.
    2: { do 2 eexists. split; [by left|]. split; [reflexivity|]. by split. }
    unfold loads, lift. unfold_monad.
    destruct (json_loads w content) as [v|e4]; cbn.
    2: { do 2 eexists. split; [by left|]. split; [reflexivity|]. by split. }
    destruct v; cbn;
      (do 2 eexists; split; [by left|]; split; [reflexivity|]; split; [reflexivity|];
       first [reflexivity | by rewrite lookup_insert_ne, lookup_insert_eq]).
  - destruct (exec_test w i) as [er|e1]; cbn.
    2: { do 2 eexists. split; [by left|]. split; [reflexivity|]. by split. }
    destruct (Qgtb _ _); cbn.
    { do 2 eexists. split; [by right|]. split; [reflexivity|]. by split. }
    destruct (exit_code er =? 124); cbn.
    { do 2 eexists. split; [by right|]. split; [reflexivity|]. by split. }
    destruct (get_archive w i) as [a|e2]; cbn.
    2: { do 2 eexists. split; [by left|]. split; [reflexivity|]. by split. }
    destruct (_extract_result_from_tar a) as [content|e3]; cbn.
    2: { do 2 eexists. split; [by left|]. split; [reflexivity|]. by split. }
    unfold loads, lift. unfold_monad.
    destruct (json_loads w content) as [v|e4]; cbn.
    2: { do 2 eexists. split; [by left|]. split; [reflexivity|]. by split. }
    destruct v; cbn;
      (do 2 eexists; split; [by left|]; split; [reflexivity|]; split; [reflexivity|];
       first [reflexivity | by rewrite lookup_insert_ne, lookup_insert_eq]).
Qed.

Lemma batch_loop_compile_time self E st cet w configs :
  forall start s, exists ds s',
    for_enumerate start configs (batch_iteration self E st cet) w s = (Normal tt, s')
    /\ results s' = (results s ++ ds)%list
    /\ Forall (fun d => d !! "compile_execution_time" = Some cet) ds.
Proof.
  induction configs as [|config configs IH]; intros start s.
  - exists [], s. cbn. by rewrite app_nil_r.
  - destruct (batch_iteration_compile_time self E st cet start config w s)
      as (d & s1 & Ho & Hs & Hr & Hd).
    destruct (IH (S start) s1) as (ds & s2 & Hloop & Hr2 & Hds).
    exists (d :: ds), s2. cbn [for_enumerate].
    destruct (batch_iteration self E st cet start config w s) as [o s1'].
    cbn in Ho, Hs. subst s1'.
    split; [by destruct Ho as [-> | ->]|].
    split; [by rewrite Hr2, Hr, <- app_assoc|]. by constructor.
Qed.

Section MoreBatch.

  Variable DOCKER_IMAGES : gmap string string.
  Variable setting : Settings.

(** X11.  When the creation of the container, its start or the upload of
    the code raises, [optimized_batch_test] returns one [ERROR] verdict per
    configuration, each tagged with its rank and carrying the text of the
    exception, without executing any command; a container that could not be
    created is neither stopped nor removed. *)
Theorem batch_staging_failure_verdicts
    self language user_code configs show_progress ct et w e :
  supported DOCKER_IMAGES language = true ->
  configs <> [] ->
  staging_fails w e ->
  let r := optimized_batch_test DOCKER_IMAGES setting self language user_code configs
             show_progress ct et w initial in
  exists rs,
    returned r = Some rs
    /\ length rs = length configs
    /\ (forall i d, rs !! i = Some d -> error_at e i d)
    /\ List.filter is_exec_run (calls r) = []
    /\ (containers_create w = Raises e ->
        calls r = [create_call DOCKER_IMAGES setting w language]).
Proof.
  intros Hs Hn Hf r. subst r.
  destruct Hf as [H1 | [(H1 & H2) | (H1 & H2 & H3)]]; enter_batch; run;
    match goal with
    | |- context [batch_error_verdicts ?c ?st ?e ?w ?s] =>
      destruct (batch_error_verdicts_message c st e w s)
        as (rs & s' & -> & Hlen & Ht & Hl & Hc)
    end;
    cbn in Hl, Hc |- *; rewrite Hc; cbn; exists rs;
    (split; [done|]); (split; [done|]); (split; [done|]).
  - rewrite Hl. by split.
  - destruct (stop_at_teardown w); cbn; rewrite List.filter_app, Hl; cbn;
      (split; [done|]); intros; congruence.
  - destruct (stop_at_teardown w); cbn; rewrite List.filter_app, Hl; cbn;
      (split; [done|]); intros; congruence.
Qed.

(** X12.  In a batch whose first steps and compilation went through,
    every verdict returned carries under [compile_execution_time] the one
    value measured for the batch: the wall time the engine observed around
    the single compilation, or 0 for a Python language; it replaces
    whatever the runner wrote under that key. *)
Theorem batch_shares_compile_time
    self language user_code configs show_progress ct et w :
  supported DOCKER_IMAGES language = true ->
  configs <> [] ->
  staged w ->
  batch_compiled w language (default (default 30 (compile_timeout setting)) ct) ->
  let r := optimized_batch_test DOCKER_IMAGES setting self language user_code configs
             show_progress ct et w initial in
  exists rs,
    returned r = Some rs
    /\ length rs = length configs
    /\ Forall (fun d => d !! "compile_execution_time"
                        = Some (batch_compile_time w language)) rs.
Proof.
  intros Hs Hn (H1 & H2 & H3) Hc r. subst r. enter_batch.
  unfold batch_compile_time.
  destruct Hc as [Hp | (cr & Hcr & H0 & Hw)].
  - unfold batch_compile. rewrite Hp. unfold_monad. run.
    match goal with
    | |- context [for_enumerate 0 ?c (batch_iteration ?self ?E ?st ?cet) ?w ?s] =>
      destruct (batch_loop_compile_time self E st cet w c 0%nat s)
        as (ds & s' & Hloop & Hr & Hds);
      pose proof (batch_loop_post self E st cet w c 0%nat s)
        as (ds' & l' & n' & Hloop' & Hlen & _)
    end.
    rewrite Hloop in Hloop'. injection Hloop' as ->. cbn in Hr.
    rewrite Hloop. cbn. rewrite Hr. exists ds. split; [done|]. split; [|done].
    cbn in Hr. rewrite Hr in Hlen. by rewrite <- Hlen.
  - unfold batch_compile_wall in *. unfold batch_compile.
    destruct (startswith "python" language) eqn:Hp; unfold_monad; run;
    match goal with
    | |- context [for_enumerate 0 ?c (batch_iteration ?self ?E ?st ?cet) ?w ?s] =>
      destruct (batch_loop_compile_time self E st cet w c 0%nat s)
        as (ds & s' & Hloop & Hr & Hds);
      pose proof (batch_loop_post self E st cet w c 0%nat s)
        as (ds' & l' & n' & Hloop' & Hlen & _)
    end;
    rewrite Hloop in Hloop'; injection Hloop' as ->; cbn in Hr;
    rewrite Hloop; cbn; rewrite Hr; exists ds; (split; [done|]); (split; [|done]);
    cbn in Hr; rewrite Hr in Hlen; by rewrite <- Hlen.
Qed.

End MoreBatch.

(** ** Properties of the callers *)

Lemma filter_all {A} (f : A -> bool) (l : list A) :
  length (List.filter f l) = length l <-> Forall (fun x => f x = true) l.
Proof.
  induction l as [|x l IH]; [by split|].
  cbn. destruct (f x) eqn:Hx; cbn.
  - rewrite Forall_cons. split.
    + intros [= H]. split; [done|]. by apply IH.
    + intros [_ H]. f_equal. by apply IH.
  - split.
    + intros H. pose proof (filter_length_le f l). lia.
    + intros [H _]%Forall_cons. congruence.
Qed.

Section CallerProperties.

  Variable DOCKER_IMAGES : gmap string string.
  Variable setting : Settings.

(** X13.  [test_with_version] hands the problem to the engine under
    [solve_params], [expected] and [function_type] (always [int]) whatever
    the standard asked for.  For a Python language the standard is ignored:
    the invocation is the one made without a standard.  For any other
    language the configuration is the one [create_config] of the basic
    service builds with its default compiler flags. *)
Theorem test_with_version_configuration
    self language user_code solve_params expected standard show_logs ct et :
  let config := test_with_version_config language solve_params expected standard in
  (config !! "solve_params" = Some solve_params
   /\ config !! "expected" = Some expected
   /\ config !! "function_type" = Some (PStr "int"))
  /\ (startswith "python" language = true ->
      test_with_version DOCKER_IMAGES setting self language user_code solve_params
        expected standard show_logs ct et
      = test_with_version DOCKER_IMAGES setting self language user_code solve_params
          expected None show_logs ct et)
  /\ (startswith "python" language = false ->
      config = create_config language solve_params expected "int" standard
                 "-Wall -Wextra -O2").
Proof.
  intros config. subst config. split; [|split].
  - unfold test_with_version_config.
    destruct standard as [std|]; [|by repeat split].
    destruct (negb (String.eqb std "") && negb (startswith "python" language));
      [|by repeat split].
    destruct (String.eqb language "c"); [by repeat split|].
    destruct (String.eqb language "cpp"); by repeat split.
  - intros Hp. unfold test_with_version, test_with_version_config.
    destruct standard as [std|]; [|done]. rewrite Hp. cbn [negb].
    by rewrite andb_false_r.
  - intros Hp. unfold test_with_version_config, create_config.
    destruct standard as [std|]; [|done]. rewrite Hp. cbn [negb].
    by rewrite andb_true_r.
Qed.

Definition supported_test (test : Test) : Prop :=
  supported DOCKER_IMAGES (test_language test) = true.


Lemma batch_test_from_unsupported self show_progress worlds pre test post :
  Forall supported_test pre ->
  supported DOCKER_IMAGES (test_language test) = false ->
  forall i results s,
    batch_test_from DOCKER_IMAGES setting self show_progress worlds i
      (pre ++ test :: post)%list results s
    = (Raised (unsupported_language (test_language test)),
       (batch_test_from DOCKER_IMAGES setting self show_progress worlds i pre results
          s).2).
Proof.
  intros Hpre Ht. induction Hpre as [|first pre Hf _ IH]; intros i results s.
  - cbn [app batch_test_from]. unfold invoke, test_with_version, run_microservice.
    by rewrite Ht.
  - cbn [app batch_test_from]. unfold invoke, test_with_version.
    destruct (run_microservice_verdict DOCKER_IMAGES setting self (test_language first)
                (test_user_code first)
                (PDict (test_with_version_config (test_language first)
                          (test_solve_params first) (test_expected first)
                          (test_standard first)))
                (test_show_logs first) (test_compile_timeout first)
                (test_execution_timeout first) (worlds i) s Hf)
      as (d & s1 & -> & Hd).
    rewrite bool_decide_true by eauto. cbn [negb]. rewrite andb_false_r.
    apply IH.
Qed.


(** X15.  A test that names a language without an image makes
    [batch_test] raise [ValueError]: no list is returned, the verdicts of the
    tests before it are lost, and the state is the one those tests left, so
    nothing was done for the test itself and the tests after it were not
    run. *)
Theorem batch_test_aborts_on_unsupported_language
    self pre test post show_progress worlds s :
  Forall supported_test pre ->
  supported DOCKER_IMAGES (test_language test) = false ->
  batch_test DOCKER_IMAGES setting self (pre ++ test :: post)%list show_progress worlds s
  = (Raised (unsupported_language (test_language test)),
     (batch_test DOCKER_IMAGES setting self pre show_progress worlds s).2).
Proof. intros. by apply batch_test_from_unsupported. Qed.

End CallerProperties.

(** X16.  The counts in the summary of [batch_submit] are consistent,
    however the interpreter rounds its divisions: the successes and the
    errors add up to the number of tests, the successes lie between 0 and
    that number, the errors are never negative, and there is no error
    exactly when every response is a success.  Without any response the rate
    and the average time are the integer 0: nothing is divided by zero. *)
Theorem batch_summary_consistent int_truediv float_truediv results total_time :
  let summary := batch_summary int_truediv float_truediv results total_time in
  success_count summary + error_count summary = total_tests summary
  /\ 0 <= success_count summary <= total_tests summary
  /\ 0 <= error_count summary
  /\ (error_count summary = 0 <-> Forall (fun r => is_success r = true) results)
  /\ (results = [] ->
      total_tests summary = 0
      /\ success_rate summary = PInt 0 /\ average_time_per_test summary = PInt 0)
  /\ (results <> [] ->
      0 < total_tests summary
      /\ success_rate summary
         = PFloat (int_truediv (success_count summary) (total_tests summary))
      /\ average_time_per_test summary
         = PFloat (float_truediv total_time (total_tests summary))).
Proof.
  intros summary. subst summary. unfold batch_summary. cbn [success_count
    error_count total_tests success_rate average_time_per_test].
  pose proof (filter_length_le is_success results) as Hle.
  pose proof (filter_all is_success results) as Hall.
  split; [lia|]. split; [lia|]. split; [lia|]. split.
  - rewrite <- Hall. lia.
  - split.
    + intros ->. by repeat split.
    + intros Hn. destruct results as [|r rs]; [done|]. cbn [length].
      split; [lia|]. by split.
Qed.

(** ** The calls of an invocation *)

(** A call that stays inside the sandbox: it creates no container, works
    in [/app] and reads [/app/result.json] only, and stops the container
    with a timeout of one second. *)
Definition confined (c : Call) : Prop :=
  match c with
  | ContainersCreate _ _ _ _ _ _ _ => False
  | ContainerStart => True
  | PutArchive path _ => path = "/app"
  | ExecRun _ workdir => workdir = "/app"
  | GetArchive path => path = "/app/result.json"
  | ContainerStop timeout => timeout = 1
  | ContainerRemove => True
  end.

(** A block that only adds calls to the log, all of them satisfying [P]. *)
Definition issues {R A} (P : Call -> Prop) (m : M R A) : Prop :=
  forall w s, exists l, log (m w s).2 = (log s ++ l)%list /\ Forall P l.

Section Issues.
  Context {R : Type} (P : Call -> Prop).

Lemma issues_nothing A (m : M R A) :
  (forall w s, log (m w s).2 = log s) -> issues P m.
Proof. intros H w s. exists []. by rewrite H, app_nil_r. Qed.

Lemma issues_ret A (a : A) : issues P (mret a : M R A).
Proof. by apply issues_nothing. Qed.

Lemma issues_return A v : issues P (return_ v : M R A).
Proof. by apply issues_nothing. Qed.

Lemma issues_raise A e : issues P (raise e : M R A).
Proof. by apply issues_nothing. Qed.

Lemma issues_continue A : issues P (continue_ : M R A).
Proof. by apply issues_nothing. Qed.

Lemma issues_time : issues P (time_time : M R Q).
Proof. by apply issues_nothing. Qed.

Lemma issues_append d : issues P (results_append d : M R unit).
Proof. by apply issues_nothing. Qed.

Lemma issues_get_results : issues P (get_results : M R (list dict)).
Proof. by apply issues_nothing. Qed.

Lemma issues_set_container b : issues P (set_container b : M R unit).
Proof. by apply issues_nothing. Qed.

Lemma issues_lift A (a : answer A) : issues P (lift a : M R A).
Proof. apply issues_nothing. by destruct a. Qed.

Lemma issues_ask A (f : World -> A) : issues P (ask f : M R A).
Proof. by apply issues_nothing. Qed.

Lemma issues_loads c : issues P (loads c : M R pyval).
Proof. apply issues_nothing. intros w s. unfold loads. by destruct (json_loads w c). Qed.

Lemma issues_call A c (a : World -> answer A) : P c -> issues P (call c a : M R A).
Proof.
  intros Hc w s. exists [c]. unfold call. destruct (a w); cbn; by repeat constructor.
Qed.

Lemma issues_bind A B (m : M R A) (k : A -> M R B) :
  issues P m -> (forall a, issues P (k a)) -> issues P (m ≫= k).
Proof.
  intros Hm Hk w s. unfold mbind, M_bind, bind.
  destruct (Hm w s) as (l & Hl & HP).
  destruct (m w s) as [[a|v| |e] s']; cbn in *; eauto.
  destruct (Hk a w s') as (l' & Hl' & HP').
  exists (l ++ l')%list. rewrite Hl', Hl, <- app_assoc. split; [done|].
  by apply Forall_app.
Qed.

Lemma issues_try_except A (m : M R A) h :
  issues P m -> (forall e, issues P (h e)) -> issues P (try_except m h).
Proof.
  intros Hm Hh w s. unfold try_except.
  destruct (Hm w s) as (l & Hl & HP).
  destruct (m w s) as [[a|v| |e] s']; cbn in *; eauto.
  destruct (Hh e w s') as (l' & Hl' & HP').
  exists (l ++ l')%list. rewrite Hl', Hl, <- app_assoc. split; [done|].
  by apply Forall_app.
Qed.

Lemma issues_for_enumerate A (xs : list A) body :
  (forall i x, issues P (body i x)) ->
  forall start, issues P (for_enumerate start xs body : M R unit).
Proof.
  intros Hb. induction xs as [|x xs IH]; intros start w s.
  { exists []. cbn. by rewrite app_nil_r. }
  cbn [for_enumerate]. destruct (Hb start x w s) as (l & Hl & HP).
  destruct (body start x w s) as [[a|v| |e] s']; cbn in *; eauto;
    destruct (IH (S start) w s') as (l' & Hl' & HP');
    exists (l ++ l')%list; rewrite Hl', Hl, <- app_assoc;
    (split; [done|]); by apply Forall_app.
Qed.

Lemma issues_comprehension A (f : nat -> M R A) n :
  (forall i, issues P (f i)) -> forall start, issues P (comprehension f start n).
Proof.
  intros Hf. induction n as [|n IH]; intros start; [apply issues_ret|].
  cbn [comprehension]. apply issues_bind; [done|]. intros x.
  apply issues_bind; [apply IH|]. intros xs. apply issues_ret.
Qed.

(** A [try] that starts with a call. *)
Lemma issues_after_call A B c (a : World -> answer A) (k : A -> M R B) h w s :
  (forall x, issues P (k x)) -> (forall e, issues P (h e)) ->
  exists l, log (try_except (call c a ≫= k) h w s).2 = (log s ++ c :: l)%list
            /\ Forall P l.
Proof.
  intros Hk Hh. unfold try_except, mbind, M_bind, bind, call.
  set (s1 := {| log := log s ++ [c]; ticks := ticks s; container := container s;
                results := results s |}).
  assert (Hlog : forall l, (log s1 ++ l = log s ++ c :: l)%list).
  { intros l. cbn. by rewrite <- app_assoc. }
  destruct (a w) as [x|e].
  - destruct (Hk x w s1) as (l & Hl & HP).
    destruct (k x w s1) as [[b|v| |e] s']; cbn in *; rewrite ?Hl, ?Hlog; eauto.
    destruct (Hh e w s') as (l' & Hl' & HP').
    exists (l ++ l')%list. rewrite Hl', Hl, <- app_assoc, Hlog.
    split; [done|]. by apply Forall_app.
  - destruct (Hh e w s1) as (l & Hl & HP). rewrite Hl, Hlog. eauto.
Qed.
End Issues.

(** A block that starts by computing the argument of its first call. *)
Lemma ask_call_first {R X A B C} (f : World -> X) (c : X -> Call)
    (a : World -> answer A) (g : A -> M R B) (k : B -> M R C) w s :
  ((ask f ≫= (fun x => call (c x) a ≫= g)) ≫= k) w s
  = (call (c (f w)) a ≫= (fun y => g y ≫= k)) w s.
Proof. unfold mbind, M_bind, bind, ask, call. by destruct (a w). Qed.

Lemma ask_call_first2 {R X A B C D} (f : World -> X) (c : X -> Call)
    (a : World -> answer A) (g : A -> M R B) (k : B -> M R C) (h : C -> M R D) w s :
  (((ask f ≫= (fun x => call (c x) a ≫= g)) ≫= k) ≫= h) w s
  = (call (c (f w)) a ≫= (fun y => (g y ≫= k) ≫= h)) w s.
Proof. unfold mbind, M_bind, bind, ask, call. by destruct (a w). Qed.

Lemma try_except_ext {R A} (m m' : M R A) h w s :
  m w s = m' w s -> try_except m h w s = try_except m' h w s.
Proof. intros H. unfold try_except. by rewrite H. Qed.

Ltac issues_step :=
  first
    [ apply issues_bind; [|intros ?]
    | apply issues_try_except; [|intros ?]
    | apply issues_for_enumerate; intros ? ?
    | apply issues_comprehension; intros ?
    | apply issues_ret | apply issues_return | apply issues_raise
    | apply issues_continue | apply issues_time | apply issues_append
    | apply issues_get_results | apply issues_set_container | apply issues_lift
    | apply issues_ask | apply issues_loads
    | apply issues_call; done
    | match goal with
      | |- issues _ (if ?b then _ else _) => destruct b
      | |- issues _ (match ?x with _ => _ end) => destruct x
      end ].

Ltac issues_tac := repeat issues_step.

Section Confinement.

  Variable DOCKER_IMAGES : gmap string string.
  Variable setting : Settings.

Lemma teardown_confined (s : State) (stop : answer unit) l :
  log s = l ->
  exists l', log (if container s then add_calls s (teardown_calls stop) else s)
             = (l ++ l')%list
             /\ Forall confined l'.
Proof.
  intros <-. destruct (container s).
  - exists (teardown_calls stop). split; [done|].
    destruct stop; by repeat constructor.
  - exists []. by rewrite app_nil_r.
Qed.

(** X17.  Whatever the outside world answers, an invocation of either
    entry point for a language that has an image creates one container, with
    its first call: from the image of the language, without privileges,
    with the network disabled, with the memory limit of the settings, and
    with the integer part of the float product [100000 * container_cpu], as
    the interpreter rounds it, for CPU quota.  Every call after it stays
    inside that sandbox: uploads go to [/app], commands run in [/app], the
    only file read is [/app/result.json], and a stop waits one second. *)
Theorem sandbox_is_confined self language user_code config configs show_logs ct et w :
  supported DOCKER_IMAGES language = true ->
  let create :=
    ContainersCreate (image_of DOCKER_IMAGES language)
      (int_of_float (float_mul w 100000 (container_cpu setting)))
      (container_mem setting) false true "sleep infinity" true in
  (exists l,
     calls (run_microservice DOCKER_IMAGES setting self language user_code config
              show_logs ct et w initial) = create :: l
     /\ Forall confined l)
  /\ (configs <> [] ->
      exists l,
        calls (optimized_batch_test DOCKER_IMAGES setting self language user_code
                 configs show_logs ct et w initial) = create :: l
        /\ Forall confined l).
Proof.
  intros Hs create. subst create. split; [|intros Hn].
  - rewrite run_microservice_unfold by done. rewrite try_finally_teardown.
    unfold calls. cbn [snd]. unfold run_microservice_body.
    match goal with
    | |- context [try_except ?m ?h ?w ?s] =>
      let H := fresh "H" in
      eassert (H : m w s = (call _ containers_create ≫= _) w s)
        by (unfold run_microservice_steps, stage_step, create_container;
            apply ask_call_first2);
      rewrite (try_except_ext _ _ h w s H); clear H
    end.
    match goal with
    | |- context [try_except (call ?c ?a ≫= ?k) ?h ?w ?s] =>
      destruct (issues_after_call confined _ _ c a k h w s) as (l & Hl & HP)
    end.
    { intros. unfold _create_file_tar, compile_step, execute_step, collect_step.
      issues_tac. }
    { intros. unfold error_verdict. issues_tac. }
    destruct (teardown_confined _ (stop_at_teardown w) _ Hl) as (l' & -> & HP').
    exists (l ++ l')%list. split; [done|]. by apply Forall_app.
  - rewrite optimized_batch_unfold by done. rewrite try_finally_teardown.
    unfold calls. cbn [snd]. unfold optimized_batch_body.
    match goal with
    | |- context [try_except ?m ?h ?w ?s] =>
      let H := fresh "H" in
      eassert (H : m w s = (call _ containers_create ≫= _) w s)
        by (unfold optimized_batch_steps, create_container; apply ask_call_first);
      rewrite (try_except_ext _ _ h w s H); clear H
    end.
    match goal with
    | |- context [try_except (call ?c ?a ≫= ?k) ?h ?w ?s] =>
      destruct (issues_after_call confined _ _ c a k h w s) as (l & Hl & HP)
    end.
    { intros. unfold _create_user_code_tar, batch_compile, batch_iteration,
        _create_config_tar.
      issues_tac. }
    { intros. unfold batch_error_verdicts. issues_tac. }
    destruct (teardown_confined _ (stop_at_teardown w) _ Hl) as (l' & -> & HP').
    exists (l ++ l')%list. split; [done|]. by apply Forall_app.
Qed.

End Confinement.

(** ** The verdict of a test that ran out of time *)

Section Timeout.

  Variable DOCKER_IMAGES : gmap string string.
  Variable setting : Settings.

(** X18.  When the test of a single execution took longer than the limit
    and the container could be stopped, the verdict is made by the engine
    alone: [TIMEOUT], a message naming the limit in force, and the wall time
    observed under [test_execution_time].  The result file is not read,
    whatever the runner wrote, and the container is stopped twice: on the
    timeout and by the teardown. *)
Theorem timeout_verdict_made_by_engine
    self language user_code config show_logs ct et w er :
  continue_on_timeout self = false ->
  supported DOCKER_IMAGES language = true ->
  staged w ->
  let T := default (default 30 (compile_timeout setting)) ct in
  let E := default (container_timeout setting) et in
  let r := run_microservice DOCKER_IMAGES setting self language user_code config
             show_logs ct et w initial in
  compiled w language T ->
  exec_test w 0 = Returns er ->
  Qgtb (test_wall w language) (inject_Z E) = true ->
  stop_on_timeout w = Returns tt ->
  (exists d,
     returned r = Some d
     /\ status_of d = Some (PStr "TIMEOUT")
     /\ d !! "message"
        = Some (PStr ("Test execution exceeded timeout limit of " +:+ pretty E
                      +:+ " seconds"))
     /\ d !! "test_execution_time" = Some (PFloat (test_wall w language)))
  /\ calls r
     = (calls_before_test DOCKER_IMAGES setting w language user_code config T
        ++ [ExecRun (test_command_timeout E) "/app"; ContainerStop 1]
        ++ teardown_calls (stop_at_teardown w))%list.
Proof.
  intros Hc Hs Hst T E r Hcomp He Hw Hstop. subst r.
  rewrite (run_microservice_reaches_test DOCKER_IMAGES setting) by done.
  fold T E. unfold returned, calls, test_and_collect, execute_step. cbn [fst snd].
  rewrite Hc. unfold test_wall in Hw.
  unfold state_at_test. unfold_monad. cbn [ticks log container results].
  rewrite He. cbn [fst snd ticks log container results]. rewrite Hw.
  cbn [fst snd ticks log container results]. rewrite Hstop. cbn.
  split.
  - eexists. split; [reflexivity|]. repeat split; reflexivity.
  - by rewrite <- !app_assoc.
Qed.

End Timeout.

(** ** The configuration built for a request *)

Lemma python_is_not_c language :
  startswith "python" language = true ->
  String.eqb language "c" = false /\ String.eqb language "cpp" = false.
Proof.
  intros H. split; apply String.eqb_neq; intros ->; by vm_compute in H.
Qed.

(** X19.  [_execute_judge_sync] always hands the problem of the request to
    the engine under [solve_params], [expected] and [function_type].  A
    standard is recorded under the key of the language of the request only,
    so a request for a Python language carries none.  For a language that is
    not Python, a request for the return type [int] with a standard and the
    flags [-Wall -Wextra -O2] gives the configuration that
    [test_with_version] builds for that standard. *)
Theorem request_config_by_language request :
  let config := request_config request in
  (config !! "solve_params" = Some (PList (req_solve_params request))
   /\ config !! "expected" = Some (req_expected request)
   /\ config !! "function_type" = Some (PStr (req_function_type request)))
  /\ (startswith "python" (req_language request) = true ->
      config !! "c_standard" = None /\ config !! "cpp_standard" = None)
  /\ (forall std,
        startswith "python" (req_language request) = false ->
        std <> "" ->
        req_function_type request = "int" ->
        req_compiler_settings request
        = Some {| standard := Some std; flags := Some "-Wall -Wextra -O2" |} ->
        config = test_with_version_config (req_language request)
                   (PList (req_solve_params request)) (req_expected request)
                   (Some std)).
Proof.
  intros config. subst config. unfold request_config. split; [|split].
  - destruct (req_compiler_settings request) as [[std f]|]; [|by repeat split].
    cbn [standard flags].
    assert (H : forall c : dict,
              c !! "solve_params" = Some (PList (req_solve_params request))
              /\ c !! "expected" = Some (req_expected request)
              /\ c !! "function_type" = Some (PStr (req_function_type request)) ->
              forall c', (c' = c \/ exists v, c' = <["compiler_flags" := v]> c) ->
              c' !! "solve_params" = Some (PList (req_solve_params request))
              /\ c' !! "expected" = Some (req_expected request)
              /\ c' !! "function_type" = Some (PStr (req_function_type request))).
    { intros c Hc c' [-> | (v & ->)]; [done|]. by rewrite !lookup_insert_ne. }
    eapply H.
    2: { destruct f as [f|]; [|by left]. destruct (String.eqb f ""); [by left|].
         right. by eexists. }
    destruct std as [std|]; [|by repeat split].
    destruct (String.eqb (req_language request) "c");
      [rewrite !lookup_insert_ne by done; by repeat split|].
    destruct (String.eqb (req_language request) "cpp");
      [rewrite !lookup_insert_ne by done; by repeat split|].
    by repeat split.
  - intros Hp. destruct (python_is_not_c _ Hp) as [Hc Hcpp].
    destruct (req_compiler_settings request) as [[std f]|]; [|by split].
    cbn [standard flags]. rewrite Hc, Hcpp.
    destruct std as [std|], f as [f|]; try destruct (String.eqb f ""); by split.
  - intros std Hp Hstd Hf ->. cbn [standard flags].
    unfold test_with_version_config. rewrite Hp, Hf.
    apply String.eqb_neq in Hstd. rewrite Hstd. cbn [negb andb].
    reflexivity.
Qed.

(** ** The further statements on the sample worlds *)

(** No daemon answers: the creation of the container raises. *)
Definition no_daemon : World :=
  {| clock := clock fine; float_mul := float_mul fine; json_loads := json_loads fine;
     json_dumps := json_dumps fine;
     containers_create :=
       Raises (Exception "DockerException" "Error while fetching server API version");
     container_start := container_start fine; put_archive := put_archive fine;
     exec_compile := exec_compile fine; exec_test := exec_test fine;
     stop_on_timeout := stop_on_timeout fine; get_archive := get_archive fine;
     stop_at_teardown := stop_at_teardown fine;
     remove_at_teardown := remove_at_teardown fine |}.

(** A directory named like the result, and the result. *)
Definition result_directory : TarMember :=
  {| tm_name := "result.json"; tm_isfile := false; tm_mode := 493; tm_mtime := 0;
     tm_data := [] |}.

Definition result_file : TarMember :=
  {| tm_name := "app/result.json"; tm_isfile := true; tm_mode := 420; tm_mtime := 0;
     tm_data := encode_utf8 "success" |}.

(** A request for a language that has no image. *)
Definition java_request : JudgeRequest :=
  {| req_language := "java"; req_user_code := "class Main {}"; req_solve_params := [];
     req_expected := PDict ∅; req_function_type := "int";
     req_compiler_settings := None; req_resource_limits := None;
     req_show_logs := None |}.

Definition c_test : Test :=
  {| test_language := "c"; test_user_code := c_code; test_solve_params := PList [];
     test_expected := PDict ∅; test_standard := Some "c11"; test_show_logs := false;
     test_compile_timeout := None; test_execution_timeout := None |}.

Definition java_test : Test :=
  {| test_language := "java"; test_user_code := "class Main {}";
     test_solve_params := PList []; test_expected := PDict ∅; test_standard := None;
     test_show_logs := false; test_compile_timeout := None;
     test_execution_timeout := None |}.

Lemma extract_result_takes_first_match_witness :
  Forall (fun m => is_result_file m = false) [result_directory]
  /\ is_result_file result_file = true
  /\ _extract_result_from_tar (Tar ([result_directory] ++ result_file :: []))
     = decode_utf8 Strict (tm_data result_file).
Proof.
  assert (Hpre : Forall (fun m => is_result_file m = false) [result_directory])
    by (by repeat constructor).
  assert (Hm : is_result_file result_file = true) by (vm_compute; reflexivity).
  split; [exact Hpre|]. split; [exact Hm|].
  exact (extract_result_takes_first_match [result_directory] result_file [] Hpre Hm).
Defined.

Lemma strict_decoding_is_the_identity_witness :
  decode_utf8 Strict (encode_utf8 "success") = Returns "success"
  /\ encode_utf8 "success" = encode_utf8 "success"
  /\ decode_lenient Ignore (encode_utf8 "success") = "success"
  /\ decode_lenient Replace (encode_utf8 "success") = "success".
Proof.
  assert (H : decode_utf8 Strict (encode_utf8 "success") = Returns "success")
    by (vm_compute; reflexivity).
  split; [exact H|].
  exact (strict_decoding_is_the_identity (encode_utf8 "success") "success" H).
Defined.

Lemma ascii_result_round_trip_witness :
  endswith "result.json" "app/result.json" = true
  /\ is_ascii "success"
  /\ _extract_result_from_tar
       (Tar [ {| tm_name := "app/result.json"; tm_isfile := true; tm_mode := 420;
                 tm_mtime := 0; tm_data := encode_utf8 "success" |} ])
     = Returns "success".
Proof.
  assert (Hn : endswith "result.json" "app/result.json" = true)
    by (vm_compute; reflexivity).
  assert (Ha : is_ascii "success") by (unfold is_ascii; cbn; by repeat constructor).
  split; [exact Hn|]. split; [exact Ha|].
  exact (ascii_result_round_trip "app/result.json" 420 0 "success" Hn Ha).
Defined.

Lemma unsupported_language_raises_witness :
  supported images "java" = false
  /\ run_microservice images settings service "java" "class Main {}" (PDict ∅) false
       None None fine initial
     = (Raised (unsupported_language "java"), initial)
  /\ optimized_batch_test images settings service "java" "class Main {}" [PDict ∅]
       false None None fine initial
     = (Raised (unsupported_language "java"), initial)
  /\ optimized_batch_test images settings service "java" "class Main {}" []
       false None None fine initial
     = (Raised (unsupported_language "java"), initial).
Proof.
  assert (Hs : supported images "java" = false) by (vm_compute; reflexivity).
  split; [exact Hs|].
  exact (unsupported_language_raises images settings service "java" "class Main {}"
           (PDict ∅) [PDict ∅] false None None fine initial Hs).
Defined.

Lemma execute_judge_sync_unsupported_language_witness :
  supported images (req_language java_request) = false
  /\ exists response,
       _execute_judge_sync images settings members service java_request fine initial
       = (Returned response, initial)
       /\ status response = "ERROR"
       /\ error_details response = PStr "Unsupported language: java".
Proof.
  assert (Hs : supported images (req_language java_request) = false)
    by (vm_compute; reflexivity).
  split; [exact Hs|].
  destruct (execute_judge_sync_unsupported_language images settings members service
              java_request fine initial Hs) as (response & Hr & Hst & _ & Hd & _).
  exists response. split; [exact Hr|]. split; [exact Hst|]. exact Hd.
Defined.

Lemma staging_failure_verdict_witness :
  supported images "c" = true
  /\ staging_fails no_daemon
       (Exception "DockerException" "Error while fetching server API version")
  /\ calls (run_microservice images settings service "c" c_code (PDict ∅) false
              None None no_daemon initial)
     = [create_call images settings no_daemon "c"].
Proof.
  assert (Hs : supported images "c" = true) by (vm_compute; reflexivity).
  assert (Hf : staging_fails no_daemon
                 (Exception "DockerException" "Error while fetching server API version"))
    by (left; reflexivity).
  split; [exact Hs|]. split; [exact Hf|].
  destruct (staging_failure_verdict images settings service "c" c_code (PDict ∅) false
              None None no_daemon _ Hs Hf) as (_ & _ & Hcalls & _).
  apply Hcalls. reflexivity.
Defined.

Lemma run_microservice_always_returns_witness :
  supported images "c" = true
  /\ exists d,
       returned (run_microservice images settings service "c" c_code (PDict ∅) false
                   None None broken_build initial) = Some d
       /\ verdict_of_run broken_build d.
Proof.
  assert (Hs : supported images "c" = true) by (vm_compute; reflexivity).
  split; [exact Hs|].
  exact (run_microservice_always_returns images settings service "c" c_code (PDict ∅)
           false None None broken_build initial Hs).
Defined.

Lemma python_runs_no_compile_witness :
  supported images "python" = true
  /\ startswith "python" "python" = true
  /\ staged fine
  /\ List.filter is_exec_run
       (calls (run_microservice images settings service "python" "def solve(): pass"
                 (PDict ∅) false None None fine initial))
     = [ExecRun (test_command service 10) "/app"].
Proof.
  assert (Hs : supported images "python" = true) by (vm_compute; reflexivity).
  assert (Hp : startswith "python" "python" = true) by (vm_compute; reflexivity).
  assert (Hst : staged fine) by (by repeat split).
  split; [exact Hs|]. split; [exact Hp|]. split; [exact Hst|].
  destruct (python_runs_no_compile images settings service "python" "def solve(): pass"
              (PDict ∅) false None None fine Hs Hp) as [_ H].
  exact (H Hst).
Defined.

Lemma batch_staging_failure_verdicts_witness :
  supported images "c" = true
  /\ [PDict ∅; PDict ∅] <> []
  /\ staging_fails no_daemon
       (Exception "DockerException" "Error while fetching server API version")
  /\ exists rs,
       returned (optimized_batch_test images settings service "c" c_code
                   [PDict ∅; PDict ∅] false None None no_daemon initial) = Some rs
       /\ length rs = 2%nat.
Proof.
  assert (Hs : supported images "c" = true) by (vm_compute; reflexivity).
  assert (Hn : [PDict ∅; PDict ∅] <> []) by done.
  assert (Hf : staging_fails no_daemon
                 (Exception "DockerException" "Error while fetching server API version"))
    by (left; reflexivity).
  split; [exact Hs|]. split; [exact Hn|]. split; [exact Hf|].
  destruct (batch_staging_failure_verdicts images settings service "c" c_code
              [PDict ∅; PDict ∅] false None None no_daemon _ Hs Hn Hf)
    as (rs & Hr & Hlen & _).
  exists rs. split; [exact Hr | exact Hlen].
Defined.

Lemma batch_shares_compile_time_witness :
  supported images "c" = true
  /\ [PDict ∅; PDict ∅] <> []
  /\ staged fine
  /\ batch_compiled fine "c" 30
  /\ exists rs,
       returned (optimized_batch_test images settings service "c" c_code
                   [PDict ∅; PDict ∅] false None None fine initial) = Some rs
       /\ Forall (fun d => d !! "compile_execution_time"
                           = Some (batch_compile_time fine "c")) rs.
Proof.
  assert (Hs : supported images "c" = true) by (vm_compute; reflexivity).
  assert (Hn : [PDict ∅; PDict ∅] <> []) by done.
  assert (Hst : staged fine) by (by repeat split).
  assert (Hc : batch_compiled fine "c" 30).
  { right. eexists. split; [reflexivity|]. split; reflexivity. }
  split; [exact Hs|]. split; [exact Hn|]. split; [exact Hst|]. split; [exact Hc|].
  destruct (batch_shares_compile_time images settings service "c" c_code
              [PDict ∅; PDict ∅] false None None fine Hs Hn Hst Hc)
    as (rs & Hr & _ & Hall).
  exists rs. split; [exact Hr | exact Hall].
Defined.


Lemma batch_test_aborts_on_unsupported_language_witness :
  Forall (supported_test images) [c_test]
  /\ supported images (test_language java_test) = false
  /\ (batch_test images settings service ([c_test] ++ java_test :: [c_test]) true
        (fun _ => fine) initial).1
     = Raised (unsupported_language "java").
Proof.
  assert (Ht : Forall (supported_test images) [c_test])
    by (repeat constructor; vm_compute; reflexivity).
  assert (Hs : supported images (test_language java_test) = false)
    by (vm_compute; reflexivity).
  split; [exact Ht|]. split; [exact Hs|].
  rewrite (batch_test_aborts_on_unsupported_language images settings service [c_test]
             java_test [c_test] true (fun _ => fine) initial Ht Hs).
  reflexivity.
Defined.

Lemma sandbox_is_confined_witness :
  supported images "c" = true
  /\ exists l,
       calls (run_microservice images settings service "c" c_code (PDict ∅) false
                None None stuck_container initial)
       = ContainersCreate "judge-c" 100000 "128m" false true "sleep infinity" true :: l
       /\ Forall confined l.
Proof.
  assert (Hs : supported images "c" = true) by (vm_compute; reflexivity).
  split; [exact Hs|].
  destruct (sandbox_is_confined images settings service "c" c_code (PDict ∅) [] false
              None None stuck_container Hs) as [H _].
  exact H.
Defined.

Lemma timeout_verdict_made_by_engine_witness :
  continue_on_timeout service = false
  /\ supported images "c" = true
  /\ staged slow_test
  /\ compiled slow_test "c" 30
  /\ exec_test slow_test 0 = Returns {| exit_code := 0; output := [] |}
  /\ Qgtb (test_wall slow_test "c") (inject_Z 10) = true
  /\ stop_on_timeout slow_test = Returns tt
  /\ List.filter is_get_archive
       (calls (run_microservice images settings service "c" c_code (PDict ∅) false
                 None None slow_test initial)) = [].
Proof.
  assert (Hc : continue_on_timeout service = false) by reflexivity.
  assert (Hs : supported images "c" = true) by (vm_compute; reflexivity).
  assert (Hst : staged slow_test) by (by repeat split).
  assert (Hcomp : compiled slow_test "c" 30).
  { right. eexists. split; [reflexivity|]. split; reflexivity. }
  assert (He : exec_test slow_test 0 = Returns {| exit_code := 0; output := [] |})
    by reflexivity.
  assert (Hw : Qgtb (test_wall slow_test "c") (inject_Z 10) = true)
    by (vm_compute; reflexivity).
  assert (Hstop : stop_on_timeout slow_test = Returns tt) by reflexivity.
  split; [exact Hc|]. split; [exact Hs|]. split; [exact Hst|]. split; [exact Hcomp|].
  split; [exact He|]. split; [exact Hw|]. split; [exact Hstop|].
  destruct (timeout_verdict_made_by_engine images settings service "c" c_code (PDict ∅)
              false None None slow_test _ Hc Hs Hst Hcomp He Hw Hstop) as [_ Hcalls].
  rewrite Hcalls. reflexivity.
Defined.
